(** * Resumable Dropbox inventory: enumerator, checkpoints, dedup store, verifier

    A shallow embedding of the three scripts of the repository

      - [dropbox_inv.py]                              (class [DropboxInventory])
      - [create_dropbox_inventory/create_inventory.py] (class [HybridInventory])
      - [verify_inventory.py]                          (the verifier's [main])

    Python integers are [Z]; dictionaries and sets are stdpp's [gmap] and
    [gset]; the remote API, the clock and [time.sleep] are the operations of
    an abstract environment that is threaded through every call; the files
    the scripts read and write form a finite map from path to contents.

    Not modelled: logging and printing, the CSV projection, the wall-clock
    stamps ([timestamp], [generated]) and the floating-point renderings
    ([size_mb], [total_size_gb], [size_by_type_gb]), all of which are
    functions of the integer fields kept here. *)

From Stdlib Require Import ZArith Ascii String List Bool Lia.
From stdpp Require Import base option list strings gmap.

Import ListNotations.
Local Open Scope Z_scope.
Local Open Scope string_scope.

(** ** Python string helpers *)

(** [s.split(sep)] for a one-character separator: every occurrence of [sep]
    ends a part, so the result is never empty. *)
Fixpoint split (sep : ascii) (s : string) : list string :=
  match s with
  | EmptyString => [EmptyString]
  | String c s' =>
      if Ascii.eqb c sep then EmptyString :: split sep s'
      else match split sep s' with
           | p :: ps => String c p :: ps
           | [] => [String c EmptyString]
           end
  end.

(** [sep.join(parts)]. *)
Fixpoint join (sep : string) (parts : list string) : string :=
  match parts with
  | [] => EmptyString
  | [p] => p
  | p :: (_ :: _) as rest => p +:+ sep +:+ join sep rest
  end.

(** [s.count(c)] for a one-character needle. *)
Fixpoint count_char (c : ascii) (s : string) : nat :=
  match s with
  | EmptyString => O
  | String a s' => (if Ascii.eqb a c then 1 else 0)%nat + count_char c s'
  end.

(** [s.rfind('.')], as [None] for Python's -1. *)
Fixpoint rfind_dot (s : string) : option nat :=
  match s with
  | EmptyString => None
  | String c s' =>
      match rfind_dot s' with
      | Some i => Some (S i)
      | None => if Ascii.eqb c "." then Some O else None
      end
  end.

(** [pathlib]'s [suffix] on a bare file name, one without ['/']: the text
    from the last dot on, unless that dot is the first or the last
    character. *)
Definition suffix (name : string) : string :=
  match rfind_dot name with
  | Some i =>
      if ((0 <? i) && (i <? String.length name - 1))%nat
      then substring i (String.length name - i) name
      else EmptyString
  | None => EmptyString
  end.

(** [str.lower] on the ASCII letters. *)
Definition lower_ascii (c : ascii) : ascii :=
  let n := nat_of_ascii c in
  if ((65 <=? n) && (n <=? 90))%nat then ascii_of_nat (n + 32) else c.

Fixpoint lower (s : string) : string :=
  match s with
  | EmptyString => EmptyString
  | String c s' => String (lower_ascii c) (lower s')
  end.

(** Truthiness of an optional string: [None] and [''] are false. *)
Definition truthy (o : option string) : bool :=
  match o with
  | Some EmptyString | None => false
  | Some _ => true
  end.

(** Truthiness of a list. *)
Definition nonempty {A : Type} (l : list A) : bool :=
  match l with [] => false | _ :: _ => true end.

(** [x or d] on strings. *)
Definition str_or (x d : string) : string :=
  match x with EmptyString => d | _ => x end.

(** ** Data model *)

(** The ['type'] of an inventory entry. *)
Inductive EntryType := file | folder.

Global Instance EntryType_eq_dec : EqDecision EntryType.
Proof. solve_decision. Defined.

(** The dictionary built by [_process_entry]. *)
Record Entry := {
  type : EntryType;
  name : string;
  path : string;
  path_lower : string;
  extension : option string;
  size_bytes : Z;
  modified : option string;
  content_hash : option string;
  revision : option string;
  dropbox_id : string;
  folder_depth : Z;
  parent_folder : string;
}.

(** What the listing API returns: [FileMetadata], [FolderMetadata], or
    another metadata class (a deleted entry). *)
Record FileMetadata := {
  fm_name : string;
  fm_path_display : string;
  fm_path_lower : string;
  fm_size : Z;
  fm_server_modified : option string;
  fm_content_hash : option string;
  fm_rev : string;
  fm_id : string;
}.

Record FolderMetadata := {
  dm_name : string;
  dm_path_display : string;
  dm_path_lower : string;
  dm_id : string;
}.

Inductive Metadata :=
| IsFile (m : FileMetadata)
| IsFolder (m : FolderMetadata)
| IsOther.

Record ListFolderResult := {
  res_entries : list Metadata;
  res_cursor : string;
  res_has_more : bool;
}.

(** [Path(name).suffix.lower() or None]. *)
Definition extension_of (name : string) : option string :=
  match lower (suffix name) with
  | EmptyString => None
  | ext => Some ext
  end.

(** [len(parts) - 1]. *)
Definition depth_of (parts : list string) : Z := Z.of_nat (length parts) - 1.

(** ['/'.join(parts[:-1]) or '/']. *)
Definition parent_of (parts : list string) : string :=
  str_or (join "/" (removelast parts)) "/".

(** The two dictionaries of [_process_entry]; both classes build them the
    same way. *)
Definition file_entry (m : FileMetadata) : Entry :=
  let parts := split "/" (fm_path_display m) in
  {| type := file;
     name := fm_name m;
     path := fm_path_display m;
     path_lower := fm_path_lower m;
     extension := extension_of (fm_name m);
     size_bytes := fm_size m;
     modified := fm_server_modified m;
     content_hash := fm_content_hash m;
     revision := Some (fm_rev m);
     dropbox_id := fm_id m;
     folder_depth := depth_of parts;
     parent_folder := parent_of parts |}.

Definition folder_entry (m : FolderMetadata) : Entry :=
  let parts := split "/" (dm_path_display m) in
  {| type := folder;
     name := dm_name m;
     path := dm_path_display m;
     path_lower := dm_path_lower m;
     extension := None;
     size_bytes := 0;
     modified := None;
     content_hash := None;
     revision := None;
     dropbox_id := dm_id m;
     folder_depth := depth_of parts;
     parent_folder := parent_of parts |}.

(** ** Summaries *)

Inductive Status := complete | in_progress.

(** The ['summary'] object of the inventory artifact. [size_by_type] holds
    the per-extension byte sums behind ['size_by_type_gb']; the hybrid
    script writes no such key ([None]). *)
Record Summary := {
  status : Status;
  total_entries : Z;
  total_files : Z;
  total_folders : Z;
  total_size_bytes : Z;
  api_calls_made : Z;
  file_types : gmap string Z;
  size_by_type : option (gmap string Z);
}.

(** [[e for e in entries if e['type'] == 'file']]. *)
Definition files_only (entries : list Entry) : list Entry :=
  List.filter (fun e => bool_decide (type e = file)) entries.

(** [sum(e['size_bytes'] for e in files)]. *)
Definition sum_sizes (files : list Entry) : Z :=
  fold_right (fun e acc => size_bytes e + acc) 0 files.

(** [entry.get('extension', '(none)') or '(none)']. *)
Definition ext_key (e : Entry) : string :=
  match extension e with
  | Some ext => str_or ext "(none)"
  | None => "(none)"
  end.

(** [d[k] = d.get(k, 0) + n]. *)
Definition bump (k : string) (n : Z) (d : gmap string Z) : gmap string Z :=
  <[k := default 0 (d !! k) + n]> d.

Definition ext_counts (files : list Entry) : gmap string Z :=
  fold_left (fun d e => bump (ext_key e) 1 d) files ∅.

Definition ext_sizes (files : list Entry) : gmap string Z :=
  fold_left (fun d e => bump (ext_key e) (size_bytes e) d) files ∅.

Definition status_of (has_more : bool) : Status :=
  if negb has_more then complete else in_progress.

(** ** Files *)

(** The control-state file. Every key is read with [.get], so each field
    is optional; [folders_seen] is written by the legacy script only. *)
Record Checkpoint := {
  cp_cursor : option string;
  cp_has_more : option bool;
  cp_entries_count : option Z;
  cp_api_calls : option Z;
  cp_folders_seen : option (gset string);
}.

(** The data file. *)
Record Inventory := {
  inv_summary : Summary;
  inv_entries : list Entry;
}.

Inductive Json :=
| JCheckpoint (c : Checkpoint)
| JInventory (i : Inventory).

(** A row of the CSV export: the columns of [fieldnames], every other key
    of the entry being left out by [extrasaction='ignore']. *)
Record CsvRow := {
  csv_type : EntryType;
  csv_name : string;
  csv_path : string;
  csv_extension : option string;
  csv_size_bytes : Z;
  csv_modified : option string;
  csv_content_hash : option string;
  csv_parent_folder : string;
  csv_folder_depth : Z;
}.

Definition csv_row (e : Entry) : CsvRow :=
  {| csv_type := type e;
     csv_name := name e;
     csv_path := path e;
     csv_extension := extension e;
     csv_size_bytes := size_bytes e;
     csv_modified := modified e;
     csv_content_hash := content_hash e;
     csv_parent_folder := parent_folder e;
     csv_folder_depth := folder_depth e |}.

(** A file on disk, as [json.load] finds it: a complete JSON text, or a
    text it cannot parse. That is what [open(p, 'w')] leaves until the dump
    has finished, an empty or partial text; the CSV export is no JSON text
    either. *)
Inductive Contents :=
| Truncated
| Text (j : Json).

Abbreviation FS := (gmap string Contents).

Inductive FsOp :=
| OpenW (p : string)
| Dump (p : string) (j : Json)
| WriteRows (p : string) (rows : list CsvRow)
| Unlink (p : string).

Definition fs_step (fs : FS) (op : FsOp) : FS :=
  match op with
  | OpenW p => <[p := Truncated]> fs
  | Dump p j => <[p := Text j]> fs
  | WriteRows p rows => <[p := Truncated]> fs
  | Unlink p => delete p fs
  end.

Definition fs_run (ops : list FsOp) (fs : FS) : FS := fold_left fs_step ops fs.

(** [with open(p, 'w') as f: json.dump(j, f)]. *)
Definition write_json (p : string) (j : Json) : list FsOp := [OpenW p; Dump p j].

(** [if self.entries: with open(p, 'w', ...) as f: writer.writeheader();
    writer.writerows(self.entries)]: no CSV is written for an empty list. *)
Definition write_csv (p : string) (entries : list Entry) : list FsOp :=
  if nonempty entries then [OpenW p; WriteRows p (map csv_row entries)] else [].

(** ** Exceptions and the environment *)

Inductive Exception :=
| RateLimitError (backoff : option Z)
| InternalServerError
| ApiError (msg : string)
| OtherError (msg : string)
| RuntimeError (msg : string)
| JSONDecodeError.

Inductive Outcome (A : Type) :=
| Return (a : A)
| Raise (e : Exception).
Arguments Return {A} a.
Arguments Raise {A} e.

(** The two exceptions [_api_call] retries on. *)
Definition retryable (e : Exception) : bool :=
  match e with
  | RateLimitError _ | InternalServerError => true
  | _ => false
  end.

(** [json.load] of an existing file. *)
Definition json_load (c : Contents) : Outcome Json :=
  match c with
  | Text j => Return j
  | Truncated => Raise JSONDecodeError
  end.

(** A loaded JSON object read as a checkpoint: absent keys are [None]. *)
Definition as_checkpoint (j : Json) : Checkpoint :=
  match j with
  | JCheckpoint c => c
  | JInventory _ =>
      {| cp_cursor := None; cp_has_more := None; cp_entries_count := None;
         cp_api_calls := None; cp_folders_seen := None |}
  end.

(** [data.get('entries', [])]. *)
Definition get_entries (j : Json) : list Entry :=
  match j with
  | JInventory i => inv_entries i
  | JCheckpoint _ => []
  end.

(** Everything outside the process: the remote listing API, the clock and
    [time.sleep]. A call may answer, raise, and change the world. *)
Class Environment (W : Type) := {
  (** [dbx.files_list_folder("", recursive=True, ..., limit=2000)] *)
  files_list_folder : W -> Outcome ListFolderResult * W;
  (** [dbx.files_list_folder_continue(c)] *)
  files_list_folder_continue : option string -> W -> Outcome ListFolderResult * W;
  (** [time.sleep(seconds)], for a wait that is not negative *)
  time_sleep : Z -> W -> W;
  (** [time.time()] *)
  time_time : W -> Z;
}.

(** How a run of a script ends. *)
Inductive Exit :=
| Returned
| SysExit (code : Z)
| Uncaught (e : Exception).

(** [e.backoff if e.backoff else (2 ** attempt)]. *)
Definition rate_limit_wait (backoff : option Z) (attempt : nat) : Z :=
  match backoff with
  | Some b => if decide (b = 0) then 2 ^ Z.of_nat attempt else b
  | None => 2 ^ Z.of_nat attempt
  end.

Definition max_retries : nat := 5.

(** ** [dropbox_inv.py]: the legacy recursive enumerator *)

Module DropboxInventory.

Definition CHECKPOINT_FILE : string := "inventory_output/checkpoint.json".
Definition INVENTORY_JSON : string := "inventory_output/inventory.json".
Definition INVENTORY_CSV : string := "inventory_output/inventory.csv".
Definition SAVE_INTERVAL_SECONDS : Z := 60.
Definition SAVE_INTERVAL_ENTRIES : Z := 1000.

(** The instance attributes set by [__init__] that the run reads back. *)
Record Self := {
  entries : list Entry;
  folders_seen : gset string;
  api_calls : Z;
  last_save_time : option Z;
  entries_since_save : Z;
  cursor : option string;
  has_more : bool;
  is_running : bool;
}.

Definition __init__ : Self :=
  {| entries := []; folders_seen := ∅; api_calls := 0;
     last_save_time := None; entries_since_save := 0;
     cursor := None; has_more := true; is_running := true |}.

Definition set_entries (v : list Entry) (s : Self) : Self :=
  {| entries := v; folders_seen := folders_seen s; api_calls := api_calls s;
     last_save_time := last_save_time s;
     entries_since_save := entries_since_save s;
     cursor := cursor s; has_more := has_more s; is_running := is_running s |}.

Definition set_folders_seen (v : gset string) (s : Self) : Self :=
  {| entries := entries s; folders_seen := v; api_calls := api_calls s;
     last_save_time := last_save_time s;
     entries_since_save := entries_since_save s;
     cursor := cursor s; has_more := has_more s; is_running := is_running s |}.

Definition set_api_calls (v : Z) (s : Self) : Self :=
  {| entries := entries s; folders_seen := folders_seen s; api_calls := v;
     last_save_time := last_save_time s;
     entries_since_save := entries_since_save s;
     cursor := cursor s; has_more := has_more s; is_running := is_running s |}.

Definition set_last_save_time (v : option Z) (s : Self) : Self :=
  {| entries := entries s; folders_seen := folders_seen s;
     api_calls := api_calls s; last_save_time := v;
     entries_since_save := entries_since_save s;
     cursor := cursor s; has_more := has_more s; is_running := is_running s |}.

Definition set_entries_since_save (v : Z) (s : Self) : Self :=
  {| entries := entries s; folders_seen := folders_seen s;
     api_calls := api_calls s; last_save_time := last_save_time s;
     entries_since_save := v;
     cursor := cursor s; has_more := has_more s; is_running := is_running s |}.

Definition set_cursor (v : option string) (s : Self) : Self :=
  {| entries := entries s; folders_seen := folders_seen s;
     api_calls := api_calls s; last_save_time := last_save_time s;
     entries_since_save := entries_since_save s;
     cursor := v; has_more := has_more s; is_running := is_running s |}.

Definition set_has_more (v : bool) (s : Self) : Self :=
  {| entries := entries s; folders_seen := folders_seen s;
     api_calls := api_calls s; last_save_time := last_save_time s;
     entries_since_save := entries_since_save s;
     cursor := cursor s; has_more := v; is_running := is_running s |}.

Definition set_is_running (v : bool) (s : Self) : Self :=
  {| entries := entries s; folders_seen := folders_seen s;
     api_calls := api_calls s; last_save_time := last_save_time s;
     entries_since_save := entries_since_save s;
     cursor := cursor s; has_more := has_more s; is_running := v |}.

(** [_save_checkpoint]: the checkpoint is dumped straight into
    [CHECKPOINT_FILE], opened for writing. *)
Definition checkpoint_of (self : Self) : Checkpoint :=
  {| cp_cursor := cursor self;
     cp_has_more := Some (has_more self);
     cp_entries_count := Some (Z.of_nat (length (entries self)));
     cp_api_calls := Some (api_calls self);
     cp_folders_seen := Some (folders_seen self) |}.

Definition _save_checkpoint_ops (self : Self) : list FsOp :=
  write_json CHECKPOINT_FILE (JCheckpoint (checkpoint_of self)).

Definition _save_checkpoint (self : Self) (fs : FS) : FS :=
  fs_run (_save_checkpoint_ops self) fs.

(** [_load_checkpoint]: whatever the file holds is adopted. *)
Definition _load_checkpoint (self : Self) (fs : FS) : Outcome bool * Self :=
  match fs !! CHECKPOINT_FILE with
  | Some c =>
      match json_load c with
      | Raise e => (Raise e, self)
      | Return j =>
          let checkpoint := as_checkpoint j in
          let loaded :=
            match fs !! INVENTORY_JSON with
            | Some i =>
                match json_load i with
                | Raise e => Raise e
                | Return data => Return (set_entries (get_entries data) self)
                end
            | None => Return self
            end in
          match loaded with
          | Raise e => (Raise e, self)
          | Return self =>
              let self := set_cursor (cp_cursor checkpoint) self in
              let self := set_has_more (default true (cp_has_more checkpoint)) self in
              let self := set_api_calls (default 0 (cp_api_calls checkpoint)) self in
              let self := set_folders_seen (default ∅ (cp_folders_seen checkpoint)) self in
              (Return true, self)
          end
      end
  | None => (Return false, self)
  end.

(** The summary computed at the top of [_save_inventory]. *)
Definition summary_of (self : Self) : Summary :=
  let files := files_only (entries self) in
  let total_size := sum_sizes files in
  {| status := status_of (has_more self);
     total_entries := Z.of_nat (length (entries self));
     total_files := Z.of_nat (length files);
     total_folders := Z.of_nat (length (entries self)) - Z.of_nat (length files);
     total_size_bytes := total_size;
     api_calls_made := api_calls self;
     file_types := ext_counts files;
     size_by_type := Some (ext_sizes files) |}.

(** The writes of [_save_inventory], in order: the JSON, then the CSV. *)
Definition _save_inventory_ops (self : Self) : list FsOp :=
  write_json INVENTORY_JSON
    (JInventory {| inv_summary := summary_of self; inv_entries := entries self |})
  ++ write_csv INVENTORY_CSV (entries self).

(** [_process_entry]: folders are also recorded in [folders_seen]. *)
Definition _process_entry (entry : Metadata) (self : Self) : option Entry * Self :=
  match entry with
  | IsFile m => (Some (file_entry m), self)
  | IsFolder m =>
      (Some (folder_entry m),
       set_folders_seen ({[dm_path_lower m]} ∪ folders_seen self) self)
  | IsOther => (None, self)
  end.

(** The body of the [for entry in result.entries] loop of [run]. *)
Definition add_one (self : Self) (entry : Metadata) : Self :=
  match _process_entry entry self with
  | (Some processed, self) =>
      set_entries_since_save (entries_since_save self + 1)
        (set_entries (entries self ++ [processed]) self)
  | (None, self) => self
  end.

(** That loop, followed by the update of [cursor] and [has_more]. *)
Definition add_entries (l : list Metadata) (self : Self) : Self :=
  fold_left add_one l self.

Definition take_page (result : ListFolderResult) (self : Self) : Self :=
  let self := add_entries (res_entries result) self in
  let self := set_cursor (Some (res_cursor result)) self in
  set_has_more (res_has_more result) self.

Section WithEnvironment.
Context {W : Type} `{Environment W}.

(** [_api_call]: the body of [for attempt in range(max_retries)] over the
    attempts still to come. *)
Fixpoint _api_call_from {R : Type} (func : W -> Outcome R * W)
    (description : string) (attempts : list nat) (self : Self) (w : W)
    : Outcome R * Self * W :=
  match attempts with
  | [] =>
      (Raise (RuntimeError ("Max retries exceeded for " +:+ description)),
       self, w)
  | attempt :: rest =>
      let self := set_api_calls (api_calls self + 1) self in
      match func w with
      | (Return result, w) => (Return result, self, w)
      | (Raise (RateLimitError backoff), w) =>
          _api_call_from func description rest self
            (time_sleep (rate_limit_wait backoff attempt) w)
      | (Raise InternalServerError, w) =>
          _api_call_from func description rest self
            (time_sleep (2 ^ Z.of_nat attempt) w)
      | (Raise e, w) => (Raise e, self, w)
      end
  end.

Definition _api_call {R : Type} (func : W -> Outcome R * W)
    (description : string) (self : Self) (w : W) : Outcome R * Self * W :=
  _api_call_from func description (seq 0 max_retries) self w.

Definition _save_inventory (self : Self) (fs : FS) (w : W) : Self * FS :=
  let fs := fs_run (_save_inventory_ops self) fs in
  let self := set_last_save_time (Some (time_time w)) self in
  (set_entries_since_save 0 self, fs).

Definition _should_save (self : Self) (w : W) : bool :=
  match last_save_time self with
  | None => false
  | Some t =>
      (SAVE_INTERVAL_SECONDS <=? time_time w - t)%Z
      || (SAVE_INTERVAL_ENTRIES <=? entries_since_save self)%Z
  end.

(** [_signal_handler]: SIGINT saves and leaves with [sys.exit(0)]. *)
Definition _signal_handler (self : Self) (fs : FS) (w : W)
    : Exit * Self * FS * W :=
  let self := set_is_running false self in
  let fs := _save_checkpoint self fs in
  let '(self, fs) := _save_inventory self fs w in
  (SysExit 0, self, fs, w).

(** The tail of [run] after the loop: the final save and the removal of
    the checkpoint. *)
Definition finish (self : Self) (fs : FS) (w : W) : Exit * Self * FS * W :=
  if is_running self then
    let self := set_has_more false self in
    let fs := _save_checkpoint self fs in
    let '(self, fs) := _save_inventory self fs w in
    let fs := match fs !! CHECKPOINT_FILE with
              | Some _ => fs_run [Unlink CHECKPOINT_FILE] fs
              | None => fs
              end in
    (Returned, self, fs, w)
  else (Returned, self, fs, w).

(** The [while self.has_more and self.is_running] loop and what follows
    it. [fuel] bounds the number of iterations; [pages] counts the pages
    this process has taken so far, and [sigint = Some n] delivers SIGINT
    between pages, once [n] pages have been taken. *)
Fixpoint paginate (sigint : option nat) (fuel pages : nat)
    (self : Self) (fs : FS) (w : W) : option (Exit * Self * FS * W) :=
  if decide (sigint = Some pages) then Some (_signal_handler self fs w)
  else if has_more self && is_running self then
    match fuel with
    | O => None
    | S fuel =>
        match _api_call (files_list_folder_continue (cursor self))
                "list_folder_continue" self w with
        | (Raise e, self, w) => Some (Uncaught e, self, fs, w)
        | (Return result, self, w) =>
            let self := take_page result self in
            let '(self, fs) :=
              if _should_save self w
              then _save_inventory self (_save_checkpoint self fs) w
              else (self, fs) in
            paginate sigint fuel (S pages) self fs w
        end
    end
  else Some (finish self fs w).

(** The statements of the fresh-start branch before the first listing. *)
Definition fresh (self : Self) : Self :=
  set_api_calls 0 (set_has_more true (set_cursor None (set_entries [] self))).

(** The fresh-start branch of [run]: the root listing, then the loop. *)
Definition fresh_start (sigint : option nat) (fuel : nat)
    (self : Self) (fs : FS) (w : W) : option (Exit * Self * FS * W) :=
  if decide (sigint = Some O) then Some (_signal_handler self fs w)
  else
    let self := fresh self in
    match _api_call files_list_folder "Initial list_folder" self w with
    | (Raise e, self, w) => Some (Uncaught e, self, fs, w)
    | (Return result, self, w) =>
        paginate sigint fuel 1 (take_page result self) fs w
    end.

(** [run(resume)]: [if resume and self._load_checkpoint() and
    self.cursor] continues from the checkpoint, anything else starts
    afresh. *)
Definition run (sigint : option nat) (resume : bool) (fuel : nat)
    (self : Self) (fs : FS) (w : W) : option (Exit * Self * FS * W) :=
  let self := set_last_save_time (Some (time_time w)) self in
  let '(loaded, self) :=
    if resume then _load_checkpoint self fs else (Return false, self) in
  match loaded with
  | Raise e => Some (Uncaught e, self, fs, w)
  | Return loaded =>
      if loaded && truthy (cursor self) then paginate sigint fuel 0 self fs w
      else fresh_start sigint fuel self fs w
  end.

End WithEnvironment.

End DropboxInventory.

(** ** [create_inventory.py]: the hybrid enumerator with its dedup store *)

Module HybridInventory.

Definition OLD_INVENTORY_JSON : string := "inventory_output/inventory.json".
Definition OLD_CHECKPOINT : string := "inventory_output/checkpoint.json".
Definition CHECKPOINT_FILE : string := "inventory_output_hybrid/checkpoint.json".
Definition INVENTORY_JSON : string := "inventory_output_hybrid/inventory.json".
Definition INVENTORY_CSV : string := "inventory_output_hybrid/inventory.csv".
Definition SAVE_INTERVAL_SECONDS : Z := 30.

Record Self := {
  entries : list Entry;
  entries_by_path : gmap string Entry;
  cursor : option string;
  has_more : bool;
  api_calls : Z;
  last_save_time : option Z;
  is_running : bool;
}.

Definition __init__ : Self :=
  {| entries := []; entries_by_path := ∅; cursor := None; has_more := true;
     api_calls := 0; last_save_time := None; is_running := true |}.

(** The store: the two attributes [_add_entry] keeps in step. *)
Definition set_store (l : list Entry) (m : gmap string Entry) (s : Self) : Self :=
  {| entries := l; entries_by_path := m; cursor := cursor s;
     has_more := has_more s; api_calls := api_calls s;
     last_save_time := last_save_time s; is_running := is_running s |}.

Definition set_cursor (v : option string) (s : Self) : Self :=
  {| entries := entries s; entries_by_path := entries_by_path s; cursor := v;
     has_more := has_more s; api_calls := api_calls s;
     last_save_time := last_save_time s; is_running := is_running s |}.

Definition set_has_more (v : bool) (s : Self) : Self :=
  {| entries := entries s; entries_by_path := entries_by_path s;
     cursor := cursor s; has_more := v; api_calls := api_calls s;
     last_save_time := last_save_time s; is_running := is_running s |}.

Definition set_api_calls (v : Z) (s : Self) : Self :=
  {| entries := entries s; entries_by_path := entries_by_path s;
     cursor := cursor s; has_more := has_more s; api_calls := v;
     last_save_time := last_save_time s; is_running := is_running s |}.

Definition set_last_save_time (v : option Z) (s : Self) : Self :=
  {| entries := entries s; entries_by_path := entries_by_path s;
     cursor := cursor s; has_more := has_more s; api_calls := api_calls s;
     last_save_time := v; is_running := is_running s |}.

Definition set_is_running (v : bool) (s : Self) : Self :=
  {| entries := entries s; entries_by_path := entries_by_path s;
     cursor := cursor s; has_more := has_more s; api_calls := api_calls s;
     last_save_time := last_save_time s; is_running := v |}.

Definition _process_entry (entry : Metadata) : option Entry :=
  match entry with
  | IsFile m => Some (file_entry m)
  | IsFolder m => Some (folder_entry m)
  | IsOther => None
  end.

(** [_add_entry]: the insert of the dedup store. *)
Definition _add_entry (entry_dict : option Entry) (self : Self) : bool * Self :=
  match entry_dict with
  | Some e =>
      match entries_by_path self !! path e with
      | None =>
          (true, set_store (entries self ++ [e])
                           (<[path e := e]> (entries_by_path self)) self)
      | Some _ => (false, self)
      end
  | None => (false, self)
  end.

(** [for entry in ...: self._add_entry(entry)] over stored dictionaries. *)
Definition add_all (l : list Entry) (self : Self) : Self :=
  fold_left (fun self e => snd (_add_entry (Some e) self)) l self.

(** [_load_old_progress]: three guarded blocks, each with its own
    [try]/[except Exception] that reports and goes on. *)
Definition load_old_checkpoint (loaded : bool) (self : Self) (fs : FS)
    : bool * Self :=
  match fs !! OLD_CHECKPOINT with
  | Some c =>
      match json_load c with
      | Return j =>
          let old_checkpoint := as_checkpoint j in
          let self := set_cursor (cp_cursor old_checkpoint) self in
          let self := set_has_more (default true (cp_has_more old_checkpoint)) self in
          (true, self)
      | Raise _ => (loaded, self)
      end
  | None => (loaded, self)
  end.

Definition load_old_inventory (loaded : bool) (self : Self) (fs : FS)
    : bool * Self :=
  match fs !! OLD_INVENTORY_JSON with
  | Some c =>
      match json_load c with
      | Return data => (true, add_all (get_entries data) self)
      | Raise _ => (loaded, self)
      end
  | None => (loaded, self)
  end.

Definition load_own (loaded : bool) (self : Self) (fs : FS) : bool * Self :=
  match fs !! CHECKPOINT_FILE with
  | Some c =>
      match json_load c with
      | Return j =>
          let checkpoint := as_checkpoint j in
          let self := set_cursor (cp_cursor checkpoint) self in
          let self := set_has_more (default true (cp_has_more checkpoint)) self in
          let self := set_api_calls (default 0 (cp_api_calls checkpoint)) self in
          match fs !! INVENTORY_JSON with
          | Some i =>
              match json_load i with
              | Return data =>
                  (true, add_all (get_entries data) (set_store [] ∅ self))
              | Raise _ => (loaded, self)
              end
          | None => (true, self)
          end
      | Raise _ => (loaded, self)
      end
  | None => (loaded, self)
  end.

Definition _load_old_progress (self : Self) (fs : FS) : bool * Self :=
  let '(loaded, self) := load_old_checkpoint false self fs in
  let '(loaded, self) := load_old_inventory loaded self fs in
  load_own loaded self fs.

Definition checkpoint_of (self : Self) : Checkpoint :=
  {| cp_cursor := cursor self;
     cp_has_more := Some (has_more self);
     cp_entries_count := Some (Z.of_nat (length (entries self)));
     cp_api_calls := Some (api_calls self);
     cp_folders_seen := None |}.

Definition summary_of (self : Self) : Summary :=
  let files := files_only (entries self) in
  let total_size := sum_sizes files in
  {| status := status_of (has_more self);
     total_entries := Z.of_nat (length (entries self));
     total_files := Z.of_nat (length files);
     total_folders := Z.of_nat (length (entries self)) - Z.of_nat (length files);
     total_size_bytes := total_size;
     api_calls_made := api_calls self;
     file_types := ext_counts files;
     size_by_type := None |}.

(** The writes of [_save_all], in order: checkpoint, then inventory, each
    dumped straight into its file, then the CSV. *)
Definition _save_all_ops (self : Self) : list FsOp :=
  write_json CHECKPOINT_FILE (JCheckpoint (checkpoint_of self))
  ++ write_json INVENTORY_JSON
       (JInventory {| inv_summary := summary_of self;
                      inv_entries := entries self |})
  ++ write_csv INVENTORY_CSV (entries self).

(** The [for entry in result.entries] loop shared by [_start_fresh] and
    [_continue_recursive], followed by the cursor update. *)
Definition take_page (result : ListFolderResult) (self : Self) : Self :=
  let self :=
    fold_left (fun self entry => snd (_add_entry (_process_entry entry) self))
              (res_entries result) self in
  let self := set_cursor (Some (res_cursor result)) self in
  set_has_more (res_has_more result) self.

Section WithEnvironment.
Context {W : Type} `{Environment W}.

Fixpoint _api_call_from {R : Type} (func : W -> Outcome R * W)
    (attempts : list nat) (self : Self) (w : W) : Outcome R * Self * W :=
  match attempts with
  | [] => (Raise (RuntimeError "Max retries exceeded"), self, w)
  | attempt :: rest =>
      let self := set_api_calls (api_calls self + 1) self in
      match func w with
      | (Return result, w) => (Return result, self, w)
      | (Raise (RateLimitError backoff), w) =>
          _api_call_from func rest self
            (time_sleep (rate_limit_wait backoff attempt) w)
      | (Raise InternalServerError, w) =>
          _api_call_from func rest self (time_sleep (2 ^ Z.of_nat attempt) w)
      | (Raise e, w) => (Raise e, self, w)
      end
  end.

Definition _api_call {R : Type} (func : W -> Outcome R * W)
    (self : Self) (w : W) : Outcome R * Self * W :=
  _api_call_from func (seq 0 max_retries) self w.

Definition _save_all (self : Self) (fs : FS) (w : W) : Self * FS :=
  (set_last_save_time (Some (time_time w)) self,
   fs_run (_save_all_ops self) fs).

Definition _signal_handler (self : Self) (fs : FS) (w : W)
    : Exit * Self * FS * W :=
  let '(self, fs) := _save_all (set_is_running false self) fs w in
  (SysExit 0, self, fs, w).

(** [time.time() - self.last_save_time >= SAVE_INTERVAL_SECONDS];
    [run] sets [last_save_time] before the loop is entered. *)
Definition save_due (self : Self) (w : W) : bool :=
  match last_save_time self with
  | Some t => (SAVE_INTERVAL_SECONDS <=? time_time w - t)%Z
  | None => false
  end.

(** [_continue_recursive]: any exception inside the loop body is caught,
    reported, and ends the loop. *)
Fixpoint _continue_recursive (sigint : option nat) (fuel pages : nat)
    (self : Self) (fs : FS) (w : W) : option (Exit * Self * FS * W) :=
  if decide (sigint = Some pages) then Some (_signal_handler self fs w)
  else if has_more self && is_running self then
    match fuel with
    | O => None
    | S fuel =>
        match _api_call (files_list_folder_continue (cursor self)) self w with
        | (Raise e, self, w) => Some (Returned, self, fs, w)
        | (Return result, self, w) =>
            let self := take_page result self in
            let '(self, fs) :=
              if save_due self w then _save_all self fs w else (self, fs) in
            _continue_recursive sigint fuel (S pages) self fs w
        end
    end
  else Some (Returned, self, fs, w).

(** [_start_fresh]: the first listing is made outside any [try]. *)
Definition _start_fresh (sigint : option nat) (fuel : nat)
    (self : Self) (fs : FS) (w : W) : option (Exit * Self * FS * W) :=
  if decide (sigint = Some O) then Some (_signal_handler self fs w)
  else
    match _api_call files_list_folder self w with
    | (Raise e, self, w) => Some (Uncaught e, self, fs, w)
    | (Return result, self, w) =>
        _continue_recursive sigint fuel 1 (take_page result self) fs w
    end.

(** The tail of [run]: the final save, and the removal of the checkpoint
    once nothing more is to come. *)
Definition finish (self : Self) (fs : FS) (w : W) : Exit * Self * FS * W :=
  if is_running self then
    let '(self, fs) := _save_all self fs w in
    let fs := if has_more self then fs
              else match fs !! CHECKPOINT_FILE with
                   | Some _ => fs_run [Unlink CHECKPOINT_FILE] fs
                   | None => fs
                   end in
    (Returned, self, fs, w)
  else (Returned, self, fs, w).

Definition run (sigint : option nat) (fuel : nat)
    (self : Self) (fs : FS) (w : W) : option (Exit * Self * FS * W) :=
  let self := set_last_save_time (Some (time_time w)) self in
  let '(had_progress, self) := _load_old_progress self fs in
  let scanned :=
    if truthy (cursor self) && has_more self
    then _continue_recursive sigint fuel 0 self fs w
    else if negb (has_more self) && nonempty (entries self)
    then Some (Returned, self, fs, w)
    else _start_fresh sigint fuel self fs w in
  match scanned with
  | Some (Returned, self, fs, w) => Some (finish self fs w)
  | other => other
  end.

End WithEnvironment.

End HybridInventory.

(** ** [verify_inventory.py]: the reconciliation verifier *)

Module verify_inventory.

Definition INVENTORY_JSON : string := "inventory_output_hybrid/inventory.json".

Definition get_inventory_folders_at_depth (entries : list Entry) (depth : Z)
    : list Entry :=
  List.filter
    (fun e => bool_decide (type e = folder) && bool_decide (folder_depth e = depth))
    entries.

(** One pass of [for entry in result.entries] over a page of the shallow
    root listing: folders and files are collected by display path. *)
Definition collect (result : ListFolderResult) (acc : list string * list string)
    : list string * list string :=
  fold_left
    (fun '(folders, files) entry =>
       match entry with
       | IsFolder m => ((folders ++ [dm_path_display m])%list, files)
       | IsFile m => (folders, (files ++ [fm_path_display m])%list)
       | IsOther => (folders, files)
       end) (res_entries result) acc.

(** An item of the verdict's [issues] list: the line
    ["Missing {n} root folders"]. *)
Inductive Issue := MissingRootFolders (n : nat).

Record Report := {
  missing_in_inventory : gset string;
  extra_in_inventory : gset string;
  issues : list Issue;
}.

(** Sections 2 and 5 of [main] once the live listing is in: the two set
    differences, and the verdict, which looks at the first only. The second
    is printed under "Extra in inventory (deleted?)". *)
Definition compare_roots (api_root_folders : list string) (entries : list Entry)
    : Report :=
  let inv_root_folders := get_inventory_folders_at_depth entries 1 in
  let inv_root_paths := map path inv_root_folders in
  let api_set : gset string := list_to_set api_root_folders in
  let inv_set : gset string := list_to_set inv_root_paths in
  let missing := api_set ∖ inv_set in
  let extra := inv_set ∖ api_set in
  {| missing_in_inventory := missing;
     extra_in_inventory := extra;
     issues := if decide (missing = ∅) then []
               else [MissingRootFolders (size missing)] |}.

(** [load_inventory]: [open] and [json.load], neither guarded. *)
Definition load_inventory (fs : FS) : Outcome Json :=
  match fs !! INVENTORY_JSON with
  | Some c => json_load c
  | None => Raise (OtherError "FileNotFoundError")
  end.

(** The folders of the spot check: the paths of the first three folders
    the inventory has at depth 2. *)
Definition folders_to_check (entries : list Entry) : list string :=
  map path (firstn 3 (get_inventory_folders_at_depth entries 2)).

(** What the verifier asks of the remote; it makes its calls directly,
    with no retry. *)
Class Listing (W : Type) := {
  (** [dbx.users_get_space_usage().used] *)
  get_space_usage : W -> Outcome Z * W;
  (** [dbx.files_list_folder(path, recursive=False)] *)
  list_folder : string -> W -> Outcome ListFolderResult * W;
  (** [dbx.files_list_folder_continue(cursor)] *)
  list_continue : string -> W -> Outcome ListFolderResult * W;
}.

Section WithListing.
Context {W : Type} `{Listing W}.

(** [while result.has_more] of the root listing. *)
Fixpoint more_pages (fuel : nat) (result : ListFolderResult)
    (acc : list string * list string) (w : W)
    : option (Outcome (list string * list string) * W) :=
  if res_has_more result then
    match fuel with
    | O => None
    | S fuel =>
        match list_continue (res_cursor result) w with
        | (Raise e, w) => Some (Raise e, w)
        | (Return result, w) => more_pages fuel result (collect result acc) w
        end
    end
  else Some (Return acc, w).

(** [while api_result.has_more] of a spot check, counting the items. *)
Fixpoint count_pages (fuel : nat) (api_result : ListFolderResult)
    (api_count : Z) (w : W) : option (Outcome Z * W) :=
  if res_has_more api_result then
    match fuel with
    | O => None
    | S fuel =>
        match list_continue (res_cursor api_result) w with
        | (Raise e, w) => Some (Raise e, w)
        | (Return api_result, w) =>
            count_pages fuel api_result
              (api_count + Z.of_nat (length (res_entries api_result))) w
        end
    end
  else Some (Return api_count, w).

(** The spot check of one folder, under its [try]: the count is printed
    beside the inventory's, and any exception is printed and dropped. *)
Definition spot_check_folder (fuel : nat) (folder_path : string) (w : W)
    : option W :=
  match list_folder folder_path w with
  | (Raise e, w) => Some w
  | (Return api_result, w) =>
      match count_pages fuel api_result
              (Z.of_nat (length (res_entries api_result))) w with
      | None => None
      | Some (_, w) => Some w
      end
  end.

(** [for folder_path in folders_to_check]. *)
Fixpoint spot_check (fuel : nat) (folders : list string) (w : W) : option W :=
  match folders with
  | [] => Some w
  | folder_path :: rest =>
      match spot_check_folder fuel folder_path w with
      | None => None
      | Some w => spot_check fuel rest w
      end
  end.

(** [main]: load the inventory, ask for the usage (any failure there is
    printed and dropped), list the root, compare, spot-check. The usage
    figure, the folder sizes, the spot check's counts and the depth table
    are only printed. The file system is handed back as the run leaves
    it. *)
Definition main (fuel : nat) (fs : FS) (w : W)
    : option (Outcome Report * FS * W) :=
  match load_inventory fs with
  | Raise e => Some (Raise e, fs, w)
  | Return (JCheckpoint _) => Some (Raise (OtherError "KeyError"), fs, w)
  | Return (JInventory data) =>
      let entries := inv_entries data in
      let w := snd (get_space_usage w) in
      match list_folder EmptyString w with
      | (Raise e, w) => Some (Raise e, fs, w)
      | (Return result, w) =>
          match more_pages fuel result (collect result ([], [])) w with
          | None => None
          | Some (Raise e, w) => Some (Raise e, fs, w)
          | Some (Return (api_root_folders, _), w) =>
              let report := compare_roots api_root_folders entries in
              match spot_check fuel (folders_to_check entries) w with
              | None => None
              | Some w => Some (Return report, fs, w)
              end
          end
      end
  end.

End WithListing.

(** [get_inventory_size_for_path]: the bytes of the files whose path
    starts with the given string. *)
Definition get_inventory_size_for_path (entries : list Entry) (under : string) : Z :=
  fold_left
    (fun total e =>
       if bool_decide (type e = file) && String.prefix under (path e)
       then total + size_bytes e else total)
    entries 0.

(** A row of the depth table of section 4 of [main]:
    [{'files': 0, 'folders': 0}]. *)
Record DepthRow := { row_files : Z; row_folders : Z }.

(** The body of the loop that fills [depth_counts]: the row of the entry's
    depth is created when it is not there, then one of its two counters
    grows; whatever is not a file counts as a folder. *)
Definition count_entry (depth_counts : gmap Z DepthRow) (e : Entry)
    : gmap Z DepthRow :=
  let d := folder_depth e in
  let depth_counts :=
    match depth_counts !! d with
    | None => <[d := {| row_files := 0; row_folders := 0 |}]> depth_counts
    | Some _ => depth_counts
    end in
  let row := default {| row_files := 0; row_folders := 0 |} (depth_counts !! d) in
  match type e with
  | file =>
      <[d := {| row_files := row_files row + 1; row_folders := row_folders row |}]>
        depth_counts
  | folder =>
      <[d := {| row_files := row_files row; row_folders := row_folders row + 1 |}]>
        depth_counts
  end.

Definition depth_counts (entries : list Entry) : gmap Z DepthRow :=
  fold_left count_entry entries ∅.

(** The spot check's [inv_count]:
    [sum(1 for e in entries if e['parent_folder'] == folder_path)]. *)
Definition inv_count (entries : list Entry) (folder_path : string) : Z :=
  Z.of_nat
    (length (List.filter (fun e => bool_decide (parent_folder e = folder_path))
               entries)).

End verify_inventory.

(** ** Vocabulary of the statements *)

(** The canonical absolute path with the given segments:
    ["/" + s1 + "/" + s2 + ...]. *)
Definition absolute (segments : list string) : string :=
  fold_right (fun seg rest => "/" +:+ seg +:+ rest) EmptyString segments.

Definition slash_free (s : string) : Prop := count_char "/" s = O.

(** The sum of [size_bytes] over exactly the entries of kind [file]. *)
Definition file_bytes (entries : list Entry) : Z :=
  fold_right (fun e acc => match type e with file => size_bytes e + acc | folder => acc end)
             0 entries.

(** What the aggregate-correctness property asks of a written artifact. *)
Definition aggregates_ok (inv : Inventory) : Prop :=
  total_size_bytes (inv_summary inv) = file_bytes (inv_entries inv)
  /\ total_folders (inv_summary inv) + total_files (inv_summary inv)
     = total_entries (inv_summary inv)
  /\ total_entries (inv_summary inv) = Z.of_nat (length (inv_entries inv)).

(** The dedup store is coherent when the dictionary knows exactly the paths
    of the list and no path occurs twice in the list. *)
Definition store_ok (self : HybridInventory.Self) : Prop :=
  NoDup (map path (HybridInventory.entries self))
  /\ forall p, is_Some (HybridInventory.entries_by_path self !! p)
               <-> p ∈ map path (HybridInventory.entries self).

(** The paths of the folders the inventory records at depth 1. *)
Definition inventory_root_paths (entries : list Entry) : list string :=
  map path (verify_inventory.get_inventory_folders_at_depth entries 1).

(** [load()] turns a checkpoint down when it raises or answers [False]. *)
Definition rejected (r : Outcome bool) : Prop :=
  match r with
  | Raise _ => True
  | Return loaded => loaded = false
  end.

(** A save is all-or-nothing on file [p] when a crash after any number of
    its writes leaves [p] as it was before or as the finished save leaves
    it. *)
Definition all_or_nothing (ops : list FsOp) (p : string) (fs : FS) : Prop :=
  forall k, fs_run (firstn k ops) fs !! p = fs !! p
            \/ fs_run (firstn k ops) fs !! p = fs_run ops fs !! p.


Definition exhausted : Exception := RuntimeError "Max retries exceeded".

Definition exhausted_for (description : string) : Exception :=
  RuntimeError ("Max retries exceeded for " +:+ description).

(** The part of the legacy enumerator's state that a resumed run takes
    over from the files: entries, cursor, [has_more] and the call counter. *)
Record Progress := {
  seen : list Entry;
  at_cursor : option string;
  more : bool;
  calls : Z;
}.

Definition progress_of (self : DropboxInventory.Self) : Progress :=
  {| seen := DropboxInventory.entries self;
     at_cursor := DropboxInventory.cursor self;
     more := DropboxInventory.has_more self;
     calls := DropboxInventory.api_calls self |}.

(** One more page of an error-free listing, whose continuation at each
    cursor is [next]. *)
Definition advance (next : option string -> ListFolderResult) (p : Progress)
    : Progress :=
  let result := next (at_cursor p) in
  {| seen := seen p ++ omap HybridInventory._process_entry (res_entries result);
     at_cursor := Some (res_cursor result);
     more := res_has_more result;
     calls := calls p + 1 |}.

(** Pages are taken, by [step], until the listing says there are no more. *)
Fixpoint exhaust (step : Progress -> Progress) (fuel : nat) (p : Progress)
    : option Progress :=
  if more p then
    match fuel with
    | O => None
    | S fuel => exhaust step fuel (step p)
    end
  else Some p.

(** The progress right after a fresh start has taken the root page. *)
Definition started (root : ListFolderResult) : Progress :=
  {| seen := omap HybridInventory._process_entry (res_entries root);
     at_cursor := Some (res_cursor root);
     more := res_has_more root;
     calls := 1 |}.

(** The artifact a save writes for a given progress. *)
Definition artifact (p : Progress) : Inventory :=
  {| inv_summary :=
       DropboxInventory.summary_of
         {| DropboxInventory.entries := seen p;
            DropboxInventory.folders_seen := ∅;
            DropboxInventory.api_calls := calls p;
            DropboxInventory.last_save_time := None;
            DropboxInventory.entries_since_save := 0;
            DropboxInventory.cursor := at_cursor p;
            DropboxInventory.has_more := more p;
            DropboxInventory.is_running := true |};
     inv_entries := seen p |}.

(** The two legacy files as an interrupted run leaves them. *)
Definition saved (p : Progress) (fs : FS) : Prop :=
  exists cp,
    fs !! DropboxInventory.CHECKPOINT_FILE = Some (Text (JCheckpoint cp))
    /\ fs !! DropboxInventory.INVENTORY_JSON = Some (Text (JInventory (artifact p)))
    /\ cp_cursor cp = at_cursor p
    /\ cp_has_more cp = Some (more p)
    /\ cp_api_calls cp = Some (calls p).

(** The two legacy files as a completed run leaves them. *)
Definition finished (p : Progress) (fs : FS) : Prop :=
  fs !! DropboxInventory.CHECKPOINT_FILE = None
  /\ fs !! DropboxInventory.INVENTORY_JSON = Some (Text (JInventory (artifact p))).

(** The same for the hybrid enumerator. Its dictionary is determined by
    its list of entries as long as the store is coherent, so the list is
    all the progress needs. *)
Definition hybrid_progress_of (self : HybridInventory.Self) : Progress :=
  {| seen := HybridInventory.entries self;
     at_cursor := HybridInventory.cursor self;
     more := HybridInventory.has_more self;
     calls := HybridInventory.api_calls self |}.

(** First-seen-wins insertion, on the list of entries alone. *)
Definition extend (seen new : list Entry) : list Entry :=
  fold_left
    (fun acc e => if bool_decide (path e ∈ map path acc) then acc else (acc ++ [e])%list)
    new seen.

(** One more page of an error-free listing, deduplicated. *)
Definition absorb (next : option string -> ListFolderResult) (p : Progress)
    : Progress :=
  let result := next (at_cursor p) in
  {| seen := extend (seen p) (omap HybridInventory._process_entry (res_entries result));
     at_cursor := Some (res_cursor result);
     more := res_has_more result;
     calls := calls p + 1 |}.

(** The progress right after [_start_fresh] has taken the root page on top
    of progress [p]. *)
Definition relisted (root : ListFolderResult) (p : Progress) : Progress :=
  {| seen := extend (seen p) (omap HybridInventory._process_entry (res_entries root));
     at_cursor := Some (res_cursor root);
     more := res_has_more root;
     calls := calls p + 1 |}.

Definition hybrid_artifact (p : Progress) : Inventory :=
  {| inv_summary :=
       HybridInventory.summary_of
         {| HybridInventory.entries := seen p;
            HybridInventory.entries_by_path := ∅;
            HybridInventory.cursor := at_cursor p;
            HybridInventory.has_more := more p;
            HybridInventory.api_calls := calls p;
            HybridInventory.last_save_time := None;
            HybridInventory.is_running := true |};
     inv_entries := seen p |}.

Definition hybrid_saved (p : Progress) (fs : FS) : Prop :=
  exists cp,
    fs !! HybridInventory.CHECKPOINT_FILE = Some (Text (JCheckpoint cp))
    /\ fs !! HybridInventory.INVENTORY_JSON
       = Some (Text (JInventory (hybrid_artifact p)))
    /\ cp_cursor cp = at_cursor p
    /\ cp_has_more cp = Some (more p)
    /\ cp_api_calls cp = Some (calls p).

Definition hybrid_finished (p : Progress) (fs : FS) : Prop :=
  fs !! HybridInventory.CHECKPOINT_FILE = None
  /\ fs !! HybridInventory.INVENTORY_JSON
     = Some (Text (JInventory (hybrid_artifact p))).

(** Nothing of the legacy script lies around. *)
Definition no_legacy_files (fs : FS) : Prop :=
  fs !! HybridInventory.OLD_CHECKPOINT = None
  /\ fs !! HybridInventory.OLD_INVENTORY_JSON = None.

(** Two summaries that agree on everything computed from the entries:
    all fields but the call counter. *)
Definition same_aggregates (s s' : Summary) : Prop :=
  status s = status s'
  /\ total_entries s = total_entries s'
  /\ total_files s = total_files s'
  /\ total_folders s = total_folders s'
  /\ total_size_bytes s = total_size_bytes s'
  /\ file_types s = file_types s'
  /\ size_by_type s = size_by_type s'.

(** The sum of the values of a per-extension table. *)
Definition table_total (d : gmap string Z) : Z :=
  map_fold (fun _ v acc => v + acc) 0 d.

(** The first entry of a list that has a given path. *)
Definition first_with_path (p : string) (l : list Entry) : option Entry :=
  head (List.filter (fun e => bool_decide (path e = p)) l).

(** How long [_api_call] sleeps after a failed attempt, by the error. *)
Definition wait_after (e : Exception) (attempt : nat) : Z :=
  match e with
  | RateLimitError backoff => rate_limit_wait backoff attempt
  | _ => 2 ^ Z.of_nat attempt
  end.

(** The world once an attempt of [func] has failed with [e] and the wait
    that follows it is over. *)
Definition waited_out {W : Type} `{Environment W} {R : Type}
    (func : W -> Outcome R * W) (e : Exception) (w : W) (attempt : nat) : W :=
  time_sleep (wait_after e attempt) (snd (func w)).

(** The files with every unreadable one taken away. *)
Definition drop_unreadable (fs : FS) : FS :=
  omap (fun c => match c with Truncated => None | Text j => Some (Text j) end) fs.

(** The legacy files are behind the entries in memory by no more than
    what came after the last save: they are the files [fs0] the run found,
    or those of a save made when a prefix of the entries had been seen. *)
Definition behind (fs0 fs : FS) (entries : list Entry) : Prop :=
  fs = fs0
  \/ exists p rest, saved p fs /\ entries = (seen p ++ rest)%list.

(** What the legacy run leaves on disk, by the way it ends; [fs0] are the
    files it found. *)
Definition legacy_exit_ok (fs0 : FS) (exit : Exit)
    (self : DropboxInventory.Self) (fs : FS) : Prop :=
  match exit with
  | Returned =>
      DropboxInventory.has_more self = false /\ finished (progress_of self) fs
  | SysExit code => code = 0 /\ saved (progress_of self) fs
  | Uncaught e =>
      retryable e = false /\ behind fs0 fs (DropboxInventory.entries self)
  end.

(** The same for the hybrid run, which saves a checkpoint whenever it
    stops with more to come and writes nothing when it dies. *)
Definition hybrid_exit_ok (fs0 : FS) (exit : Exit)
    (self : HybridInventory.Self) (fs : FS) : Prop :=
  store_ok self
  /\ match exit with
     | Returned =>
         if HybridInventory.has_more self
         then hybrid_saved (hybrid_progress_of self) fs
         else hybrid_finished (hybrid_progress_of self) fs
     | SysExit code => code = 0 /\ hybrid_saved (hybrid_progress_of self) fs
     | Uncaught e => retryable e = false /\ fs = fs0
     end.

(** The entries recorded at a given depth. *)
Definition at_depth (d : Z) (entries : list Entry) : list Entry :=
  List.filter (fun e => bool_decide (folder_depth e = d)) entries.

(** The progress a loader finds in a checkpoint and an inventory: the
    entries are the inventory's, everything else is the checkpoint's, read
    with the defaults of [.get]. *)
Definition progress_in (cp : Checkpoint) (inv : Inventory) : Progress :=
  {| seen := inv_entries inv;
     at_cursor := cp_cursor cp;
     more := default true (cp_has_more cp);
     calls := default 0 (cp_api_calls cp) |}.

(** A path segment: not empty, and without a slash. *)
Definition segment (s : string) : Prop := slash_free s /\ s <> EmptyString.

(** The pages that follow a page of a listing: none when it says there
    are no more, else the page delivered at its cursor and those that follow
    that one. *)
Inductive followed_by {W : Type} `{verify_inventory.Listing W}
    : ListFolderResult -> W -> list ListFolderResult -> W -> Prop :=
| followed_by_none result w :
    res_has_more result = false -> followed_by result w [] w
| followed_by_more result w next w1 rest w' :
    res_has_more result = true ->
    verify_inventory.list_continue (res_cursor result) w = (Return next, w1) ->
    followed_by next w1 rest w' ->
    followed_by result w (next :: rest) w'.

(** A folder of the live listing, by its display path. *)
Definition listed_folder (pages : list ListFolderResult) (p : string) : Prop :=
  exists page m,
    page ∈ pages /\ IsFolder m ∈ res_entries page /\ dm_path_display m = p.

(** A folder the inventory records at depth 1, by its path. *)
Definition recorded_root_folder (entries : list Entry) (p : string) : Prop :=
  exists e, e ∈ entries /\ type e = folder /\ folder_depth e = 1 /\ path e = p.

(** ** Scenarios *)

(** A scripted remote: the root listing and every continuation answer the
    same way each time; the world is the log of the sleeps made so far, and
    the clock stands still. *)
Record Script := {
  script_root : Outcome ListFolderResult;
  script_continue : option string -> Outcome ListFolderResult;
}.

Definition scripted (s : Script) : Environment (list Z) :=
  {| files_list_folder := fun w => (script_root s, w);
     files_list_folder_continue := fun c w => (script_continue s c, w);
     time_sleep := fun z w => (w ++ [z])%list;
     time_time := fun _ => 0 |}.

Definition folder_A : FolderMetadata :=
  {| dm_name := "A"; dm_path_display := "/A"; dm_path_lower := "/a";
     dm_id := "id:A" |}.

Definition file_f : FileMetadata :=
  {| fm_name := "f.txt"; fm_path_display := "/A/f.txt";
     fm_path_lower := "/a/f.txt"; fm_size := 1024;
     fm_server_modified := None; fm_content_hash := None;
     fm_rev := "r1"; fm_id := "id:f" |}.

Definition file_B : FileMetadata :=
  {| fm_name := "B.txt"; fm_path_display := "/B.txt";
     fm_path_lower := "/b.txt"; fm_size := 2048;
     fm_server_modified := None; fm_content_hash := None;
     fm_rev := "r2"; fm_id := "id:B" |}.

Definition root_page : ListFolderResult :=
  {| res_entries := [IsFolder folder_A; IsFile file_f];
     res_cursor := "c1"; res_has_more := true |}.

Definition last_page : ListFolderResult :=
  {| res_entries := [IsFile file_B]; res_cursor := "c2"; res_has_more := false |}.

(** The two-page listing of the end-to-end scenario. *)
Definition next_page (c : option string) : ListFolderResult :=
  if decide (c = Some "c1") then last_page
  else {| res_entries := []; res_cursor := "c2"; res_has_more := false |}.

Definition two_pages : Script :=
  {| script_root := Return root_page;
     script_continue := fun c => Return (next_page c) |}.

(** A remote whose root listing answers and whose continuation is rate
    limited for ever. *)
Definition rate_limited : Script :=
  {| script_root := Return root_page;
     script_continue := fun _ => Raise (RateLimitError None) |}.

(** A remote that refuses every call with a client error. *)
Definition refusing : Script :=
  {| script_root := Raise (ApiError "path/not_found");
     script_continue := fun _ => Raise (ApiError "path/not_found") |}.

(** An account with nothing in it: one empty page, and no more. *)
Definition empty_account : Script :=
  {| script_root :=
       Return {| res_entries := []; res_cursor := "c0"; res_has_more := false |};
     script_continue := fun _ =>
       Return {| res_entries := []; res_cursor := "c0"; res_has_more := false |} |}.

(** A persisted checkpoint that says both "no more pages" and "here is a
    cursor". *)
Definition contradictory : Checkpoint :=
  {| cp_cursor := Some "c1"; cp_has_more := Some false;
     cp_entries_count := Some 0; cp_api_calls := Some 1;
     cp_folders_seen := None |}.

(** The legacy output directory holding nothing but that checkpoint. *)
Definition contradictory_fs : FS :=
  {[ DropboxInventory.CHECKPOINT_FILE := Text (JCheckpoint contradictory) ]}.

(** The hybrid's own checkpoint, further along than the legacy one, and an
    output tree holding both. *)
Definition own_checkpoint : Checkpoint :=
  {| cp_cursor := Some "c9"; cp_has_more := Some true;
     cp_entries_count := Some 0; cp_api_calls := Some 7;
     cp_folders_seen := None |}.

Definition both_checkpoints : FS :=
  <[ HybridInventory.CHECKPOINT_FILE := Text (JCheckpoint own_checkpoint) ]>
    contradictory_fs.

(** The hybrid output tree as a run leaves it when it is killed between
    its final save and the removal of the checkpoint. *)
Definition before_cleanup : FS :=
  fs_run (HybridInventory._save_all_ops
            (HybridInventory.set_has_more false
               (HybridInventory.add_all [file_entry file_B]
                  HybridInventory.__init__))) ∅.

(** The legacy output tree as a crash in the middle of the checkpoint's
    dump leaves it. *)
Definition torn_checkpoint : FS :=
  fs_run (firstn 1 (DropboxInventory._save_checkpoint_ops DropboxInventory.__init__)) ∅.

(** A remote instrumented with the number of listing requests it has been
    sent: the world is paired with that number. *)
Definition counting {W : Type} (E : Environment W) : Environment (W * Z) :=
  {| files_list_folder := fun wn =>
       (fst (@files_list_folder W E (fst wn)),
        (snd (@files_list_folder W E (fst wn)), snd wn + 1));
     files_list_folder_continue := fun c wn =>
       (fst (@files_list_folder_continue W E c (fst wn)),
        (snd (@files_list_folder_continue W E c (fst wn)), snd wn + 1));
     time_sleep := fun z wn => (@time_sleep W E z (fst wn), snd wn);
     time_time := fun wn => @time_time W E (fst wn) |}.

(** Both output trees holding the inventory saved after the root page of
    the two-page listing. *)
Definition after_first_page : FS :=
  <[ HybridInventory.INVENTORY_JSON :=
       Text (JInventory (hybrid_artifact (started root_page))) ]>
    {[ DropboxInventory.INVENTORY_JSON :=
         Text (JInventory (artifact (started root_page))) ]}.

(** The legacy output tree with a checkpoint and the inventory of the
    first page, beside the hybrid's own checkpoint. *)
Definition legacy_and_own : FS :=
  <[ HybridInventory.OLD_INVENTORY_JSON :=
       Text (JInventory (artifact (started root_page))) ]> both_checkpoints.

(** The hybrid's own inventory, holding one other entry. *)
Definition own_inventory : Inventory :=
  hybrid_artifact {| seen := [file_entry file_B]; at_cursor := Some "c9";
                     more := true; calls := 7 |}.

(** Both trees, with the hybrid's own inventory complete, and with that
    inventory left torn by a crash during its dump. *)
Definition with_own_inventory : FS :=
  <[ HybridInventory.INVENTORY_JSON := Text (JInventory own_inventory) ]>
    legacy_and_own.

Definition with_torn_own_inventory : FS :=
  <[ HybridInventory.INVENTORY_JSON := Truncated ]> legacy_and_own.

(** A scripted remote for the verifier: the world is the log of the paths
    and cursors asked for. *)
Record Remote := {
  remote_usage : Outcome Z;
  remote_list : string -> Outcome ListFolderResult;
  remote_continue : string -> Outcome ListFolderResult;
}.

Definition answering (r : Remote) : verify_inventory.Listing (list string) :=
  {| verify_inventory.get_space_usage := fun w => (remote_usage r, (w ++ ["usage"])%list);
     verify_inventory.list_folder := fun p w => (remote_list r p, (w ++ [p])%list);
     verify_inventory.list_continue := fun c w => (remote_continue r c, (w ++ [c])%list) |}.

Definition folder_B : FolderMetadata :=
  {| dm_name := "B"; dm_path_display := "/B"; dm_path_lower := "/b";
     dm_id := "id:B" |}.

Definition folder_C : FolderMetadata :=
  {| dm_name := "C"; dm_path_display := "/C"; dm_path_lower := "/c";
     dm_id := "id:C" |}.

(** The verifier scenario: the inventory has the root folders ["/A"] and
    ["/B"] and the folder ["/A/D"] below, the live root listing has ["/A"],
    ["/B"] and ["/C"] on two pages, and the usage request fails. *)
Definition live_first : ListFolderResult :=
  {| res_entries := [IsFolder folder_A; IsFolder folder_B];
     res_cursor := "r1"; res_has_more := true |}.

Definition live_second : ListFolderResult :=
  {| res_entries := [IsFolder folder_C]; res_cursor := "r2"; res_has_more := false |}.

Definition live_root : Remote :=
  {| remote_usage := Raise (ApiError "usage");
     remote_list := fun _ => Return live_first;
     remote_continue := fun _ => Return live_second |}.

Definition folder_D : FolderMetadata :=
  {| dm_name := "D"; dm_path_display := "/A/D"; dm_path_lower := "/a/d";
     dm_id := "id:D" |}.

Definition inventory_A_B : Inventory :=
  hybrid_artifact {| seen := [folder_entry folder_A; folder_entry folder_B;
                              folder_entry folder_D];
                     at_cursor := Some "c2"; more := false; calls := 2 |}.

Definition verified_tree : FS :=
  {[ verify_inventory.INVENTORY_JSON := Text (JInventory inventory_A_B) ]}.

(** A remote that answers every continuation with the root page again. *)
Definition stuttering : Script :=
  {| script_root := Return root_page;
     script_continue := fun _ => Return root_page |}.

(** What a run that ended left behind. *)
Definition state_after {S W : Type} (d : S) (r : option (Exit * S * FS * W)) : S :=
  match r with Some (_, s, _, _) => s | None => d end.

Definition files_after {S W : Type} (r : option (Exit * S * FS * W)) : FS :=
  match r with Some (_, _, fs, _) => fs | None => ∅ end.

Definition world_after {S W : Type} (d : W) (r : option (Exit * S * FS * W)) : W :=
  match r with Some (_, _, _, w) => w | None => d end.

Definition exit_of {S W : Type} (r : option (Exit * S * FS * W)) : option Exit :=
  match r with Some (e, _, _, _) => Some e | None => None end.

(** The runs of the scenarios. *)
Abbreviation legacy_two_pages sigint resume fs :=
  (@DropboxInventory.run (list Z) (scripted two_pages) sigint resume 2
     DropboxInventory.__init__ fs []).

Abbreviation hybrid_two_pages sigint fs :=
  (@HybridInventory.run (list Z) (scripted two_pages) sigint 2
     HybridInventory.__init__ fs []).

Abbreviation hybrid_empty_account sigint fs :=
  (@HybridInventory.run (list Z) (scripted empty_account) sigint 1
     HybridInventory.__init__ fs []).

Abbreviation legacy_rate_limited :=
  (@DropboxInventory.run (list Z) (scripted rate_limited) None false 3
     DropboxInventory.__init__ ∅ []).

Abbreviation counted_two_pages :=
  (@DropboxInventory.run (list Z * Z) (counting (scripted two_pages)) None false 2
     DropboxInventory.__init__ ∅ ([], 0)).

(** * Properties *)

(** ** Files *)

Lemma fs_run_app ops1 ops2 (fs : FS) :
  fs_run (ops1 ++ ops2) fs = fs_run ops2 (fs_run ops1 fs).
Proof. apply fold_left_app. Qed.

Lemma write_csv_keeps p entries (fs : FS) q :
  q <> p -> fs_run (write_csv p entries) fs !! q = fs !! q.
Proof.
  intros Hq. unfold write_csv. destruct (nonempty entries); [|reflexivity].
  cbn. now rewrite !lookup_insert_ne by congruence.
Qed.

Lemma legacy_save_inventory_json self (fs : FS) :
  fs_run (DropboxInventory._save_inventory_ops self) fs
    !! DropboxInventory.INVENTORY_JSON
  = Some (Text (JInventory {| inv_summary := DropboxInventory.summary_of self;
                              inv_entries := DropboxInventory.entries self |})).
Proof.
  unfold DropboxInventory._save_inventory_ops.
  rewrite fs_run_app, write_csv_keeps by discriminate.
  cbn. apply lookup_insert_eq.
Qed.

Lemma legacy_save_inventory_keeps self (fs : FS) q :
  q <> DropboxInventory.INVENTORY_JSON -> q <> DropboxInventory.INVENTORY_CSV ->
  fs_run (DropboxInventory._save_inventory_ops self) fs !! q = fs !! q.
Proof.
  intros Hjson Hcsv. unfold DropboxInventory._save_inventory_ops.
  rewrite fs_run_app, write_csv_keeps by exact Hcsv.
  cbn. now rewrite !lookup_insert_ne by congruence.
Qed.

Lemma legacy_save_pair cp_self inv_self (fs : FS) :
  fs_run (DropboxInventory._save_inventory_ops inv_self)
    (DropboxInventory._save_checkpoint cp_self fs)
    !! DropboxInventory.CHECKPOINT_FILE
  = Some (Text (JCheckpoint (DropboxInventory.checkpoint_of cp_self)))
  /\ fs_run (DropboxInventory._save_inventory_ops inv_self)
       (DropboxInventory._save_checkpoint cp_self fs)
       !! DropboxInventory.INVENTORY_JSON
     = Some (Text (JInventory
                     {| inv_summary := DropboxInventory.summary_of inv_self;
                        inv_entries := DropboxInventory.entries inv_self |})).
Proof.
  split; [|apply legacy_save_inventory_json].
  rewrite legacy_save_inventory_keeps by discriminate.
  cbn. apply lookup_insert_eq.
Qed.

Lemma hybrid_save_all_files self (fs : FS) :
  fs_run (HybridInventory._save_all_ops self) fs !! HybridInventory.CHECKPOINT_FILE
  = Some (Text (JCheckpoint (HybridInventory.checkpoint_of self)))
  /\ fs_run (HybridInventory._save_all_ops self) fs !! HybridInventory.INVENTORY_JSON
     = Some (Text (JInventory {| inv_summary := HybridInventory.summary_of self;
                                 inv_entries := HybridInventory.entries self |})).
Proof.
  unfold HybridInventory._save_all_ops.
  rewrite !fs_run_app, !write_csv_keeps by discriminate.
  cbn. split; [|apply lookup_insert_eq].
  rewrite !(lookup_insert_ne _ HybridInventory.INVENTORY_JSON) by discriminate.
  apply lookup_insert_eq.
Qed.

Lemma hybrid_save_all_csv self (fs : FS) :
  nonempty (HybridInventory.entries self) = true ->
  is_Some (fs_run (HybridInventory._save_all_ops self) fs
             !! HybridInventory.INVENTORY_CSV).
Proof.
  intros Hentries. unfold HybridInventory._save_all_ops, write_csv.
  rewrite Hentries, !fs_run_app. cbn. rewrite lookup_insert_eq. eauto.
Qed.

Lemma hybrid_save_all_keeps self (fs : FS) q :
  q <> HybridInventory.CHECKPOINT_FILE -> q <> HybridInventory.INVENTORY_JSON ->
  q <> HybridInventory.INVENTORY_CSV ->
  fs_run (HybridInventory._save_all_ops self) fs !! q = fs !! q.
Proof.
  intros Hcp Hjson Hcsv. unfold HybridInventory._save_all_ops.
  rewrite !fs_run_app, write_csv_keeps by exact Hcsv.
  cbn. now rewrite !lookup_insert_ne by congruence.
Qed.

(** ** Strings and depth *)

Lemma split_length sep s : length (split sep s) = S (count_char sep s).
Proof.
  induction s as [|c s IH]; simpl; [reflexivity|].
  destruct (Ascii.eqb c sep); simpl.
  - now rewrite IH.
  - destruct (split sep s) as [|p ps]; simpl in *; congruence.
Qed.

Lemma count_char_app c s t :
  count_char c (s +:+ t) = (count_char c s + count_char c t)%nat.
Proof. induction s as [|a s IH]; simpl; [reflexivity|]. rewrite IH. lia. Qed.

Lemma count_char_absolute segments :
  Forall slash_free segments ->
  count_char "/" (absolute segments) = length segments.
Proof.
  induction 1 as [|seg segs Hseg _ IH]; [reflexivity|].
  change (absolute (seg :: segs)) with ("/" +:+ seg +:+ absolute segs).
  rewrite !count_char_app, IH, Hseg. reflexivity.
Qed.

Lemma depth_of_split s :
  depth_of (split "/" s) = Z.of_nat (count_char "/" s).
Proof. unfold depth_of. rewrite split_length. lia. Qed.

Lemma legacy_process_entry entry self :
  fst (DropboxInventory._process_entry entry self)
  = HybridInventory._process_entry entry.
Proof. destruct entry; reflexivity. Qed.

Lemma process_entry_depth entry e :
  HybridInventory._process_entry entry = Some e ->
  folder_depth e = Z.of_nat (count_char "/" (path e)).
Proof.
  destruct entry as [m|m|]; simpl; intros [= <-]; simpl; apply depth_of_split.
Qed.

(** C8, as the code has it: the recorded depth of every file or folder
    entry built by [_process_entry] (in either class) is the number of parts
    of [path_display.split('/')] minus one, that is the number of ['/'] in
    the path; for a canonical absolute path it is the number of path
    segments itself, not that number minus one. *)
Theorem depth_counts_segments (entry : Metadata) (e : Entry) :
  HybridInventory._process_entry entry = Some e ->
  (forall self, fst (DropboxInventory._process_entry entry self) = Some e)
  /\ folder_depth e = Z.of_nat (count_char "/" (path e))
  /\ forall segments,
       Forall slash_free segments -> path e = absolute segments ->
       folder_depth e = Z.of_nat (length segments).
Proof.
  intros He. split; [|split].
  - intros self. now rewrite legacy_process_entry.
  - now apply (process_entry_depth entry).
  - intros segments Hfree Hpath.
    rewrite (process_entry_depth _ _ He), Hpath.
    now rewrite count_char_absolute.
Qed.

(** ** Aggregates *)

Lemma sum_sizes_files_only entries :
  sum_sizes (files_only entries) = file_bytes entries.
Proof.
  induction entries as [|e l IH]; simpl; [reflexivity|].
  destruct (type e) eqn:Ht; simpl; rewrite ?Ht; simpl; lia.
Qed.

Lemma legacy_summary_ok self :
  aggregates_ok {| inv_summary := DropboxInventory.summary_of self;
                   inv_entries := DropboxInventory.entries self |}.
Proof.
  unfold aggregates_ok; simpl. rewrite sum_sizes_files_only.
  repeat split; lia.
Qed.

Lemma hybrid_summary_ok self :
  aggregates_ok {| inv_summary := HybridInventory.summary_of self;
                   inv_entries := HybridInventory.entries self |}.
Proof.
  unfold aggregates_ok; simpl. rewrite sum_sizes_files_only.
  repeat split; lia.
Qed.

(** C5: the artifact written at save time, by [_save_inventory] of the
    legacy script and by [_save_all] of the hybrid one, holds the current
    entries and a summary in which [total_size_bytes] is the sum of
    [size_bytes] over exactly the entries of kind [file] and
    [total_folders + total_files = total_entries]; the aggregates are those
    of any other state with the same entries. *)
Theorem summary_aggregates_correct {W : Type} `{Environment W}
    (legacy : DropboxInventory.Self) (hybrid : HybridInventory.Self)
    (fs : FS) (w : W) :
  (exists inv,
      snd (DropboxInventory._save_inventory legacy fs w)
        !! DropboxInventory.INVENTORY_JSON = Some (Text (JInventory inv))
      /\ inv_entries inv = DropboxInventory.entries legacy
      /\ aggregates_ok inv)
  /\ (exists inv,
      snd (HybridInventory._save_all hybrid fs w)
        !! HybridInventory.INVENTORY_JSON = Some (Text (JInventory inv))
      /\ inv_entries inv = HybridInventory.entries hybrid
      /\ aggregates_ok inv)
  /\ (forall legacy',
      DropboxInventory.entries legacy' = DropboxInventory.entries legacy ->
      let s := DropboxInventory.summary_of legacy in
      let s' := DropboxInventory.summary_of legacy' in
      total_entries s' = total_entries s /\ total_files s' = total_files s
      /\ total_folders s' = total_folders s
      /\ total_size_bytes s' = total_size_bytes s
      /\ file_types s' = file_types s /\ size_by_type s' = size_by_type s).
Proof.
  split; [|split].
  - eexists; split; [|split; [|apply (legacy_summary_ok legacy)]].
    + unfold DropboxInventory._save_inventory; cbn [snd].
      apply legacy_save_inventory_json.
    + reflexivity.
  - eexists; split; [|split; [|apply (hybrid_summary_ok hybrid)]].
    + unfold HybridInventory._save_all; cbn [snd].
      apply hybrid_save_all_files.
    + reflexivity.
  - intros legacy' Heq. unfold DropboxInventory.summary_of; simpl.
    rewrite Heq. repeat split.
Qed.

(** ** The dedup store *)

Lemma add_entry_fresh self e :
  HybridInventory.entries_by_path self !! path e = None ->
  HybridInventory._add_entry (Some e) self
  = (true, HybridInventory.set_store
             (HybridInventory.entries self ++ [e])
             (<[path e := e]> (HybridInventory.entries_by_path self)) self).
Proof. intros Hnone. unfold HybridInventory._add_entry. now rewrite Hnone. Qed.

Lemma add_entry_present self e :
  is_Some (HybridInventory.entries_by_path self !! path e) ->
  HybridInventory._add_entry (Some e) self = (false, self).
Proof. intros [x Hx]. unfold HybridInventory._add_entry. now rewrite Hx. Qed.



Lemma add_entry_store_ok o self :
  store_ok self -> store_ok (snd (HybridInventory._add_entry o self)).
Proof.
  intros [Hnodup Hdom]. destruct o as [e|]; simpl; [|now split].
  destruct (HybridInventory.entries_by_path self !! path e) as [x|] eqn:Hx; simpl;
    [now split|].
  assert (Hfresh : path e ∉ map path (HybridInventory.entries self)).
  { intros Hin. apply Hdom in Hin. rewrite Hx in Hin. now destruct Hin. }
  split; simpl.
  - rewrite map_app. apply NoDup_app. split; [assumption|]. split.
    + intros p Hp Hp'. apply list_elem_of_singleton in Hp'. now subst.
    + apply NoDup_singleton.
  - intros p. rewrite map_app, elem_of_app. simpl.
    rewrite list_elem_of_singleton, lookup_insert.
    destruct (decide (path e = p)) as [->|Hne].
    + split; eauto.
    + rewrite Hdom. split; [now left|]. intros [Hp|Hp]; [assumption|congruence].
Qed.


Lemma store_ok_init : store_ok HybridInventory.__init__.
Proof.
  split; simpl; [apply NoDup_nil_2|].
  intros p. rewrite lookup_empty. split; [intros [x Hx]; discriminate|].
  intros Hp. now apply elem_of_nil in Hp.
Qed.


(** ** The verifier's root-set check *)

Lemma inventory_root_paths_spec entries p :
  p ∈ inventory_root_paths entries
  <-> exists e, e ∈ entries /\ type e = folder /\ folder_depth e = 1 /\ path e = p.
Proof.
  unfold inventory_root_paths, verify_inventory.get_inventory_folders_at_depth.
  rewrite list_elem_of_In, in_map_iff. split.
  - intros (e & Hp & Hin). apply filter_In in Hin as [Hin Hb].
    apply andb_prop in Hb as [Ht Hd].
    apply bool_decide_eq_true in Ht, Hd.
    exists e. rewrite list_elem_of_In. auto.
  - intros (e & Hin & Ht & Hd & Hp). exists e. split; [assumption|].
    apply filter_In. rewrite <- list_elem_of_In. split; [assumption|].
    apply andb_true_intro. split; now apply bool_decide_eq_true.
Qed.

Lemma main_keeps_files {W : Type} `{verify_inventory.Listing W}
    fuel (fs : FS) (w : W) out fs' w' :
  verify_inventory.main fuel fs w = Some (out, fs', w') -> fs' = fs.
Proof.
  unfold verify_inventory.main.
  destruct (verify_inventory.load_inventory fs) as [[cp|data]|e]; try congruence.
  destruct (verify_inventory.list_folder _ _) as [[result|e] w1]; [|congruence].
  destruct (verify_inventory.more_pages _ _ _ _) as [[[[folders files]|e] w2]|];
    try congruence.
  destruct (verify_inventory.spot_check _ _ _); congruence.
Qed.

Lemma collect_folders page folders files p :
  p ∈ fst (verify_inventory.collect page (folders, files))
  <-> p ∈ folders
      \/ exists m, IsFolder m ∈ res_entries page /\ dm_path_display m = p.
Proof.
  unfold verify_inventory.collect.
  generalize (res_entries page). intros l. revert folders files.
  induction l as [|entry l IH]; intros folders files; cbn [fold_left].
  - split; [now left|]. intros [Hp|(m & Hm & _)]; [exact Hp|].
    now apply elem_of_nil in Hm.
  - destruct entry as [m|m|]; rewrite IH; clear IH.
    + split.
      * intros [Hp|(m' & Hm' & Hp)]; [now left|].
        right. exists m'. split; [now apply elem_of_cons; right|exact Hp].
      * intros [Hp|(m' & Hm' & Hp)]; [now left|].
        apply elem_of_cons in Hm' as [[=]|Hm']. right. now exists m'.
    + rewrite elem_of_app, list_elem_of_singleton. split.
      * intros [[Hp|Hp]|(m' & Hm' & Hp)]; [now left| |].
        -- right. exists m. split; [apply list_elem_of_here|now symmetry].
        -- right. exists m'. split; [now apply elem_of_cons; right|exact Hp].
      * intros [Hp|(m' & Hm' & Hp)]; [now left; left|].
        apply elem_of_cons in Hm' as [[= ->]|Hm'].
        -- left. right. now symmetry.
        -- right. now exists m'.
    + split.
      * intros [Hp|(m' & Hm' & Hp)]; [now left|].
        right. exists m'. split; [now apply elem_of_cons; right|exact Hp].
      * intros [Hp|(m' & Hm' & Hp)]; [now left|].
        apply elem_of_cons in Hm' as [[=]|Hm']. right. now exists m'.
Qed.

Lemma more_pages_followed {W : Type} `{verify_inventory.Listing W}
    result (w : W) rest w' :
  followed_by result w rest w' ->
  forall fuel acc, (length rest <= fuel)%nat ->
    exists folders files,
      verify_inventory.more_pages fuel result acc w
      = Some (Return (folders, files), w')
      /\ forall p, p ∈ folders <-> p ∈ fst acc \/ listed_folder rest p.
Proof.
  induction 1 as [result w Hmore|result w next w1 rest w' Hmore Hnext _ IH];
    intros fuel acc Hfuel.
  - destruct acc as [folders files]. exists folders, files.
    split; [destruct fuel; cbn; now rewrite Hmore|].
    intros p. split; [now left|].
    intros [Hp|(page & m & Hpage & _)]; [exact Hp|].
    now apply elem_of_nil in Hpage.
  - destruct fuel as [|fuel]; [cbn in Hfuel; lia|].
    cbn [verify_inventory.more_pages]. rewrite Hmore, Hnext.
    destruct (IH fuel (verify_inventory.collect next acc))
      as (folders & files & Hrun & Hfolders); [cbn in Hfuel; lia|].
    exists folders, files. split; [exact Hrun|].
    intros p. rewrite Hfolders. destruct acc as [folders0 files0].
    rewrite collect_folders. cbn [fst]. split.
    + intros [[Hp|(m & Hm & Hp)]|(page & m & Hpage & Hm & Hp)].
      * now left.
      * right. exists next, m. split; [apply list_elem_of_here|now split].
      * right. exists page, m. split; [now apply elem_of_cons; right|now split].
    + intros [Hp|(page & m & Hpage & Hm & Hp)]; [now left; left|].
      apply elem_of_cons in Hpage as [->|Hpage].
      * left. right. now exists m.
      * right. now exists page, m.
Qed.

(** C9: what [main] reports. With an inventory on disk and a live root
    listing delivered page by page, whatever the usage request did, [main]
    returns a report in which the missing paths are exactly the folders of
    the live listing that the inventory does not record as a folder of depth
    1, and the extra paths are exactly the folders the inventory records at
    depth 1 that the live listing lacks. Only the former count: there is no
    issue when nothing is missing, whatever is extra, and one issue, which
    counts the missing paths, when something is. No run of [main], however it
    ends, changes a file. *)
Theorem root_check_asymmetric {W : Type} `{verify_inventory.Listing W}
    (fuel : nat) (fs : FS) (w w1 w2 w3 : W)
    (inv : Inventory) (first : ListFolderResult) (rest : list ListFolderResult) :
  fs !! verify_inventory.INVENTORY_JSON = Some (Text (JInventory inv)) ->
  verify_inventory.list_folder EmptyString
    (snd (verify_inventory.get_space_usage w)) = (Return first, w1) ->
  followed_by first w1 rest w2 ->
  (length rest <= fuel)%nat ->
  verify_inventory.spot_check fuel
    (verify_inventory.folders_to_check (inv_entries inv)) w2 = Some w3 ->
  let listed := listed_folder (first :: rest) in
  let recorded := recorded_root_folder (inv_entries inv) in
  (exists report,
      verify_inventory.main fuel fs w = Some (Return report, fs, w3)
      /\ (forall p, p ∈ verify_inventory.missing_in_inventory report
                    <-> listed p /\ ~ recorded p)
      /\ (forall p, p ∈ verify_inventory.extra_in_inventory report
                    <-> recorded p /\ ~ listed p)
      /\ ((forall p, listed p -> recorded p) ->
          verify_inventory.issues report = [])
      /\ ((exists p, listed p /\ ~ recorded p) ->
          verify_inventory.issues report
          = [verify_inventory.MissingRootFolders
               (size (verify_inventory.missing_in_inventory report))]))
  /\ (forall fuel' (fs0 : FS) (w0 : W) out fs' w',
        verify_inventory.main fuel' fs0 w0 = Some (out, fs', w') -> fs' = fs0).
Proof.
  intros Hinv Hfirst Hrest Hfuel Hspot listed recorded.
  split; [|apply @main_keeps_files].
  destruct (more_pages_followed first w1 rest w2 Hrest fuel
              (verify_inventory.collect first ([], [])) Hfuel)
    as (folders & files & Hpages & Hfolders).
  assert (Hlisted : forall p, p ∈ folders <-> listed p).
  { intros p. rewrite Hfolders, collect_folders. unfold listed. split.
    - intros [[Hp|(m & Hm & Hp)]|(page & m & Hpage & Hm & Hp)].
      + now apply elem_of_nil in Hp.
      + exists first, m. split; [apply list_elem_of_here|now split].
      + exists page, m. split; [now apply elem_of_cons; right|now split].
    - intros (page & m & Hpage & Hm & Hp).
      apply elem_of_cons in Hpage as [->|Hpage].
      + left. right. now exists m.
      + right. now exists page, m. }
  assert (Hrecorded : forall p, p ∈ inventory_root_paths (inv_entries inv)
                                <-> recorded p).
  { intros p. apply inventory_root_paths_spec. }
  exists (verify_inventory.compare_roots folders (inv_entries inv)).
  split.
  { unfold verify_inventory.main, verify_inventory.load_inventory.
    rewrite Hinv. cbn [json_load]. cbv zeta. rewrite Hfirst, Hpages, Hspot.
    reflexivity. }
  unfold verify_inventory.compare_roots.
  cbn [verify_inventory.missing_in_inventory verify_inventory.extra_in_inventory
       verify_inventory.issues].
  fold (inventory_root_paths (inv_entries inv)).
  assert (Hmissing : forall p,
             p ∈ (list_to_set folders : gset string)
                 ∖ list_to_set (inventory_root_paths (inv_entries inv))
             <-> listed p /\ ~ recorded p).
  { intros p. rewrite elem_of_difference, !elem_of_list_to_set.
    now rewrite Hlisted, Hrecorded. }
  split; [exact Hmissing|]. split.
  { intros p. rewrite elem_of_difference, !elem_of_list_to_set.
    now rewrite Hlisted, Hrecorded. }
  split.
  - intros Hall. rewrite decide_True; [reflexivity|].
    apply elem_of_equiv_empty_L. intros p Hp.
    apply Hmissing in Hp as [Hl Hr]. now apply Hr, Hall.
  - intros (p & Hl & Hr). rewrite decide_False; [reflexivity|].
    intros Hempty.
    assert (Hin : p ∈ (list_to_set folders : gset string)
                      ∖ list_to_set (inventory_root_paths (inv_entries inv)))
      by (apply Hmissing; now split).
    rewrite Hempty in Hin. now apply elem_of_empty in Hin.
Qed.

(** The verifier scenario: ["/C"] is in the live listing and not in the
    inventory, and is the one path reported missing. *)
Lemma root_check_asymmetric_witness :
  exists report,
    @verify_inventory.main (list string) (answering live_root) 1 verified_tree []
    = Some (Return report, verified_tree, ["usage"; ""; "r1"; "/A/D"; "r1"])
    /\ "/C" ∈ verify_inventory.missing_in_inventory report
    /\ verify_inventory.issues report
       = [verify_inventory.MissingRootFolders
            (size (verify_inventory.missing_in_inventory report))].
Proof.
  destruct (@root_check_asymmetric (list string) (answering live_root) 1
              verified_tree [] ["usage"; ""] ["usage"; ""; "r1"]
              ["usage"; ""; "r1"; "/A/D"; "r1"] inventory_A_B live_first
              [live_second])
    as [(report & Hmain & Hmissing & _ & _ & Hissue) _].
  - apply lookup_singleton_eq.
  - reflexivity.
  - apply (@followed_by_more (list string) (answering live_root) live_first
             ["usage"; ""] live_second ["usage"; ""; "r1"] [] ["usage"; ""; "r1"]);
      [reflexivity|reflexivity|].
    now apply (@followed_by_none (list string) (answering live_root)).
  - cbn. lia.
  - reflexivity.
  - assert (Hlisted : listed_folder [live_first; live_second] "/C").
    { exists live_second, folder_C. split; [|split; [|reflexivity]].
      - apply elem_of_cons. right. apply list_elem_of_here.
      - apply list_elem_of_here. }
    assert (Hnot : ~ recorded_root_folder (inv_entries inventory_A_B) "/C").
    { intros (e & He & _ & _ & Hpath). cbn in He.
      apply elem_of_cons in He as [->|He]; [discriminate|].
      apply elem_of_cons in He as [->|He]; [discriminate|].
      apply elem_of_cons in He as [->|He]; [discriminate|].
      now apply elem_of_nil in He. }
    exists report. split; [exact Hmain|]. split.
    + apply Hmissing. now split.
    + apply Hissue. exists "/C". now split.
Defined.

(** ** Loading checkpoints *)

Lemma add_entry_frame o self :
  let self' := snd (HybridInventory._add_entry o self) in
  HybridInventory.cursor self' = HybridInventory.cursor self
  /\ HybridInventory.has_more self' = HybridInventory.has_more self
  /\ HybridInventory.api_calls self' = HybridInventory.api_calls self
  /\ HybridInventory.last_save_time self' = HybridInventory.last_save_time self
  /\ HybridInventory.is_running self' = HybridInventory.is_running self.
Proof.
  destruct o as [e|]; simpl; [|tauto].
  destruct (HybridInventory.entries_by_path self !! path e); simpl; tauto.
Qed.

Lemma add_all_cons e l self :
  HybridInventory.add_all (e :: l) self
  = HybridInventory.add_all l (snd (HybridInventory._add_entry (Some e) self)).
Proof. reflexivity. Qed.

Lemma add_all_frame l self :
  let self' := HybridInventory.add_all l self in
  HybridInventory.cursor self' = HybridInventory.cursor self
  /\ HybridInventory.has_more self' = HybridInventory.has_more self
  /\ HybridInventory.api_calls self' = HybridInventory.api_calls self
  /\ HybridInventory.last_save_time self' = HybridInventory.last_save_time self
  /\ HybridInventory.is_running self' = HybridInventory.is_running self.
Proof.
  revert self. induction l as [|e l IH]; intros self; [simpl; tauto|].
  rewrite add_all_cons. cbv zeta.
  destruct (IH (snd (HybridInventory._add_entry (Some e) self)))
    as (-> & -> & -> & -> & ->).
  apply (add_entry_frame (Some e)).
Qed.

(** What [add_all] stores depends on the store it starts from only. *)
Lemma add_all_store l s1 s2 :
  HybridInventory.entries s1 = HybridInventory.entries s2 ->
  HybridInventory.entries_by_path s1 = HybridInventory.entries_by_path s2 ->
  HybridInventory.entries (HybridInventory.add_all l s1)
  = HybridInventory.entries (HybridInventory.add_all l s2)
  /\ HybridInventory.entries_by_path (HybridInventory.add_all l s1)
     = HybridInventory.entries_by_path (HybridInventory.add_all l s2).
Proof.
  revert s1 s2. induction l as [|e l IH]; intros s1 s2 He Hm; [simpl; tauto|].
  rewrite !add_all_cons.
  apply IH; unfold HybridInventory._add_entry; rewrite <- Hm;
    destruct (HybridInventory.entries_by_path s1 !! path e); simpl; congruence.
Qed.

(** Entries with pairwise distinct paths are all taken, in order. *)
Lemma add_all_distinct l self :
  store_ok self ->
  NoDup (map path (HybridInventory.entries self ++ l)%list) ->
  HybridInventory.entries (HybridInventory.add_all l self)
  = (HybridInventory.entries self ++ l)%list.
Proof.
  revert self. induction l as [|e l IH]; intros self Hok Hnd.
  - simpl. now rewrite app_nil_r.
  - rewrite add_all_cons.
    assert (Hfresh : HybridInventory.entries_by_path self !! path e = None).
    { destruct Hok as [_ Hdom].
      destruct (HybridInventory.entries_by_path self !! path e) eqn:Hx; [|reflexivity].
      exfalso. assert (Hin : path e ∈ map path (HybridInventory.entries self))
        by (apply Hdom; rewrite Hx; eauto).
      rewrite map_app in Hnd. apply NoDup_app in Hnd as (_ & Hdisj & _).
      apply (Hdisj _ Hin). simpl. apply list_elem_of_here. }
    pose proof (add_entry_store_ok (Some e) self Hok) as Hok'.
    rewrite (add_entry_fresh _ _ Hfresh) in *. simpl in *.
    rewrite IH; simpl; [now rewrite <- app_assoc|assumption|].
    now rewrite <- app_assoc.
Qed.

(** C10, as the code has it: with the legacy checkpoint and the hybrid's
    own checkpoint both present and parsed, [_load_old_progress] answers
    [True] with [cursor], [has_more] and [api_calls] as the hybrid checkpoint
    gives them (through [.get] and its defaults), whatever the legacy one
    said. When the hybrid's own inventory is there and parses, the store is
    emptied and refilled from it alone, so nothing loaded from the legacy
    inventory is left. In every other case, the own inventory missing or
    there but not parsed, the store stays as the legacy inventory filled
    it, beside the hybrid checkpoint's values. *)
Theorem own_checkpoint_takes_priority
    (self : HybridInventory.Self) (fs : FS) (legacy own : Json) :
  fs !! HybridInventory.OLD_CHECKPOINT = Some (Text legacy) ->
  fs !! HybridInventory.CHECKPOINT_FILE = Some (Text own) ->
  let loaded := fst (HybridInventory._load_old_progress self fs) in
  let self' := snd (HybridInventory._load_old_progress self fs) in
  let old_entries :=
    match fs !! HybridInventory.OLD_INVENTORY_JSON with
    | Some (Text data) => get_entries data
    | _ => []
    end in
  loaded = true
  /\ HybridInventory.cursor self' = cp_cursor (as_checkpoint own)
  /\ HybridInventory.has_more self' = default true (cp_has_more (as_checkpoint own))
  /\ HybridInventory.api_calls self' = default 0 (cp_api_calls (as_checkpoint own))
  /\ (forall data, fs !! HybridInventory.INVENTORY_JSON = Some (Text data) ->
       HybridInventory.entries self'
       = HybridInventory.entries
           (HybridInventory.add_all (get_entries data) HybridInventory.__init__)
       /\ HybridInventory.entries_by_path self'
          = HybridInventory.entries_by_path
              (HybridInventory.add_all (get_entries data) HybridInventory.__init__)
       /\ (NoDup (map path (get_entries data)) ->
           HybridInventory.entries self' = get_entries data))
  /\ ((forall data, fs !! HybridInventory.INVENTORY_JSON <> Some (Text data)) ->
      HybridInventory.entries self'
      = HybridInventory.entries (HybridInventory.add_all old_entries self)
      /\ HybridInventory.entries_by_path self'
         = HybridInventory.entries_by_path (HybridInventory.add_all old_entries self)).
Proof.
  intros Hold Hown loaded self' old_entries. subst loaded self' old_entries.
  unfold HybridInventory._load_old_progress, HybridInventory.load_old_checkpoint.
  rewrite Hold. cbn [json_load]. cbv zeta.
  set (s1 := HybridInventory.set_has_more _ _).
  assert (Hlegacy : exists s2,
             HybridInventory.load_old_inventory true s1 fs = (true, s2)
             /\ HybridInventory.entries s2
                = HybridInventory.entries
                    (HybridInventory.add_all
                       match fs !! HybridInventory.OLD_INVENTORY_JSON with
                       | Some (Text data) => get_entries data
                       | _ => []
                       end self)
             /\ HybridInventory.entries_by_path s2
                = HybridInventory.entries_by_path
                    (HybridInventory.add_all
                       match fs !! HybridInventory.OLD_INVENTORY_JSON with
                       | Some (Text data) => get_entries data
                       | _ => []
                       end self)).
  { unfold HybridInventory.load_old_inventory.
    destruct (fs !! HybridInventory.OLD_INVENTORY_JSON) as [[|data]|];
      cbn [json_load]; eexists; (split; [reflexivity|]);
      try (split; reflexivity).
    apply add_all_store; reflexivity. }
  destruct Hlegacy as (s2 & -> & He2 & Hm2).
  unfold HybridInventory.load_own. rewrite Hown. cbn [json_load]. cbv zeta.
  destruct (fs !! HybridInventory.INVENTORY_JSON) as [[|data]|] eqn:Hinv;
    cbn [json_load fst snd].
  - repeat (split; [reflexivity|]). split; [intros d [=]|].
    intros _. split; [exact He2|exact Hm2].
  - set (s3 := HybridInventory.set_store [] ∅ _).
    destruct (add_all_frame (get_entries data) s3) as (-> & -> & -> & _).
    repeat (split; [reflexivity|]). split.
    + intros d [= <-].
      destruct (add_all_store (get_entries data) s3 HybridInventory.__init__)
        as [He Hm]; try reflexivity.
      split; [exact He|]. split; [exact Hm|].
      intros Hnd. rewrite He.
      now rewrite (add_all_distinct _ _ store_ok_init).
    + intros Hno. now destruct (Hno data).
  - repeat (split; [reflexivity|]). split; [intros d [=]|].
    intros _. split; [exact He2|exact Hm2].
Qed.

(** C10 as stated fails when the hybrid's own inventory exists but was left
    torn by a crash during its dump: both checkpoints parse and the own
    inventory is there, yet the entries loaded from the legacy inventory are
    not discarded; they stay, beside the cursor of the hybrid checkpoint. *)
Lemma torn_own_inventory_keeps_legacy_entries :
  with_torn_own_inventory !! HybridInventory.OLD_CHECKPOINT
  = Some (Text (JCheckpoint contradictory))
  /\ with_torn_own_inventory !! HybridInventory.CHECKPOINT_FILE
     = Some (Text (JCheckpoint own_checkpoint))
  /\ is_Some (with_torn_own_inventory !! HybridInventory.INVENTORY_JSON)
  /\ HybridInventory.cursor
       (snd (HybridInventory._load_old_progress HybridInventory.__init__
               with_torn_own_inventory)) = Some "c9"
  /\ HybridInventory.entries
       (snd (HybridInventory._load_old_progress HybridInventory.__init__
               with_torn_own_inventory))
     = [folder_entry folder_A; file_entry file_f]
  /\ HybridInventory.entries
       (snd (HybridInventory._load_old_progress HybridInventory.__init__
               with_torn_own_inventory)) <> [].
Proof.
  split; [vm_compute; reflexivity|].
  split; [vm_compute; reflexivity|].
  split; [exists Truncated; vm_compute; reflexivity|].
  split; [vm_compute; reflexivity|].
  split; [vm_compute; reflexivity|].
  vm_compute. discriminate.
Qed.

(** C3, as the code has it: neither loader validates what it reads. A
    persisted checkpoint with [has_more] false and a cursor is adopted:
    [_load_checkpoint] answers [True] with that cursor and [has_more = False]
    in place (it raises only when a file cannot be parsed), and the hybrid's
    [_load_old_progress] takes both fields the same way. *)
Theorem contradictory_checkpoint_adopted
    (cp : Checkpoint) (c : string) (fs : FS) :
  cp_has_more cp = Some false ->
  cp_cursor cp = Some c ->
  (forall self,
      fs !! DropboxInventory.CHECKPOINT_FILE = Some (Text (JCheckpoint cp)) ->
      fs !! DropboxInventory.INVENTORY_JSON <> Some Truncated ->
      exists self',
        DropboxInventory._load_checkpoint self fs = (Return true, self')
        /\ DropboxInventory.cursor self' = Some c
        /\ DropboxInventory.has_more self' = false)
  /\ (forall self,
      fs !! HybridInventory.CHECKPOINT_FILE = Some (Text (JCheckpoint cp)) ->
      let self' := snd (HybridInventory._load_old_progress self fs) in
      HybridInventory.cursor self' = Some c
      /\ HybridInventory.has_more self' = false
      /\ (fs !! HybridInventory.INVENTORY_JSON <> Some Truncated ->
          fst (HybridInventory._load_old_progress self fs) = true)).
Proof.
  intros Hmore Hcur. split.
  - intros self Hcp Hinv. unfold DropboxInventory._load_checkpoint.
    rewrite Hcp. simpl.
    destruct (fs !! DropboxInventory.INVENTORY_JSON) as [[|data]|];
      [congruence| |]; simpl; eexists; (split; [reflexivity|]);
      simpl; rewrite Hmore, Hcur; split; reflexivity.
  - intros self Hcp. simpl.
    unfold HybridInventory._load_old_progress.
    destruct (HybridInventory.load_old_checkpoint false self fs) as [l1 s1].
    destruct (HybridInventory.load_old_inventory l1 s1 fs) as [l2 s2].
    unfold HybridInventory.load_own. rewrite Hcp. simpl.
    destruct (fs !! HybridInventory.INVENTORY_JSON) as [[|data]|]; simpl.
    + rewrite Hmore, Hcur. repeat split. congruence.
    + set (s3 := HybridInventory.set_store [] ∅ _).
      destruct (add_all_frame (get_entries data) s3) as (-> & -> & _).
      simpl. rewrite Hmore, Hcur. repeat split.
    + rewrite Hmore, Hcur. repeat split.
Qed.

(** C3 as stated fails: the legacy loader answers [True] on a checkpoint
    with [has_more = False] and cursor ["c1"], and takes both over. *)
Lemma contradictory_checkpoint_not_rejected :
  cp_has_more contradictory = Some false
  /\ cp_cursor contradictory = Some "c1"
  /\ contradictory_fs !! DropboxInventory.CHECKPOINT_FILE
     = Some (Text (JCheckpoint contradictory))
  /\ ~ rejected (fst (DropboxInventory._load_checkpoint
                        DropboxInventory.__init__ contradictory_fs))
  /\ DropboxInventory.cursor
       (snd (DropboxInventory._load_checkpoint
               DropboxInventory.__init__ contradictory_fs)) = Some "c1"
  /\ DropboxInventory.has_more
       (snd (DropboxInventory._load_checkpoint
               DropboxInventory.__init__ contradictory_fs)) = false.
Proof.
  assert (Hfile : contradictory_fs !! DropboxInventory.CHECKPOINT_FILE
                  = Some (Text (JCheckpoint contradictory)))
    by apply lookup_singleton_eq.
  assert (Hinv : contradictory_fs !! DropboxInventory.INVENTORY_JSON = None)
    by (apply lookup_singleton_ne; discriminate).
  unfold DropboxInventory._load_checkpoint. rewrite Hfile, Hinv. simpl.
  repeat split. discriminate.
Qed.

(** ** Saving in place *)

Lemma hybrid_paths_differ :
  HybridInventory.CHECKPOINT_FILE <> HybridInventory.INVENTORY_JSON.
Proof. discriminate. Qed.

(** C4, as the code has it: no save goes through a temporary file and a
    rename. Each file is opened for writing, which empties it, and the JSON
    is then dumped into it. A crash before the open leaves the old file, a
    crash between the open and the end of the dump leaves a truncated file,
    and only a finished write leaves the new complete file. [_save_all]
    writes the checkpoint first and the inventory after it. *)
Theorem save_writes_in_place
    (legacy : DropboxInventory.Self) (hybrid : HybridInventory.Self)
    (fs : FS) (k : nat) :
  fs_run (firstn k (DropboxInventory._save_checkpoint_ops legacy)) fs
    !! DropboxInventory.CHECKPOINT_FILE
  = match k with
    | O => fs !! DropboxInventory.CHECKPOINT_FILE
    | 1%nat => Some Truncated
    | _ => Some (Text (JCheckpoint (DropboxInventory.checkpoint_of legacy)))
    end
  /\ fs_run (firstn k (DropboxInventory._save_inventory_ops legacy)) fs
       !! DropboxInventory.INVENTORY_JSON
     = match k with
       | O => fs !! DropboxInventory.INVENTORY_JSON
       | 1%nat => Some Truncated
       | _ => Some (Text (JInventory
                {| inv_summary := DropboxInventory.summary_of legacy;
                   inv_entries := DropboxInventory.entries legacy |}))
       end
  /\ fs_run (firstn k (HybridInventory._save_all_ops hybrid)) fs
       !! HybridInventory.CHECKPOINT_FILE
     = match k with
       | O => fs !! HybridInventory.CHECKPOINT_FILE
       | 1%nat => Some Truncated
       | _ => Some (Text (JCheckpoint (HybridInventory.checkpoint_of hybrid)))
       end
  /\ fs_run (firstn k (HybridInventory._save_all_ops hybrid)) fs
       !! HybridInventory.INVENTORY_JSON
     = match k with
       | O | 1%nat | 2%nat => fs !! HybridInventory.INVENTORY_JSON
       | 3%nat => Some Truncated
       | _ => Some (Text (JInventory
                {| inv_summary := HybridInventory.summary_of hybrid;
                   inv_entries := HybridInventory.entries hybrid |}))
       end.
Proof.
  split; [|split; [|split]].
  - destruct k as [|[|[|k]]]; simpl; now rewrite ?lookup_insert_eq.
  - unfold DropboxInventory._save_inventory_ops, write_csv.
    destruct (nonempty (DropboxInventory.entries legacy));
      destruct k as [|[|[|[|[|k]]]]]; simpl;
      repeat first [rewrite lookup_insert_eq
                   |rewrite lookup_insert_ne by discriminate];
      reflexivity.
  - unfold HybridInventory._save_all_ops, write_csv.
    destruct (nonempty (HybridInventory.entries hybrid));
      destruct k as [|[|[|[|[|[|[|k]]]]]]]; simpl;
      repeat first [rewrite lookup_insert_eq
                   |rewrite lookup_insert_ne by discriminate];
      reflexivity.
  - unfold HybridInventory._save_all_ops, write_csv.
    destruct (nonempty (HybridInventory.entries hybrid));
      destruct k as [|[|[|[|[|[|[|k]]]]]]]; simpl;
      repeat first [rewrite lookup_insert_eq
                   |rewrite lookup_insert_ne by discriminate];
      reflexivity.
Qed.

(** C4 as stated fails: with a complete checkpoint on disk, a crash right
    after [_save_checkpoint] has opened the file leaves neither the old nor
    the new checkpoint but a truncated file, on which the next
    [_load_checkpoint] raises. *)
Lemma save_checkpoint_not_atomic :
  ~ all_or_nothing
      (DropboxInventory._save_checkpoint_ops DropboxInventory.__init__)
      DropboxInventory.CHECKPOINT_FILE contradictory_fs
  /\ fst (DropboxInventory._load_checkpoint DropboxInventory.__init__
            (fs_run (firstn 1 (DropboxInventory._save_checkpoint_ops
                                 DropboxInventory.__init__))
                    contradictory_fs))
     = Raise JSONDecodeError.
Proof.
  assert (Hold : contradictory_fs !! DropboxInventory.CHECKPOINT_FILE
                 = Some (Text (JCheckpoint contradictory)))
    by apply lookup_singleton_eq.
  split.
  - intros Hatomic. specialize (Hatomic 1%nat). simpl in Hatomic.
    rewrite !lookup_insert_eq, Hold in Hatomic.
    destruct Hatomic; discriminate.
  - unfold DropboxInventory._load_checkpoint. simpl.
    now rewrite lookup_insert_eq.
Qed.

(** ** The retry policy *)

Lemma legacy_api_call_permanent {W : Type} `{Environment W} {R : Type}
    (func : W -> Outcome R * W) description e w w1 attempt rest self :
  func w = (Raise e, w1) -> retryable e = false ->
  DropboxInventory._api_call_from func description (attempt :: rest) self w
  = (Raise e, DropboxInventory.set_api_calls (DropboxInventory.api_calls self + 1) self, w1).
Proof.
  intros Hfunc Hperm. simpl. rewrite Hfunc.
  destruct e; simpl in Hperm; try discriminate; reflexivity.
Qed.

Lemma hybrid_api_call_permanent {W : Type} `{Environment W} {R : Type}
    (func : W -> Outcome R * W) e w w1 attempt rest self :
  func w = (Raise e, w1) -> retryable e = false ->
  HybridInventory._api_call_from func (attempt :: rest) self w
  = (Raise e, HybridInventory.set_api_calls (HybridInventory.api_calls self + 1) self, w1).
Proof.
  intros Hfunc Hperm. simpl. rewrite Hfunc.
  destruct e; simpl in Hperm; try discriminate; reflexivity.
Qed.

(** C6: when the operation raises an error that is neither a rate limit
    nor a server error, [_api_call] (of either class) raises that same error
    at once, at whichever attempt it occurs: the call counter has grown by
    that one attempt, and the world is the one the failed call left, with no
    [time.sleep] and no further attempt made in it, however the operation
    would answer if it were called again. *)
Theorem permanent_error_propagates {W : Type} `{Environment W} {R : Type}
    (func : W -> Outcome R * W) (e : Exception) (w w1 : W) :
  func w = (Raise e, w1) ->
  retryable e = false ->
  (forall description attempt rest self,
      DropboxInventory._api_call_from func description (attempt :: rest) self w
      = (Raise e,
         DropboxInventory.set_api_calls (DropboxInventory.api_calls self + 1) self,
         w1))
  /\ (forall description self,
      DropboxInventory._api_call func description self w
      = (Raise e,
         DropboxInventory.set_api_calls (DropboxInventory.api_calls self + 1) self,
         w1))
  /\ (forall attempt rest self,
      HybridInventory._api_call_from func (attempt :: rest) self w
      = (Raise e,
         HybridInventory.set_api_calls (HybridInventory.api_calls self + 1) self,
         w1))
  /\ (forall self,
      HybridInventory._api_call func self w
      = (Raise e,
         HybridInventory.set_api_calls (HybridInventory.api_calls self + 1) self,
         w1)).
Proof.
  intros Hfunc Hperm. split; [|split; [|split]]; intros.
  - now apply legacy_api_call_permanent.
  - now apply legacy_api_call_permanent.
  - now apply hybrid_api_call_permanent.
  - now apply hybrid_api_call_permanent.
Qed.

(** The policy at work on a remote that refuses every call: one attempt,
    no sleep logged, the client error handed on. *)
Lemma permanent_error_propagates_witness :
  @files_list_folder _ (scripted refusing) [] = (Raise (ApiError "path/not_found"), [])
  /\ retryable (ApiError "path/not_found") = false
  /\ @DropboxInventory._api_call _ (scripted refusing) _
       (@files_list_folder _ (scripted refusing)) "Initial list_folder"
       DropboxInventory.__init__ []
     = (Raise (ApiError "path/not_found"),
        DropboxInventory.set_api_calls 1 DropboxInventory.__init__, []).
Proof.
  split; [reflexivity|]. split; [reflexivity|].
  apply (@permanent_error_propagates _ (scripted refusing) _
           (@files_list_folder _ (scripted refusing))
           (ApiError "path/not_found") [] []); reflexivity.
Defined.









(** ** Resuming the legacy enumerator *)

Lemma legacy_paths_differ :
  DropboxInventory.CHECKPOINT_FILE <> DropboxInventory.INVENTORY_JSON.
Proof. discriminate. Qed.

Lemma legacy_add_one_progress self entry :
  progress_of (DropboxInventory.add_one self entry)
  = {| seen := (DropboxInventory.entries self
                ++ omap HybridInventory._process_entry [entry])%list;
       at_cursor := DropboxInventory.cursor self;
       more := DropboxInventory.has_more self;
       calls := DropboxInventory.api_calls self |}
  /\ DropboxInventory.is_running (DropboxInventory.add_one self entry)
     = DropboxInventory.is_running self.
Proof.
  destruct entry as [m|m|]; simpl; unfold progress_of; simpl;
    rewrite ?app_nil_r; split; reflexivity.
Qed.

Lemma legacy_add_entries_progress l self :
  progress_of (DropboxInventory.add_entries l self)
  = {| seen := (DropboxInventory.entries self
                ++ omap HybridInventory._process_entry l)%list;
       at_cursor := DropboxInventory.cursor self;
       more := DropboxInventory.has_more self;
       calls := DropboxInventory.api_calls self |}
  /\ DropboxInventory.is_running (DropboxInventory.add_entries l self)
     = DropboxInventory.is_running self.
Proof.
  revert self. induction l as [|entry l IH]; intros self.
  - simpl. unfold progress_of. now rewrite app_nil_r.
  - change (DropboxInventory.add_entries (entry :: l) self)
      with (DropboxInventory.add_entries l (DropboxInventory.add_one self entry)).
    destruct (IH (DropboxInventory.add_one self entry)) as [-> ->].
    destruct (legacy_add_one_progress self entry) as [Hp ->].
    split; [|reflexivity].
    apply (f_equal seen) in Hp as Hseen. apply (f_equal at_cursor) in Hp as Hcur.
    apply (f_equal more) in Hp as Hmore. apply (f_equal calls) in Hp as Hcalls.
    simpl in Hseen, Hcur, Hmore, Hcalls. rewrite Hseen, Hcur, Hmore, Hcalls.
    f_equal. rewrite <- app_assoc. f_equal. simpl.
    destruct (HybridInventory._process_entry entry); reflexivity.
Qed.

Lemma legacy_take_page_progress result self :
  progress_of (DropboxInventory.take_page result self)
  = {| seen := (DropboxInventory.entries self
                ++ omap HybridInventory._process_entry (res_entries result))%list;
       at_cursor := Some (res_cursor result);
       more := res_has_more result;
       calls := DropboxInventory.api_calls self |}
  /\ DropboxInventory.is_running (DropboxInventory.take_page result self)
     = DropboxInventory.is_running self.
Proof.
  destruct (legacy_add_entries_progress (res_entries result) self) as [Hp Hrun].
  unfold DropboxInventory.take_page. split; [|exact Hrun].
  apply (f_equal seen) in Hp as Hseen. apply (f_equal calls) in Hp as Hcalls.
  unfold progress_of in *. simpl in *. now rewrite Hseen, Hcalls.
Qed.

Lemma legacy_api_call_answers {W : Type} `{Environment W} {R : Type}
    (func : W -> Outcome R * W) description self w result w1 :
  func w = (Return result, w1) ->
  DropboxInventory._api_call func description self w
  = (Return result,
     DropboxInventory.set_api_calls (DropboxInventory.api_calls self + 1) self, w1).
Proof.
  intros Hfunc. unfold DropboxInventory._api_call. simpl. now rewrite Hfunc.
Qed.

Lemma legacy_artifact self :
  {| inv_summary := DropboxInventory.summary_of self;
     inv_entries := DropboxInventory.entries self |}
  = artifact (progress_of self).
Proof. reflexivity. Qed.

(** A save in the middle of a run changes the files and the save
    bookkeeping, nothing else. *)
Lemma legacy_periodic_save {W : Type} `{Environment W} self (fs : FS) (w : W) :
  let saved_now :=
    if DropboxInventory._should_save self w
    then DropboxInventory._save_inventory self
           (DropboxInventory._save_checkpoint self fs) w
    else (self, fs) in
  progress_of (fst saved_now) = progress_of self
  /\ DropboxInventory.is_running (fst saved_now) = DropboxInventory.is_running self.
Proof.
  simpl. destruct (DropboxInventory._should_save self w); split; reflexivity.
Qed.

Lemma legacy_signal_handler_saves {W : Type} `{Environment W} self (fs : FS) (w : W) :
  exists self' fs',
    DropboxInventory._signal_handler self fs w = (SysExit 0, self', fs', w)
    /\ saved (progress_of self) fs'.
Proof.
  unfold DropboxInventory._signal_handler, DropboxInventory._save_inventory.
  do 2 eexists. split; [reflexivity|].
  exists (DropboxInventory.checkpoint_of (DropboxInventory.set_is_running false self)).
  cbn [fst snd].
  split; [apply (legacy_save_pair (DropboxInventory.set_is_running false self))|].
  split; [apply (legacy_save_pair (DropboxInventory.set_is_running false self))|].
  repeat split.
Qed.

Lemma legacy_finish_completes {W : Type} `{Environment W} self (fs : FS) (w : W) :
  DropboxInventory.is_running self = true ->
  DropboxInventory.has_more self = false ->
  exists self' fs',
    DropboxInventory.finish self fs w = (Returned, self', fs', w)
    /\ progress_of self' = progress_of self
    /\ finished (progress_of self) fs'.
Proof.
  intros Hrun Hmore.
  unfold DropboxInventory.finish, DropboxInventory._save_inventory.
  rewrite Hrun.
  destruct (legacy_save_pair (DropboxInventory.set_has_more false self)
              (DropboxInventory.set_has_more false self) fs) as [Hcp Hinv].
  set (fs2 := fs_run _ (DropboxInventory._save_checkpoint _ fs)) in *.
  rewrite Hcp.
  do 2 eexists. split; [reflexivity|]. split.
  - unfold progress_of. simpl. now rewrite Hmore.
  - split; cbn [fs_run fold_left fs_step].
    + apply lookup_delete_eq.
    + rewrite lookup_delete_ne by discriminate. rewrite Hinv.
      unfold artifact, progress_of. simpl. now rewrite Hmore.
Qed.

(** ** Running a listing to its end *)

Lemma exhaust_more_fuel step fuel p q :
  exhaust step fuel p = Some q -> exhaust step (S fuel) p = Some q.
Proof.
  revert p. induction fuel as [|fuel IH]; intros p.
  - simpl. destruct (more p); [discriminate|auto].
  - intros Hq. change (exhaust step (S (S fuel)) p)
      with (if more p then exhaust step (S fuel) (step p) else Some p).
    simpl in Hq. destruct (more p); [|assumption]. now apply IH.
Qed.

Lemma exhaust_stops step fuel p q : exhaust step fuel p = Some q -> more q = false.
Proof.
  revert p. induction fuel as [|fuel IH]; intros p; simpl;
    destruct (more p) eqn:Hmore; try discriminate.
  - now intros [= <-].
  - apply IH.
  - now intros [= <-].
Qed.

Lemma exhaust_at_end step fuel p : more p = false -> exhaust step fuel p = Some p.
Proof. intros Hmore. destruct fuel; simpl; now rewrite Hmore. Qed.

Section ResumeEquivalence.

Context {W : Type} `{Environment W}.

(** An error-free paginated listing: the root page, and the page behind
    each cursor. Every call answers at its first attempt; what else a call
    does to the world (the time it takes) is left open. *)
Variable root : ListFolderResult.
Variable next : option string -> ListFolderResult.
Hypothesis root_answers :
  forall w, exists w', files_list_folder w = (Return root, w').
Hypothesis next_answers :
  forall c w, exists w', files_list_folder_continue c w = (Return (next c), w').

(** The body of the loop takes the progress one page further. *)
Lemma legacy_loop_body self w :
  exists result w1,
    DropboxInventory._api_call
      (files_list_folder_continue (DropboxInventory.cursor self))
      "list_folder_continue" self w
    = (Return result,
       DropboxInventory.set_api_calls (DropboxInventory.api_calls self + 1) self,
       w1)
    /\ progress_of
         (DropboxInventory.take_page result
            (DropboxInventory.set_api_calls
               (DropboxInventory.api_calls self + 1) self))
       = advance next (progress_of self).
Proof.
  destruct (next_answers (DropboxInventory.cursor self) w) as [w1 Hcall].
  exists (next (DropboxInventory.cursor self)), w1.
  split; [now apply legacy_api_call_answers|].
  now destruct (legacy_take_page_progress
                  (next (DropboxInventory.cursor self))
                  (DropboxInventory.set_api_calls
                     (DropboxInventory.api_calls self + 1) self)) as [-> _].
Qed.

(** The loop, interrupted or not: either it runs to the end and leaves the
    finished files, or SIGINT stops it and leaves saved files from which
    the same end is reached. *)
Lemma legacy_paginate_spec sigint fuel :
  forall pages self (fs : FS) w q,
    DropboxInventory.is_running self = true ->
    exhaust (advance next) fuel (progress_of self) = Some q ->
    exists exit self' fs' w',
      DropboxInventory.paginate sigint fuel pages self fs w
      = Some (exit, self', fs', w')
      /\ ((exit = Returned /\ progress_of self' = q /\ finished q fs')
          \/ (sigint <> None /\ exit = SysExit 0
              /\ exists p, saved p fs' /\ exhaust (advance next) fuel p = Some q)).
Proof.
  induction fuel as [|fuel IH]; intros pages self fs w q Hrun Hq.
  - cbn [DropboxInventory.paginate].
    destruct (decide (sigint = Some pages)) as [Hsig|Hsig].
    + destruct (legacy_signal_handler_saves self fs w) as (s' & fs' & -> & Hsaved).
      exists (SysExit 0), s', fs', w. split; [reflexivity|]. right.
      split; [congruence|]. split; [reflexivity|]. eauto.
    + destruct (DropboxInventory.has_more self) eqn:Hmore.
      { exfalso. cbn in Hq. rewrite Hmore in Hq. discriminate. }
      rewrite (exhaust_at_end _ O (progress_of self) Hmore) in Hq.
      injection Hq as <-. cbn [andb].
      destruct (legacy_finish_completes self fs w Hrun Hmore)
        as (s' & fs' & -> & Hp & Hfin).
      exists Returned, s', fs', w. split; [reflexivity|]. left. auto.
  - cbn [DropboxInventory.paginate].
    destruct (decide (sigint = Some pages)) as [Hsig|Hsig].
    + destruct (legacy_signal_handler_saves self fs w) as (s' & fs' & -> & Hsaved).
      exists (SysExit 0), s', fs', w. split; [reflexivity|]. right.
      split; [congruence|]. split; [reflexivity|]. eauto.
    + destruct (DropboxInventory.has_more self) eqn:Hmore.
      * rewrite Hrun. cbn [andb].
        destruct (legacy_loop_body self w) as (result & w1 & -> & Hadv).
        set (self1 := DropboxInventory.take_page result _) in *.
        assert (Hrun1 : DropboxInventory.is_running self1 = true).
        { subst self1.
          now destruct (legacy_take_page_progress result
            (DropboxInventory.set_api_calls
               (DropboxInventory.api_calls self + 1) self)) as [_ ->]. }
        pose proof (legacy_periodic_save self1 fs w1) as Hsave.
        cbv zeta in Hsave.
        destruct (if DropboxInventory._should_save self1 w1
                  then DropboxInventory._save_inventory self1
                         (DropboxInventory._save_checkpoint self1 fs) w1
                  else (self1, fs)) as [self2 fs2].
        cbn [fst] in Hsave. destruct Hsave as [Hp2 Hrun2].
        assert (Hq2 : exhaust (advance next) fuel (progress_of self2) = Some q).
        { rewrite Hp2, Hadv. simpl in Hq. unfold progress_of in Hq at 1.
          simpl in Hq. now rewrite Hmore in Hq. }
        destruct (IH (S pages) self2 fs2 w1 q) as (exit & s' & fs' & w' & -> & Hcases);
          [congruence|assumption|].
        exists exit, s', fs', w'. split; [reflexivity|].
        destruct Hcases as [Hdone|(Hsig' & Hexit & p & Hsaved & Hp)]; [now left|].
        right. split; [assumption|]. split; [assumption|].
        exists p. split; [assumption|]. now apply exhaust_more_fuel.
      * cbn [andb].
        rewrite (exhaust_at_end _ (S fuel) (progress_of self) Hmore) in Hq.
        injection Hq as <-.
        destruct (legacy_finish_completes self fs w Hrun Hmore)
          as (s' & fs' & -> & Hp & Hfin).
        exists Returned, s', fs', w. split; [reflexivity|]. left. auto.
Qed.

Lemma legacy_paginate_exhausts fuel :
  forall pages self (fs : FS) w r,
    DropboxInventory.is_running self = true ->
    DropboxInventory.paginate None fuel pages self fs w = Some r ->
    exists q, exhaust (advance next) fuel (progress_of self) = Some q.
Proof.
  induction fuel as [|fuel IH]; intros pages self fs w r Hrun;
    cbn [DropboxInventory.paginate];
    (destruct (decide (None = Some pages)) as [|_]; [discriminate|]);
    destruct (DropboxInventory.has_more self) eqn:Hmore;
    rewrite ?Hrun; cbn [andb];
    try (intros _; exists (progress_of self); now apply exhaust_at_end).
  - discriminate.
  - destruct (legacy_loop_body self w) as (result & w1 & -> & Hadv).
    set (self1 := DropboxInventory.take_page result _) in *.
    assert (Hrun1 : DropboxInventory.is_running self1 = true).
    { subst self1.
      now destruct (legacy_take_page_progress result
        (DropboxInventory.set_api_calls
           (DropboxInventory.api_calls self + 1) self)) as [_ ->]. }
    pose proof (legacy_periodic_save self1 fs w1) as Hsave.
    cbv zeta in Hsave.
    destruct (if DropboxInventory._should_save self1 w1
              then DropboxInventory._save_inventory self1
                     (DropboxInventory._save_checkpoint self1 fs) w1
              else (self1, fs)) as [self2 fs2].
    cbn [fst] in Hsave. destruct Hsave as [Hp2 Hrun2].
    intros Hloop. apply IH in Hloop as [q Hq]; [|congruence].
    exists q. cbn [exhaust]. unfold progress_of at 1. cbn [more].
    rewrite Hmore. now rewrite <- Hadv, <- Hp2.
Qed.

Lemma legacy_load_absent self (fs : FS) :
  fs !! DropboxInventory.CHECKPOINT_FILE = None ->
  DropboxInventory._load_checkpoint self fs = (Return false, self).
Proof. intros Hnone. unfold DropboxInventory._load_checkpoint. now rewrite Hnone. Qed.

(** Loading what an interrupted run saved gives its progress back. *)
Lemma legacy_load_saved self (fs : FS) p :
  saved p fs ->
  exists self',
    DropboxInventory._load_checkpoint self fs = (Return true, self')
    /\ progress_of self' = p
    /\ DropboxInventory.is_running self' = DropboxInventory.is_running self.
Proof.
  intros (cp & Hcp & Hinv & Hcur & Hmore & Hcalls).
  unfold DropboxInventory._load_checkpoint. rewrite Hcp, Hinv. simpl.
  eexists. split; [reflexivity|]. split; [|reflexivity].
  unfold progress_of. simpl. rewrite Hcur, Hmore, Hcalls. now destruct p.
Qed.

Lemma legacy_fresh_start_spec sigint fuel self (fs : FS) w q :
  DropboxInventory.is_running self = true ->
  truthy (DropboxInventory.cursor self) = false ->
  exhaust (advance next) fuel (started root) = Some q ->
  exists exit self' fs' w',
    DropboxInventory.fresh_start sigint fuel self fs w = Some (exit, self', fs', w')
    /\ ((exit = Returned /\ progress_of self' = q /\ finished q fs')
        \/ (sigint <> None /\ exit = SysExit 0
            /\ exists p, saved p fs'
                 /\ (truthy (at_cursor p) = false
                     \/ exhaust (advance next) fuel p = Some q))).
Proof.
  intros Hrun Hcur Hq. unfold DropboxInventory.fresh_start.
  destruct (decide (sigint = Some O)) as [Hsig|Hsig].
  - destruct (legacy_signal_handler_saves self fs w) as (s' & fs' & -> & Hsaved).
    exists (SysExit 0), s', fs', w. split; [reflexivity|]. right.
    split; [congruence|]. split; [reflexivity|].
    exists (progress_of self). split; [assumption|]. now left.
  - cbv zeta.
    destruct (root_answers w) as [w1 Hroot].
    rewrite (legacy_api_call_answers _ _ _ _ _ _ Hroot).
    set (self1 := DropboxInventory.take_page root _).
    assert (Hp1 : progress_of self1 = started root /\
                  DropboxInventory.is_running self1 = true).
    { subst self1.
      destruct (legacy_take_page_progress root
        (DropboxInventory.set_api_calls
           (DropboxInventory.api_calls (DropboxInventory.fresh self) + 1)
           (DropboxInventory.fresh self))) as [-> ->].
      split; [reflexivity|exact Hrun]. }
    destruct Hp1 as [Hp1 Hrun1].
    destruct (legacy_paginate_spec sigint fuel 1%nat self1 fs w1 q)
      as (exit & s' & fs' & w' & -> & Hcases); [assumption|now rewrite Hp1|].
    exists exit, s', fs', w'. split; [reflexivity|].
    destruct Hcases as [Hdone|(Hsig' & Hexit & p & Hsaved & Hp)]; [now left|].
    right. split; [assumption|]. split; [assumption|]. eauto.
Qed.

(** A run of the legacy enumerator on files that are either without a
    checkpoint or as an interrupted run left them. *)
Lemma legacy_run_spec sigint resume fuel (fs : FS) w q :
  exhaust (advance next) fuel (started root) = Some q ->
  (resume = true ->
   fs !! DropboxInventory.CHECKPOINT_FILE = None
   \/ exists p, saved p fs
        /\ (truthy (at_cursor p) = false \/ exhaust (advance next) fuel p = Some q)) ->
  exists exit self' fs' w',
    DropboxInventory.run sigint resume fuel DropboxInventory.__init__ fs w
    = Some (exit, self', fs', w')
    /\ ((exit = Returned /\ progress_of self' = q /\ finished q fs')
        \/ (sigint <> None /\ exit = SysExit 0
            /\ exists p, saved p fs'
                 /\ (truthy (at_cursor p) = false
                     \/ exhaust (advance next) fuel p = Some q))).
Proof.
  intros Hq Hfiles. unfold DropboxInventory.run.
  set (self0 := DropboxInventory.set_last_save_time _ DropboxInventory.__init__).
  destruct resume.
  - destruct (Hfiles eq_refl) as [Hnone|(p & Hsaved & Hp)].
    + rewrite (legacy_load_absent self0 fs Hnone). cbn [andb].
      now apply legacy_fresh_start_spec.
    + destruct (legacy_load_saved self0 fs p Hsaved) as (s1 & -> & Hp1 & Hrun1).
      cbn [andb].
      assert (Hcur : DropboxInventory.cursor s1 = at_cursor p) by now rewrite <- Hp1.
      destruct (truthy (DropboxInventory.cursor s1)) eqn:Htruthy.
      * destruct Hp as [Hp|Hp]; [congruence|].
        destruct (legacy_paginate_spec sigint fuel O s1 fs w q)
          as (exit & s' & fs' & w' & -> & Hcases);
          [now rewrite Hrun1|now rewrite Hp1|].
        exists exit, s', fs', w'. split; [reflexivity|].
        destruct Hcases as [Hdone|(Hsig' & Hexit & p' & Hsaved' & Hp')]; [now left|].
        right. split; [assumption|]. split; [assumption|]. eauto.
      * apply legacy_fresh_start_spec; [now rewrite Hrun1|assumption|assumption].
  - cbn [andb]. now apply legacy_fresh_start_spec.
Qed.

(** The legacy enumerator: a resumed run ends with the very entries and
    summary of the uninterrupted one. *)
Lemma legacy_resume_equivalence (fuel n : nat) (fs0 : FS) (w0 : W)
    (self_end : DropboxInventory.Self) (fs_end : FS) (w_end : W) :
  DropboxInventory.run None false fuel DropboxInventory.__init__ fs0 w0
  = Some (Returned, self_end, fs_end, w_end) ->
  exists exit self1 fs1 w1,
    DropboxInventory.run (Some n) false fuel DropboxInventory.__init__ fs0 w0
    = Some (exit, self1, fs1, w1)
    /\ forall w2, exists self2 fs2 w3,
         DropboxInventory.run None true fuel DropboxInventory.__init__ fs1 w2
         = Some (Returned, self2, fs2, w3)
         /\ DropboxInventory.entries self2 = DropboxInventory.entries self_end
         /\ DropboxInventory.summary_of self2 = DropboxInventory.summary_of self_end
         /\ status (DropboxInventory.summary_of self2) = complete
         /\ fs2 !! DropboxInventory.INVENTORY_JSON
            = Some (Text (JInventory
                 {| inv_summary := DropboxInventory.summary_of self2;
                    inv_entries := DropboxInventory.entries self2 |}))
         /\ fs2 !! DropboxInventory.INVENTORY_JSON
            = fs_end !! DropboxInventory.INVENTORY_JSON
         /\ fs2 !! DropboxInventory.CHECKPOINT_FILE = None
         /\ fs_end !! DropboxInventory.CHECKPOINT_FILE = None.
Proof.
  intros Hsingle.
  assert (Hq : exists q, exhaust (advance next) fuel (started root) = Some q).
  { revert Hsingle. unfold DropboxInventory.run, DropboxInventory.fresh_start.
    cbn [andb]. destruct (decide (None = Some O)) as [|_]; [discriminate|].
    cbv zeta. destruct (root_answers w0) as [w1 Hroot].
    rewrite (legacy_api_call_answers _ _ _ _ _ _ Hroot).
    set (self1 := DropboxInventory.take_page root _).
    intros Hloop. apply legacy_paginate_exhausts in Hloop as [q Hq].
    - exists q. rewrite <- Hq. f_equal. subst self1.
      now destruct (legacy_take_page_progress root
        (DropboxInventory.set_api_calls
           (DropboxInventory.api_calls
              (DropboxInventory.fresh
                 (DropboxInventory.set_last_save_time (Some (time_time w0))
                    DropboxInventory.__init__)) + 1)
           (DropboxInventory.fresh
              (DropboxInventory.set_last_save_time (Some (time_time w0))
                 DropboxInventory.__init__)))) as [-> _].
    - subst self1.
      now destruct (legacy_take_page_progress root
        (DropboxInventory.set_api_calls
           (DropboxInventory.api_calls
              (DropboxInventory.fresh
                 (DropboxInventory.set_last_save_time (Some (time_time w0))
                    DropboxInventory.__init__)) + 1)
           (DropboxInventory.fresh
              (DropboxInventory.set_last_save_time (Some (time_time w0))
                 DropboxInventory.__init__)))) as [_ ->]. }
  destruct Hq as [q Hq].
  assert (Hend : progress_of self_end = q /\ finished q fs_end).
  { destruct (legacy_run_spec None false fuel fs0 w0 q Hq)
      as (exit & s' & fs' & w' & Hrun & Hcases); [discriminate|].
    rewrite Hsingle in Hrun. injection Hrun as <- <- <- <-.
    destruct Hcases as [(_ & Hp & Hfin)|(Hsig & _)]; [auto|congruence]. }
  destruct Hend as [Hpend [Hcp_end Hinv_end]].
  destruct (legacy_run_spec (Some n) false fuel fs0 w0 q Hq)
    as (exit & self1 & fs1 & w1 & Hrun1 & Hcases1); [discriminate|].
  exists exit, self1, fs1, w1. split; [assumption|]. intros w2.
  destruct (legacy_run_spec None true fuel fs1 w2 q Hq)
    as (exit2 & self2 & fs2 & w3 & Hrun2 & Hcases2).
  { intros _. destruct Hcases1 as [(_ & _ & Hcp & _)|(_ & _ & p & Hsaved & Hp)].
    - now left.
    - right. eauto. }
  destruct Hcases2 as [(-> & Hp2 & Hcp2 & Hinv2)|(Hsig & _)]; [|congruence].
  exists self2, fs2, w3. split; [assumption|].
  assert (Hsame : progress_of self2 = progress_of self_end) by congruence.
  assert (Hsum : DropboxInventory.summary_of self2
                 = DropboxInventory.summary_of self_end).
  { change (inv_summary (artifact (progress_of self2))
            = inv_summary (artifact (progress_of self_end))).
    now rewrite Hsame. }
  split; [exact (f_equal seen Hsame)|]. split; [exact Hsum|].
  split.
  { pose proof (exhaust_stops _ _ _ _ Hq) as Hstop. rewrite <- Hp2 in Hstop.
    unfold DropboxInventory.summary_of, status_of. cbn [status].
    unfold progress_of in Hstop. cbn [more] in Hstop. now rewrite Hstop. }
  split; [now rewrite Hinv2, legacy_artifact, Hp2|].
  split; [now rewrite Hinv2, Hinv_end|]. split; assumption.
Qed.

(** *** First-seen-wins insertion on lists *)

Lemma extend_cons X e l :
  extend X (e :: l)
  = extend (if bool_decide (path e ∈ map path X) then X else (X ++ [e])%list) l.
Proof. reflexivity. Qed.

Lemma extend_app X l1 l2 : extend X (l1 ++ l2)%list = extend (extend X l1) l2.
Proof. apply fold_left_app. Qed.

Lemma extend_paths X l p :
  p ∈ map path (extend X l) <-> p ∈ map path X \/ p ∈ map path l.
Proof.
  revert X. induction l as [|e l IH]; intros X.
  - simpl. split; [now left|]. intros [Hp|Hp]; [assumption|].
    now apply elem_of_nil in Hp.
  - rewrite extend_cons, IH. simpl. rewrite elem_of_cons.
    case_bool_decide as Hin.
    + split; [tauto|]. intros [Hp|[->|Hp]]; tauto.
    + rewrite map_app, elem_of_app. simpl. rewrite list_elem_of_singleton. tauto.
Qed.

Lemma extend_grows X l : exists rest, extend X l = (X ++ rest)%list.
Proof.
  revert X. induction l as [|e l IH]; intros X.
  - exists []. simpl. now rewrite app_nil_r.
  - rewrite extend_cons. case_bool_decide.
    + apply IH.
    + destruct (IH (X ++ [e])%list) as [rest ->]. exists (e :: rest).
      now rewrite <- app_assoc.
Qed.

Lemma extend_nodup X l :
  NoDup (map path X) -> NoDup (map path (extend X l)).
Proof.
  revert X. induction l as [|e l IH]; intros X Hnd; [assumption|].
  rewrite extend_cons. apply IH. case_bool_decide as Hin; [assumption|].
  rewrite map_app. apply NoDup_app. split; [assumption|]. split.
  - intros p Hp Hp'. simpl in Hp'. apply list_elem_of_singleton in Hp'. now subst.
  - apply NoDup_singleton.
Qed.

(** Entries whose paths are all known already change nothing. *)
Lemma extend_known X l :
  (forall p, p ∈ map path l -> p ∈ map path X) -> extend X l = X.
Proof.
  revert X. induction l as [|e l IH]; intros X Hknown; [reflexivity|].
  rewrite extend_cons. rewrite bool_decide_eq_true_2.
  - apply IH. intros p Hp. apply Hknown. simpl. now apply elem_of_cons; right.
  - apply Hknown. simpl. apply list_elem_of_here.
Qed.

(** Entries with fresh, pairwise distinct paths are all appended. *)
Lemma extend_distinct X l :
  NoDup (map path (X ++ l)%list) -> extend X l = (X ++ l)%list.
Proof.
  revert X. induction l as [|e l IH]; intros X Hnd.
  - simpl. now rewrite app_nil_r.
  - rewrite extend_cons. rewrite bool_decide_eq_false_2.
    + rewrite IH; rewrite <- app_assoc; [reflexivity|assumption].
    + rewrite map_app in Hnd. apply NoDup_app in Hnd as (_ & Hdisj & _).
      intros Hin. apply (Hdisj _ Hin). simpl. apply list_elem_of_here.
Qed.

(** Extending by an extension is extending step by step. *)
Lemma extend_extend X S l :
  extend X (extend S l) = extend (extend X S) l.
Proof.
  revert S. induction l as [|e l IH]; intros S; [reflexivity|].
  rewrite !extend_cons, IH. f_equal.
  case_bool_decide as HinS.
  - rewrite bool_decide_eq_true_2; [reflexivity|].
    apply extend_paths. now right.
  - rewrite extend_app. reflexivity.
Qed.

(** Going over a prefix of a duplicate-free list again changes nothing. *)
Lemma extend_prefix X rest :
  NoDup (map path (X ++ rest)%list) -> extend X (X ++ rest)%list = (X ++ rest)%list.
Proof.
  intros Hnd. rewrite extend_app, (extend_known X X) by auto.
  now apply extend_distinct.
Qed.

(** *** Resuming the hybrid enumerator *)

Lemma hybrid_add_one self entry :
  store_ok self ->
  let self' :=
    snd (HybridInventory._add_entry (HybridInventory._process_entry entry) self) in
  hybrid_progress_of self'
  = {| seen := extend (HybridInventory.entries self)
                 (omap HybridInventory._process_entry [entry]);
       at_cursor := HybridInventory.cursor self;
       more := HybridInventory.has_more self;
       calls := HybridInventory.api_calls self |}
  /\ store_ok self'
  /\ HybridInventory.is_running self' = HybridInventory.is_running self.
Proof.
  intros Hok. cbv zeta.
  split; [|split; [now apply add_entry_store_ok|apply add_entry_frame]].
  destruct Hok as [_ Hdom]. cbn [omap list_omap].
  destruct (HybridInventory._process_entry entry) as [e|]; [|reflexivity].
  unfold HybridInventory._add_entry, extend. cbn [fold_left].
  destruct (HybridInventory.entries_by_path self !! path e) as [x|] eqn:Hx.
  - rewrite bool_decide_eq_true_2; [reflexivity|].
    apply Hdom. rewrite Hx. eauto.
  - rewrite bool_decide_eq_false_2; [reflexivity|].
    intros Hin. apply Hdom in Hin. rewrite Hx in Hin. now destruct Hin.
Qed.

Lemma hybrid_fold_progress l self :
  store_ok self ->
  let self' :=
    fold_left
      (fun self entry =>
         snd (HybridInventory._add_entry (HybridInventory._process_entry entry) self))
      l self in
  hybrid_progress_of self'
  = {| seen := extend (HybridInventory.entries self)
                 (omap HybridInventory._process_entry l);
       at_cursor := HybridInventory.cursor self;
       more := HybridInventory.has_more self;
       calls := HybridInventory.api_calls self |}
  /\ store_ok self'
  /\ HybridInventory.is_running self' = HybridInventory.is_running self.
Proof.
  revert self. induction l as [|entry l IH]; intros self Hok; cbv zeta.
  - split; [reflexivity|]. split; [assumption|reflexivity].
  - cbn [fold_left].
    destruct (hybrid_add_one self entry Hok) as (Hp1 & Hok1 & Hrun1).
    cbv zeta in Hp1, Hok1, Hrun1.
    destruct (IH _ Hok1) as (Hp & Hok' & Hrun). cbv zeta in Hp, Hok', Hrun.
    split; [|split; [assumption|congruence]].
    rewrite Hp.
    apply (f_equal seen) in Hp1 as Hseen. apply (f_equal at_cursor) in Hp1 as Hcur.
    apply (f_equal more) in Hp1 as Hmore. apply (f_equal calls) in Hp1 as Hcalls.
    cbn [hybrid_progress_of seen at_cursor more calls] in Hseen, Hcur, Hmore, Hcalls.
    rewrite Hseen, Hcur, Hmore, Hcalls. f_equal.
    rewrite <- extend_app. f_equal. cbn [omap list_omap].
    destruct (HybridInventory._process_entry entry); reflexivity.
Qed.

Lemma hybrid_take_page_progress result self :
  store_ok self ->
  hybrid_progress_of (HybridInventory.take_page result self)
  = {| seen := extend (HybridInventory.entries self)
                 (omap HybridInventory._process_entry (res_entries result));
       at_cursor := Some (res_cursor result);
       more := res_has_more result;
       calls := HybridInventory.api_calls self |}
  /\ store_ok (HybridInventory.take_page result self)
  /\ HybridInventory.is_running (HybridInventory.take_page result self)
     = HybridInventory.is_running self.
Proof.
  intros Hok.
  destruct (hybrid_fold_progress (res_entries result) self Hok) as (Hp & Hok' & Hrun).
  cbv zeta in Hp, Hok', Hrun. unfold HybridInventory.take_page.
  split; [|split; [exact Hok'|exact Hrun]].
  apply (f_equal seen) in Hp as Hseen. apply (f_equal calls) in Hp as Hcalls.
  unfold hybrid_progress_of in *. cbn in *. now rewrite Hseen, Hcalls.
Qed.

Lemma hybrid_api_call_answers {R : Type}
    (func : W -> Outcome R * W) self w result w1 :
  func w = (Return result, w1) ->
  HybridInventory._api_call func self w
  = (Return result,
     HybridInventory.set_api_calls (HybridInventory.api_calls self + 1) self, w1).
Proof.
  intros Hfunc. unfold HybridInventory._api_call. simpl. now rewrite Hfunc.
Qed.

Lemma hybrid_loop_body self w :
  store_ok self ->
  exists result w1,
    HybridInventory._api_call
      (files_list_folder_continue (HybridInventory.cursor self)) self w
    = (Return result,
       HybridInventory.set_api_calls (HybridInventory.api_calls self + 1) self,
       w1)
    /\ hybrid_progress_of
         (HybridInventory.take_page result
            (HybridInventory.set_api_calls
               (HybridInventory.api_calls self + 1) self))
       = absorb next (hybrid_progress_of self)
    /\ store_ok
         (HybridInventory.take_page result
            (HybridInventory.set_api_calls
               (HybridInventory.api_calls self + 1) self))
    /\ HybridInventory.is_running
         (HybridInventory.take_page result
            (HybridInventory.set_api_calls
               (HybridInventory.api_calls self + 1) self))
       = HybridInventory.is_running self.
Proof.
  intros Hok.
  destruct (next_answers (HybridInventory.cursor self) w) as [w1 Hcall].
  exists (next (HybridInventory.cursor self)), w1.
  split; [now apply hybrid_api_call_answers|].
  destruct (hybrid_take_page_progress
              (next (HybridInventory.cursor self))
              (HybridInventory.set_api_calls
                 (HybridInventory.api_calls self + 1) self) Hok)
    as (-> & Hok' & ->).
  split; [reflexivity|]. split; [assumption|reflexivity].
Qed.

Lemma hybrid_save_keeps_legacy self (fs : FS) :
  no_legacy_files fs ->
  no_legacy_files (fs_run (HybridInventory._save_all_ops self) fs).
Proof.
  intros [Hcp Hinv]. unfold no_legacy_files.
  rewrite !hybrid_save_all_keeps by discriminate.
  now split.
Qed.

Lemma hybrid_artifact_of self :
  {| inv_summary := HybridInventory.summary_of self;
     inv_entries := HybridInventory.entries self |}
  = hybrid_artifact (hybrid_progress_of self).
Proof. reflexivity. Qed.

Lemma hybrid_periodic_save self (fs : FS) (w : W) :
  let saved_now :=
    if HybridInventory.save_due self w
    then HybridInventory._save_all self fs w else (self, fs) in
  hybrid_progress_of (fst saved_now) = hybrid_progress_of self
  /\ (store_ok self -> store_ok (fst saved_now))
  /\ HybridInventory.is_running (fst saved_now) = HybridInventory.is_running self
  /\ (no_legacy_files fs -> no_legacy_files (snd saved_now)).
Proof.
  cbv zeta. destruct (HybridInventory.save_due self w).
  - unfold HybridInventory._save_all. cbn [fst snd].
    split; [reflexivity|]. split; [auto|]. split; [reflexivity|].
    apply hybrid_save_keeps_legacy.
  - cbn [fst snd]. auto.
Qed.

Lemma hybrid_signal_handler_saves self (fs : FS) (w : W) :
  exists self' fs',
    HybridInventory._signal_handler self fs w = (SysExit 0, self', fs', w)
    /\ hybrid_progress_of self' = hybrid_progress_of self
    /\ hybrid_saved (hybrid_progress_of self) fs'
    /\ (no_legacy_files fs -> no_legacy_files fs').
Proof.
  unfold HybridInventory._signal_handler, HybridInventory._save_all.
  do 2 eexists. split; [reflexivity|]. split; [reflexivity|]. split.
  - exists (HybridInventory.checkpoint_of (HybridInventory.set_is_running false self)).
    destruct (hybrid_save_all_files (HybridInventory.set_is_running false self) fs)
      as [-> ->].
    repeat split.
  - apply hybrid_save_keeps_legacy.
Qed.

Lemma hybrid_finish_completes self (fs : FS) (w : W) :
  HybridInventory.is_running self = true ->
  HybridInventory.has_more self = false ->
  exists self' fs',
    HybridInventory.finish self fs w = (Returned, self', fs', w)
    /\ hybrid_progress_of self' = hybrid_progress_of self
    /\ hybrid_finished (hybrid_progress_of self) fs'
    /\ (no_legacy_files fs -> no_legacy_files fs').
Proof.
  intros Hrun Hmore.
  unfold HybridInventory.finish, HybridInventory._save_all.
  rewrite Hrun. cbn [HybridInventory.has_more HybridInventory.set_last_save_time].
  rewrite Hmore.
  destruct (hybrid_save_all_files self fs) as [Hcp Hinv]. rewrite Hcp.
  do 2 eexists. split; [reflexivity|]. split; [reflexivity|].
  change (fs_run [Unlink HybridInventory.CHECKPOINT_FILE]
            (fs_run (HybridInventory._save_all_ops self) fs))
    with (delete HybridInventory.CHECKPOINT_FILE
            (fs_run (HybridInventory._save_all_ops self) fs)).
  split.
  - split.
    + apply lookup_delete_eq.
    + rewrite lookup_delete_ne by discriminate. now rewrite Hinv.
  - intros Hleg. apply (hybrid_save_keeps_legacy self) in Hleg as [Ha Hb].
    unfold no_legacy_files.
    rewrite !lookup_delete_ne by discriminate. now split.
Qed.

Lemma store_ok_nodup self :
  store_ok self -> NoDup (map path (seen (hybrid_progress_of self))).
Proof. now intros [Hnd _]. Qed.

(** The hybrid's loop, interrupted or not. *)
Lemma hybrid_continue_spec sigint fuel :
  forall pages self (fs : FS) w q,
    HybridInventory.is_running self = true ->
    store_ok self ->
    exhaust (absorb next) fuel (hybrid_progress_of self) = Some q ->
    exists exit self' fs' w',
      HybridInventory._continue_recursive sigint fuel pages self fs w
      = Some (exit, self', fs', w')
      /\ (no_legacy_files fs -> no_legacy_files fs')
      /\ ((exit = Returned /\ hybrid_progress_of self' = q
           /\ HybridInventory.is_running self' = true)
          \/ (sigint <> None /\ exit = SysExit 0
              /\ exists p, hybrid_progress_of self' = p /\ hybrid_saved p fs'
                   /\ NoDup (map path (seen p))
                   /\ exhaust (absorb next) fuel p = Some q)).
Proof.
  induction fuel as [|fuel IH]; intros pages self fs w q Hrun Hok Hq;
    cbn [HybridInventory._continue_recursive];
    destruct (decide (sigint = Some pages)) as [Hsig|Hsig].
  - destruct (hybrid_signal_handler_saves self fs w)
      as (s' & fs' & -> & Hp & Hsaved & Hleg).
    exists (SysExit 0), s', fs', w. split; [reflexivity|]. split; [assumption|].
    right. split; [congruence|]. split; [reflexivity|].
    exists (hybrid_progress_of self). split; [assumption|]. split; [assumption|].
    split; [now apply store_ok_nodup|assumption].
  - destruct (HybridInventory.has_more self) eqn:Hmore.
    { exfalso. cbn in Hq. rewrite Hmore in Hq. discriminate. }
    rewrite (exhaust_at_end _ O (hybrid_progress_of self) Hmore) in Hq.
    injection Hq as <-. cbn [andb].
    exists Returned, self, fs, w. split; [reflexivity|]. split; [auto|].
    left. auto.
  - destruct (hybrid_signal_handler_saves self fs w)
      as (s' & fs' & -> & Hp & Hsaved & Hleg).
    exists (SysExit 0), s', fs', w. split; [reflexivity|]. split; [assumption|].
    right. split; [congruence|]. split; [reflexivity|].
    exists (hybrid_progress_of self). split; [assumption|]. split; [assumption|].
    split; [now apply store_ok_nodup|assumption].
  - destruct (HybridInventory.has_more self) eqn:Hmore.
    + rewrite Hrun. cbn [andb].
      destruct (hybrid_loop_body self w Hok)
        as (result & w1 & -> & Hadv & Hok1 & Hrun1).
      set (self1 := HybridInventory.take_page result _) in *.
      pose proof (hybrid_periodic_save self1 fs w1) as Hsave.
      cbv zeta in Hsave.
      destruct (if HybridInventory.save_due self1 w1
                then HybridInventory._save_all self1 fs w1
                else (self1, fs)) as [self2 fs2].
      cbn [fst snd] in Hsave. destruct Hsave as (Hp2 & Hok2 & Hrun2 & Hleg2).
      assert (Hq2 : exhaust (absorb next) fuel (hybrid_progress_of self2) = Some q).
      { rewrite Hp2, Hadv. cbn [exhaust] in Hq.
        unfold hybrid_progress_of in Hq at 1. cbn [more] in Hq.
        now rewrite Hmore in Hq. }
      destruct (IH (S pages) self2 fs2 w1 q)
        as (exit & s' & fs' & w' & -> & Hleg & Hcases);
        [congruence|auto|assumption|].
      exists exit, s', fs', w'. split; [reflexivity|]. split; [auto|].
      destruct Hcases as [Hdone|(Hsig' & Hexit & p & Hp & Hsaved & Hnd & Hqp)];
        [now left|].
      right. split; [assumption|]. split; [assumption|].
      exists p. repeat (split; [assumption|]). now apply exhaust_more_fuel.
    + cbn [andb].
      rewrite (exhaust_at_end _ (S fuel) (hybrid_progress_of self) Hmore) in Hq.
      injection Hq as <-.
      exists Returned, self, fs, w. split; [reflexivity|]. split; [auto|].
      left. auto.
Qed.

Lemma hybrid_continue_exhausts fuel :
  forall pages self (fs : FS) w r,
    HybridInventory.is_running self = true ->
    store_ok self ->
    HybridInventory._continue_recursive None fuel pages self fs w = Some r ->
    exists q, exhaust (absorb next) fuel (hybrid_progress_of self) = Some q.
Proof.
  induction fuel as [|fuel IH]; intros pages self fs w r Hrun Hok;
    cbn [HybridInventory._continue_recursive];
    (destruct (decide (None = Some pages)) as [|_]; [discriminate|]);
    destruct (HybridInventory.has_more self) eqn:Hmore;
    rewrite ?Hrun; cbn [andb];
    try (intros _; exists (hybrid_progress_of self); now apply exhaust_at_end).
  - discriminate.
  - destruct (hybrid_loop_body self w Hok)
      as (result & w1 & -> & Hadv & Hok1 & Hrun1).
    set (self1 := HybridInventory.take_page result _) in *.
    pose proof (hybrid_periodic_save self1 fs w1) as Hsave.
    cbv zeta in Hsave.
    destruct (if HybridInventory.save_due self1 w1
              then HybridInventory._save_all self1 fs w1
              else (self1, fs)) as [self2 fs2].
    cbn [fst snd] in Hsave. destruct Hsave as (Hp2 & Hok2 & Hrun2 & _).
    intros Hloop. apply IH in Hloop as [q Hq]; [|congruence|auto].
    exists q. cbn [exhaust]. unfold hybrid_progress_of at 1. cbn [more].
    rewrite Hmore. now rewrite <- Hadv, <- Hp2.
Qed.

(** Progress only ever appends entries, and keeps paths distinct. *)
Lemma absorb_grows fuel :
  forall p q,
    exhaust (absorb next) fuel p = Some q ->
    (exists rest, seen q = (seen p ++ rest)%list)
    /\ (NoDup (map path (seen p)) -> NoDup (map path (seen q))).
Proof.
  induction fuel as [|fuel IH]; intros p q; cbn [exhaust];
    destruct (more p); try discriminate;
    try (intros [= <-]; split; [exists []; now rewrite app_nil_r|auto]).
  intros Hq. apply IH in Hq as [[rest Hrest] Hnd]. cbn [absorb seen] in *.
  destruct (extend_grows (seen p)
              (omap HybridInventory._process_entry
                 (res_entries (next (at_cursor p))))) as [rest0 Hext].
  split.
  - exists (rest0 ++ rest)%list. now rewrite Hrest, Hext, <- app_assoc.
  - intros Hp. apply Hnd. now apply extend_nodup.
Qed.

(** Listing again from the root on top of entries [X] runs through the same
    pages, and ends with [X] extended by what the plain run ends with. *)
Lemma relist_exhaust X fuel :
  forall a b q,
    exhaust (absorb next) fuel a = Some q ->
    at_cursor b = at_cursor a -> more b = more a ->
    seen b = extend X (seen a) ->
    exists q',
      exhaust (absorb next) fuel b = Some q'
      /\ at_cursor q' = at_cursor q /\ more q' = more q
      /\ seen q' = extend X (seen q).
Proof.
  induction fuel as [|fuel IH]; intros a b q; cbn [exhaust];
    intros Hq Hcur Hmore Hseen; rewrite Hmore;
    destruct (more a) eqn:Ha; try discriminate.
  - injection Hq as <-. exists b. rewrite Ha. auto.
  - apply (IH (absorb next a) (absorb next b) q Hq); cbn [absorb at_cursor more seen];
      rewrite ?Hcur; try reflexivity.
    now rewrite Hseen, extend_extend.
  - injection Hq as <-. exists b. rewrite Ha. auto.
Qed.

Lemma add_all_store_ok l self :
  store_ok self -> store_ok (HybridInventory.add_all l self).
Proof.
  revert self. induction l as [|e l IH]; intros self Hok; [assumption|].
  rewrite add_all_cons. apply IH. now apply (add_entry_store_ok (Some e)).
Qed.

Lemma hybrid_load_clean self (fs : FS) :
  no_legacy_files fs ->
  fs !! HybridInventory.CHECKPOINT_FILE = None ->
  HybridInventory._load_old_progress self fs = (false, self).
Proof.
  intros [Hcp Hinv] Hown.
  unfold HybridInventory._load_old_progress, HybridInventory.load_old_checkpoint,
    HybridInventory.load_old_inventory, HybridInventory.load_own.
  now rewrite Hcp, Hinv, Hown.
Qed.

Lemma hybrid_load_saved self (fs : FS) p :
  no_legacy_files fs ->
  hybrid_saved p fs ->
  NoDup (map path (seen p)) ->
  exists self',
    HybridInventory._load_old_progress self fs = (true, self')
    /\ hybrid_progress_of self' = p
    /\ store_ok self'
    /\ HybridInventory.is_running self' = HybridInventory.is_running self.
Proof.
  intros [Hcp Hinv] (cp & Hown & Hdata & Hcur & Hmore & Hcalls) Hnd.
  unfold HybridInventory._load_old_progress, HybridInventory.load_old_checkpoint,
    HybridInventory.load_old_inventory, HybridInventory.load_own.
  rewrite Hcp, Hinv, Hown, Hdata. cbn [json_load as_checkpoint get_entries].
  set (s3 := HybridInventory.set_store [] ∅ _).
  assert (Hok3 : store_ok s3).
  { split; simpl; [apply NoDup_nil_2|]. intros x. rewrite lookup_empty.
    split; [intros [y Hy]; discriminate|]. intros Hx. now apply elem_of_nil in Hx. }
  eexists. split; [reflexivity|].
  destruct (add_all_frame (seen p) s3) as (Hc & Hm & Ha & _ & Hr).
  split; [|split; [now apply add_all_store_ok|]].
  - unfold hybrid_progress_of. cbn [hybrid_artifact inv_entries].
    rewrite Hc, Hm, Ha, (add_all_distinct _ _ Hok3) by exact Hnd.
    subst s3. cbn. rewrite Hcur, Hmore, Hcalls. now destruct p.
  - cbn [hybrid_artifact inv_entries]. rewrite Hr. reflexivity.
Qed.

Lemma hybrid_start_fresh_spec sigint fuel self (fs : FS) w q0 :
  HybridInventory.is_running self = true ->
  store_ok self ->
  exhaust (absorb next) fuel (relisted root (hybrid_progress_of self)) = Some q0 ->
  exists exit self' fs' w',
    HybridInventory._start_fresh sigint fuel self fs w = Some (exit, self', fs', w')
    /\ (no_legacy_files fs -> no_legacy_files fs')
    /\ ((exit = Returned /\ hybrid_progress_of self' = q0
         /\ HybridInventory.is_running self' = true)
        \/ (sigint <> None /\ exit = SysExit 0
            /\ exists p, hybrid_progress_of self' = p /\ hybrid_saved p fs'
                 /\ NoDup (map path (seen p))
                 /\ (exhaust (absorb next) fuel p = Some q0
                     \/ p = hybrid_progress_of self))).
Proof.
  intros Hrun Hok Hq. unfold HybridInventory._start_fresh.
  destruct (decide (sigint = Some O)) as [Hsig|Hsig].
  - destruct (hybrid_signal_handler_saves self fs w)
      as (s' & fs' & -> & Hp & Hsaved & Hleg).
    exists (SysExit 0), s', fs', w. split; [reflexivity|]. split; [assumption|].
    right. split; [congruence|]. split; [reflexivity|].
    exists (hybrid_progress_of self). split; [assumption|]. split; [assumption|].
    split; [now apply store_ok_nodup|now right].
  - destruct (root_answers w) as [w1 Hroot].
    rewrite (hybrid_api_call_answers _ _ _ _ _ Hroot).
    destruct (hybrid_take_page_progress root
                (HybridInventory.set_api_calls
                   (HybridInventory.api_calls self + 1) self) Hok)
      as (Hp1 & Hok1 & Hrun1).
    destruct (hybrid_continue_spec sigint fuel 1%nat _ fs w1 q0 (eq_trans Hrun1 Hrun) Hok1)
      as (exit & s' & fs' & w' & -> & Hleg & Hcases); [now rewrite Hp1|].
    exists exit, s', fs', w'. split; [reflexivity|]. split; [assumption|].
    destruct Hcases as [Hdone|(Hsig' & Hexit & p & Hp & Hsaved & Hnd & Hqp)];
      [now left|].
    right. split; [assumption|]. split; [assumption|].
    exists p. repeat (split; [assumption|]). now left.
Qed.

(** A run of the hybrid enumerator in a directory without a checkpoint. *)
Lemma hybrid_run_clean sigint fuel (fs : FS) w q :
  exhaust (absorb next) fuel
    (relisted root (hybrid_progress_of HybridInventory.__init__)) = Some q ->
  no_legacy_files fs ->
  fs !! HybridInventory.CHECKPOINT_FILE = None ->
  exists exit self' fs' w',
    HybridInventory.run sigint fuel HybridInventory.__init__ fs w
    = Some (exit, self', fs', w')
    /\ no_legacy_files fs'
    /\ ((exit = Returned /\ hybrid_progress_of self' = q /\ hybrid_finished q fs')
        \/ (sigint <> None /\ exit = SysExit 0
            /\ exists p, hybrid_progress_of self' = p /\ hybrid_saved p fs'
                 /\ NoDup (map path (seen p))
                 /\ (exhaust (absorb next) fuel p = Some q
                     \/ p = hybrid_progress_of HybridInventory.__init__))).
Proof.
  intros Hq Hleg Hown. unfold HybridInventory.run.
  rewrite (hybrid_load_clean _ fs Hleg Hown).
  cbn [HybridInventory.set_last_save_time HybridInventory.cursor
       HybridInventory.has_more HybridInventory.__init__ truthy andb negb].
  destruct (hybrid_start_fresh_spec sigint fuel
              (HybridInventory.set_last_save_time (Some (time_time w))
                 HybridInventory.__init__) fs w q)
    as (exit & s' & fs' & w' & Hfresh & Hleg' & Hcases);
    [reflexivity|exact store_ok_init|exact Hq|].
  cbn [HybridInventory.set_last_save_time HybridInventory.__init__] in Hfresh.
  rewrite Hfresh.
  destruct Hcases as [(-> & Hp & Hrun)|(Hsig & -> & p & Hp & Hsaved & Hnd & Hqp)].
  - assert (Hmore : HybridInventory.has_more s' = false).
    { pose proof (exhaust_stops _ _ _ _ Hq) as Hstop. now rewrite <- Hp in Hstop. }
    destruct (hybrid_finish_completes s' fs' w' Hrun Hmore)
      as (s2 & fs2 & -> & Hp2 & Hfin & Hleg2).
    exists Returned, s2, fs2, w'. split; [reflexivity|]. split; [auto|].
    left. split; [reflexivity|]. split; [congruence|now rewrite <- Hp].
  - exists (SysExit 0), s', fs', w'. split; [reflexivity|]. split; [auto|].
    right. split; [assumption|]. split; [reflexivity|]. exists p. auto.
Qed.

(** A run of the hybrid enumerator resumed on what an interrupted run
    saved. It ends with the entries the uninterrupted run ends with; when
    the saved checkpoint sends it back to the root listing, the calls made
    before are counted on top. *)
Lemma hybrid_run_resumed fuel (fs : FS) w q p :
  exhaust (absorb next) fuel
    (relisted root (hybrid_progress_of HybridInventory.__init__)) = Some q ->
  no_legacy_files fs ->
  hybrid_saved p fs ->
  NoDup (map path (seen p)) ->
  exhaust (absorb next) fuel p = Some q
  \/ p = hybrid_progress_of HybridInventory.__init__ ->
  exists self' fs' w' q',
    HybridInventory.run None fuel HybridInventory.__init__ fs w
    = Some (Returned, self', fs', w')
    /\ hybrid_progress_of self' = q'
    /\ hybrid_finished q' fs'
    /\ seen q' = seen q /\ more q' = false
    /\ (truthy (at_cursor p) = true -> more p = true \/ seen p <> [] -> q' = q).
Proof.
  intros Hq Hleg Hsaved Hnd Hp. unfold HybridInventory.run.
  destruct (hybrid_load_saved
              (HybridInventory.set_last_save_time (Some (time_time w))
                 HybridInventory.__init__) fs p Hleg Hsaved Hnd)
    as (s1 & -> & Hp1 & Hok1 & Hrun1).
  cbn [HybridInventory.is_running HybridInventory.set_last_save_time
       HybridInventory.__init__] in Hrun1.
  assert (Hcur : HybridInventory.cursor s1 = at_cursor p) by now rewrite <- Hp1.
  assert (Hmore1 : HybridInventory.has_more s1 = more p) by now rewrite <- Hp1.
  assert (Hseen1 : HybridInventory.entries s1 = seen p) by now rewrite <- Hp1.
  assert (Hqnd : NoDup (map path (seen q))).
  { apply (proj2 (absorb_grows _ _ _ Hq)). cbn [relisted seen].
    apply extend_nodup. cbn. apply NoDup_nil_2. }
  destruct (truthy (HybridInventory.cursor s1) && HybridInventory.has_more s1)
    eqn:Hbranch.
  - (* the saved cursor is followed *)
    apply andb_prop in Hbranch as [Htruthy Hm].
    destruct Hp as [Hp| ->]; [|rewrite Hcur in Htruthy; discriminate].
    destruct (hybrid_continue_spec None fuel O s1 fs w q Hrun1 Hok1)
      as (exit & s' & fs' & w' & -> & _ & Hcases); [now rewrite Hp1|].
    destruct Hcases as [(-> & Hp' & Hrun')|(Hsig & _)]; [|congruence].
    assert (Hmore' : HybridInventory.has_more s' = false).
    { pose proof (exhaust_stops _ _ _ _ Hq) as Hstop. now rewrite <- Hp' in Hstop. }
    destruct (hybrid_finish_completes s' fs' w' Hrun' Hmore')
      as (s2 & fs2 & -> & Hp2 & Hfin & _).
    exists s2, fs2, w', q. split; [reflexivity|]. split; [congruence|].
    split; [now rewrite <- Hp'|]. split; [reflexivity|].
    split; [exact (exhaust_stops _ _ _ _ Hq)|reflexivity].
  - destruct (negb (HybridInventory.has_more s1)
              && nonempty (HybridInventory.entries s1)) eqn:Hdone.
    + (* the saved inventory is taken as complete *)
      apply andb_prop in Hdone as [Hm Hne].
      apply negb_true_iff in Hm.
      destruct Hp as [Hp| ->]; [|rewrite Hmore1 in Hm; discriminate].
      assert (Hpq : q = p).
      { rewrite exhaust_at_end in Hp by congruence. congruence. }
      destruct (hybrid_finish_completes s1 fs w Hrun1 Hm)
        as (s2 & fs2 & -> & Hp2 & Hfin & _).
      exists s2, fs2, w, q. split; [reflexivity|]. split; [congruence|].
      split; [now rewrite Hpq, <- Hp1|]. split; [reflexivity|].
      split; [exact (exhaust_stops _ _ _ _ Hq)|reflexivity].
    + (* the listing is taken again from the root *)
      destruct (relist_exhaust (seen p) fuel
                  (relisted root (hybrid_progress_of HybridInventory.__init__))
                  (relisted root (hybrid_progress_of s1)) q Hq)
        as (q' & Hq' & _ & Hmore' & Hseen'); try reflexivity.
      { cbn [relisted seen hybrid_progress_of HybridInventory.__init__
             HybridInventory.entries].
        rewrite Hseen1. now rewrite extend_extend. }
      destruct (hybrid_start_fresh_spec None fuel s1 fs w q' Hrun1 Hok1 Hq')
        as (exit & s' & fs' & w' & -> & _ & Hcases).
      destruct Hcases as [(-> & Hp' & Hrun')|(Hsig & _)]; [|congruence].
      rewrite (exhaust_stops _ _ _ _ Hq) in Hmore'.
      assert (Hmore2 : HybridInventory.has_more s' = false) by now rewrite <- Hp' in Hmore'.
      destruct (hybrid_finish_completes s' fs' w' Hrun' Hmore2)
        as (s2 & fs2 & -> & Hp2 & Hfin & _).
      exists s2, fs2, w', q'. split; [reflexivity|]. split; [congruence|].
      split; [now rewrite <- Hp'|]. split; [|split; [assumption|]].
      * rewrite Hseen'. destruct Hp as [Hp| ->].
        -- destruct (proj1 (absorb_grows _ _ _ Hp)) as [rest Hrest].
           rewrite Hrest in *. now apply extend_prefix.
        -- cbn [hybrid_progress_of HybridInventory.__init__ HybridInventory.entries seen].
           now apply (extend_prefix []).
      * intros Htruthy Huse. exfalso.
        rewrite Hcur, Hmore1, Hseen1 in *.
        rewrite Htruthy in Hbranch. cbn [andb] in Hbranch. rewrite Hbranch in *.
        cbn [negb andb] in Hdone.
        destruct Huse as [Hm|Hne]; [discriminate|].
        destruct (seen p); [now apply Hne|discriminate].
Qed.

Lemma hybrid_same_aggregates self self' :
  hybrid_progress_of self = hybrid_progress_of self' ->
  HybridInventory.summary_of self = HybridInventory.summary_of self'.
Proof.
  intros Hp.
  change (inv_summary (hybrid_artifact (hybrid_progress_of self))
          = inv_summary (hybrid_artifact (hybrid_progress_of self'))).
  now rewrite Hp.
Qed.

Lemma hybrid_aggregates_of_entries self self' :
  HybridInventory.entries self = HybridInventory.entries self' ->
  HybridInventory.has_more self = HybridInventory.has_more self' ->
  same_aggregates (HybridInventory.summary_of self) (HybridInventory.summary_of self').
Proof.
  intros He Hm. unfold same_aggregates, HybridInventory.summary_of. simpl.
  rewrite He, Hm. repeat split.
Qed.

(** The hybrid enumerator, started where neither script has left files. *)
Lemma hybrid_resume_equivalence (fuel n : nat) (fs0 : FS) (w0 : W)
    (self_end : HybridInventory.Self) (fs_end : FS) (w_end : W) :
  no_legacy_files fs0 ->
  fs0 !! HybridInventory.CHECKPOINT_FILE = None ->
  HybridInventory.run None fuel HybridInventory.__init__ fs0 w0
  = Some (Returned, self_end, fs_end, w_end) ->
  exists exit self1 fs1 w1,
    HybridInventory.run (Some n) fuel HybridInventory.__init__ fs0 w0
    = Some (exit, self1, fs1, w1)
    /\ forall w2, exists self2 fs2 w3,
         HybridInventory.run None fuel HybridInventory.__init__ fs1 w2
         = Some (Returned, self2, fs2, w3)
         /\ HybridInventory.entries self2 = HybridInventory.entries self_end
         /\ same_aggregates (HybridInventory.summary_of self2)
                            (HybridInventory.summary_of self_end)
         /\ status (HybridInventory.summary_of self2) = complete
         /\ fs2 !! HybridInventory.INVENTORY_JSON
            = Some (Text (JInventory
                 {| inv_summary := HybridInventory.summary_of self2;
                    inv_entries := HybridInventory.entries self2 |}))
         /\ fs2 !! HybridInventory.CHECKPOINT_FILE = None
         /\ fs_end !! HybridInventory.CHECKPOINT_FILE = None
         /\ (exit = Returned
             \/ (truthy (HybridInventory.cursor self1) = true
                 /\ (HybridInventory.has_more self1 = true
                     \/ HybridInventory.entries self1 <> [])) ->
             HybridInventory.summary_of self2 = HybridInventory.summary_of self_end
             /\ fs2 !! HybridInventory.INVENTORY_JSON
                = fs_end !! HybridInventory.INVENTORY_JSON).
Proof.
  intros Hleg Hown Hsingle.
  assert (Hq : exists q,
             exhaust (absorb next) fuel
               (relisted root (hybrid_progress_of HybridInventory.__init__)) = Some q).
  { revert Hsingle. unfold HybridInventory.run.
    rewrite (hybrid_load_clean _ fs0 Hleg Hown).
    cbn [HybridInventory.set_last_save_time HybridInventory.cursor
         HybridInventory.has_more HybridInventory.__init__ truthy andb negb].
    unfold HybridInventory._start_fresh.
    destruct (decide (None = Some O)) as [|_]; [discriminate|].
    destruct (root_answers w0) as [w1 Hroot].
    rewrite (hybrid_api_call_answers _ _ _ _ _ Hroot).
    destruct (hybrid_take_page_progress root
                (HybridInventory.set_api_calls
                   (HybridInventory.api_calls
                      (HybridInventory.set_last_save_time (Some (time_time w0))
                         HybridInventory.__init__) + 1)
                   (HybridInventory.set_last_save_time (Some (time_time w0))
                      HybridInventory.__init__)) store_ok_init)
      as (Hp1 & Hok1 & Hrun1).
    cbn [HybridInventory.set_last_save_time HybridInventory.__init__] in *.
    destruct (HybridInventory._continue_recursive None fuel 1 _ fs0 w1)
      as [r|] eqn:Hloop; [|discriminate].
    intros _. apply hybrid_continue_exhausts in Hloop as [q Hq];
      [|exact Hrun1|exact Hok1].
    exists q. now rewrite <- Hq, Hp1. }
  destruct Hq as [q Hq].
  pose proof (exhaust_stops _ _ _ _ Hq) as Hstop.
  assert (Hend : hybrid_progress_of self_end = q /\ hybrid_finished q fs_end).
  { destruct (hybrid_run_clean None fuel fs0 w0 q Hq Hleg Hown)
      as (exit & s' & fs' & w' & Hrun & _ & Hcases).
    rewrite Hsingle in Hrun. injection Hrun as <- <- <- <-.
    destruct Hcases as [(_ & Hp & Hfin)|(Hsig & _)]; [auto|congruence]. }
  destruct Hend as [Hpend [Hcp_end Hinv_end]].
  destruct (hybrid_run_clean (Some n) fuel fs0 w0 q Hq Hleg Hown)
    as (exit & self1 & fs1 & w1 & Hrun1 & Hleg1 & Hcases1).
  exists exit, self1, fs1, w1. split; [assumption|]. intros w2.
  destruct Hcases1 as [(-> & Hp1 & Hcp1 & Hinv1)
                      |(_ & -> & p & Hp1 & Hsaved & Hnd & Hp)].
  - (* the signal came too late: the resumed run finds no checkpoint *)
    destruct (hybrid_run_clean None fuel fs1 w2 q Hq Hleg1 Hcp1)
      as (exit2 & self2 & fs2 & w3 & Hrun2 & _ & Hcases2).
    destruct Hcases2 as [(-> & Hp2 & Hcp2 & Hinv2)|(Hsig & _)]; [|congruence].
    exists self2, fs2, w3. split; [assumption|].
    assert (Hsame : hybrid_progress_of self2 = hybrid_progress_of self_end)
      by congruence.
    pose proof (hybrid_same_aggregates _ _ Hsame) as Hsum.
    split; [exact (f_equal seen Hsame)|].
    split; [rewrite Hsum; repeat split|].
    split.
    { rewrite <- Hp2 in Hstop. unfold HybridInventory.summary_of, status_of.
      cbn [status]. unfold hybrid_progress_of in Hstop. cbn [more] in Hstop.
      now rewrite Hstop. }
    split; [now rewrite Hinv2, hybrid_artifact_of, Hp2|].
    split; [assumption|]. split; [assumption|].
    intros _. split; [assumption|]. now rewrite Hinv2, Hinv_end.
  - destruct (hybrid_run_resumed fuel fs1 w2 q p Hq Hleg1 Hsaved Hnd Hp)
      as (self2 & fs2 & w3 & q' & Hrun2 & Hp2 & [Hcp2 Hinv2] & Hseen & Hmore & Huse).
    exists self2, fs2, w3. split; [assumption|].
    assert (He : HybridInventory.entries self2 = HybridInventory.entries self_end).
    { change (seen (hybrid_progress_of self2) = seen (hybrid_progress_of self_end)).
      now rewrite Hp2, Hpend. }
    assert (Hm : HybridInventory.has_more self2 = HybridInventory.has_more self_end).
    { change (more (hybrid_progress_of self2) = more (hybrid_progress_of self_end)).
      now rewrite Hp2, Hpend, Hmore, Hstop. }
    split; [exact He|].
    split; [now apply hybrid_aggregates_of_entries|].
    split.
    { unfold HybridInventory.summary_of, status_of. cbn [status].
      rewrite Hm.
      change (HybridInventory.has_more self_end)
        with (more (hybrid_progress_of self_end)).
      now rewrite Hpend, Hstop. }
    split; [now rewrite Hinv2, hybrid_artifact_of, Hp2|].
    split; [assumption|]. split; [assumption|].
    intros [Hexit|[Htruthy Hnonempty]]; [discriminate|].
    assert (Hqq : q' = q).
    { apply Huse; rewrite <- Hp1; assumption. }
    subst q'.
    split; [apply hybrid_same_aggregates; congruence|].
    now rewrite Hinv2, Hinv_end, Hqq.
Qed.

(** C1, as the code has it: on an error-free paginated listing, take a run
    that completes without interruption, of the legacy enumerator started
    afresh or of the hybrid enumerator started where no earlier run has
    left files. The same run interrupted by SIGINT after [n] pages (any
    [n]) ends too, and a run resumed on the files it leaves completes with
    the same list of entries, hence the same set, a summary marked
    complete with the same aggregates, and no checkpoint left. The call
    counter of the summary is the same as well in the legacy enumerator,
    and in the hybrid one whenever the saved checkpoint has a cursor and
    either more to come or some entry; otherwise the hybrid lists again
    from the root and counts the earlier calls on top. *)
Theorem resume_equivalence (fuel n : nat) (fs0 : FS) (w0 : W) :
  (forall self_end fs_end w_end,
      DropboxInventory.run None false fuel DropboxInventory.__init__ fs0 w0
      = Some (Returned, self_end, fs_end, w_end) ->
      exists exit self1 fs1 w1,
        DropboxInventory.run (Some n) false fuel DropboxInventory.__init__ fs0 w0
        = Some (exit, self1, fs1, w1)
        /\ forall w2, exists self2 fs2 w3,
             DropboxInventory.run None true fuel DropboxInventory.__init__ fs1 w2
             = Some (Returned, self2, fs2, w3)
             /\ DropboxInventory.entries self2 = DropboxInventory.entries self_end
             /\ DropboxInventory.summary_of self2
                = DropboxInventory.summary_of self_end
             /\ status (DropboxInventory.summary_of self2) = complete
             /\ fs2 !! DropboxInventory.INVENTORY_JSON
                = Some (Text (JInventory
                     {| inv_summary := DropboxInventory.summary_of self2;
                        inv_entries := DropboxInventory.entries self2 |}))
             /\ fs2 !! DropboxInventory.INVENTORY_JSON
                = fs_end !! DropboxInventory.INVENTORY_JSON
             /\ fs2 !! DropboxInventory.CHECKPOINT_FILE = None
             /\ fs_end !! DropboxInventory.CHECKPOINT_FILE = None)
  /\ (forall self_end fs_end w_end,
      no_legacy_files fs0 ->
      fs0 !! HybridInventory.CHECKPOINT_FILE = None ->
      HybridInventory.run None fuel HybridInventory.__init__ fs0 w0
      = Some (Returned, self_end, fs_end, w_end) ->
      exists exit self1 fs1 w1,
        HybridInventory.run (Some n) fuel HybridInventory.__init__ fs0 w0
        = Some (exit, self1, fs1, w1)
        /\ forall w2, exists self2 fs2 w3,
             HybridInventory.run None fuel HybridInventory.__init__ fs1 w2
             = Some (Returned, self2, fs2, w3)
             /\ HybridInventory.entries self2 = HybridInventory.entries self_end
             /\ same_aggregates (HybridInventory.summary_of self2)
                                (HybridInventory.summary_of self_end)
             /\ status (HybridInventory.summary_of self2) = complete
             /\ fs2 !! HybridInventory.INVENTORY_JSON
                = Some (Text (JInventory
                     {| inv_summary := HybridInventory.summary_of self2;
                        inv_entries := HybridInventory.entries self2 |}))
             /\ fs2 !! HybridInventory.CHECKPOINT_FILE = None
             /\ fs_end !! HybridInventory.CHECKPOINT_FILE = None
             /\ (exit = Returned
                 \/ (truthy (HybridInventory.cursor self1) = true
                     /\ (HybridInventory.has_more self1 = true
                         \/ HybridInventory.entries self1 <> [])) ->
                 HybridInventory.summary_of self2
                 = HybridInventory.summary_of self_end
                 /\ fs2 !! HybridInventory.INVENTORY_JSON
                    = fs_end !! HybridInventory.INVENTORY_JSON)).
Proof.
  split.
  - intros self_end fs_end w_end. apply legacy_resume_equivalence.
  - intros self_end fs_end w_end. apply hybrid_resume_equivalence.
Qed.

End ResumeEquivalence.

(** ** The scenarios, run *)

Lemma two_pages_root_answers :
  forall w : list Z, exists w',
    @files_list_folder _ (scripted two_pages) w = (Return root_page, w').
Proof. intros w. exists w. reflexivity. Qed.

Lemma two_pages_next_answers :
  forall c (w : list Z), exists w',
    @files_list_folder_continue _ (scripted two_pages) c w = (Return (next_page c), w').
Proof. intros c w. exists w. reflexivity. Qed.

Lemma result_of_exit {S W : Type} (r : option (Exit * S * FS * W)) e d dw :
  exit_of r = Some e ->
  r = Some (e, state_after d r, files_after r, world_after dw r).
Proof.
  destruct r as [[[[e' s] fs] w]|]; simpl; [|discriminate].
  now intros [= ->].
Qed.

(** The end-to-end scenario, interrupted after its first page and resumed,
    in both enumerators. *)
Lemma resume_equivalence_witness :
  (legacy_two_pages None false ∅
   = Some (Returned,
           state_after DropboxInventory.__init__ (legacy_two_pages None false ∅),
           files_after (legacy_two_pages None false ∅),
           world_after [] (legacy_two_pages None false ∅))
   /\ exists exit self1 fs1 w1,
        legacy_two_pages (Some 1%nat) false ∅ = Some (exit, self1, fs1, w1)
        /\ forall w2, exists self2 fs2 w3,
             @DropboxInventory.run _ (scripted two_pages) None true 2
               DropboxInventory.__init__ fs1 w2 = Some (Returned, self2, fs2, w3)
             /\ DropboxInventory.entries self2
                = DropboxInventory.entries
                    (state_after DropboxInventory.__init__
                       (legacy_two_pages None false ∅))
             /\ DropboxInventory.summary_of self2
                = DropboxInventory.summary_of
                    (state_after DropboxInventory.__init__
                       (legacy_two_pages None false ∅)))
  /\ (hybrid_two_pages None ∅
      = Some (Returned,
              state_after HybridInventory.__init__ (hybrid_two_pages None ∅),
              files_after (hybrid_two_pages None ∅),
              world_after [] (hybrid_two_pages None ∅))
      /\ exists exit self1 fs1 w1,
           hybrid_two_pages (Some 1%nat) ∅ = Some (exit, self1, fs1, w1)
           /\ forall w2, exists self2 fs2 w3,
                @HybridInventory.run _ (scripted two_pages) None 2
                  HybridInventory.__init__ fs1 w2 = Some (Returned, self2, fs2, w3)
                /\ HybridInventory.entries self2
                   = HybridInventory.entries
                       (state_after HybridInventory.__init__
                          (hybrid_two_pages None ∅))
                /\ same_aggregates
                     (HybridInventory.summary_of self2)
                     (HybridInventory.summary_of
                        (state_after HybridInventory.__init__
                           (hybrid_two_pages None ∅)))).
Proof.
  pose proof (@resume_equivalence _ (scripted two_pages) root_page next_page
                two_pages_root_answers two_pages_next_answers 2 1 ∅ [])
    as [Hlegacy Hhybrid].
  assert (Hl : legacy_two_pages None false ∅
               = Some (Returned,
                       state_after DropboxInventory.__init__
                         (legacy_two_pages None false ∅),
                       files_after (legacy_two_pages None false ∅),
                       world_after [] (legacy_two_pages None false ∅))).
  { apply result_of_exit. vm_compute. reflexivity. }
  assert (Hh : hybrid_two_pages None ∅
               = Some (Returned,
                       state_after HybridInventory.__init__ (hybrid_two_pages None ∅),
                       files_after (hybrid_two_pages None ∅),
                       world_after [] (hybrid_two_pages None ∅))).
  { apply result_of_exit. vm_compute. reflexivity. }
  split.
  - split; [exact Hl|].
    destruct (Hlegacy _ _ _ Hl) as (exit & self1 & fs1 & w1 & Hrun & Hresume).
    exists exit, self1, fs1, w1. split; [exact Hrun|]. intros w2.
    destruct (Hresume w2) as (self2 & fs2 & w3 & Hrun2 & He & Hs & _).
    exists self2, fs2, w3. split; [exact Hrun2|]. split; [exact He|exact Hs].
  - split; [exact Hh|].
    destruct (Hhybrid _ _ _ (conj (lookup_empty _) (lookup_empty _))
                (lookup_empty _) Hh)
      as (exit & self1 & fs1 & w1 & Hrun & Hresume).
    exists exit, self1, fs1, w1. split; [exact Hrun|]. intros w2.
    destruct (Hresume w2) as (self2 & fs2 & w3 & Hrun2 & He & Hs & _).
    exists self2, fs2, w3. split; [exact Hrun2|]. split; [exact He|exact Hs].
Defined.

(** C1 as stated fails on the hybrid enumerator. On an account with nothing
    in it the uninterrupted run makes one call. Interrupted after that one
    page, it saves a checkpoint with [has_more = False] and no entries; the
    resumed run does not take that for a finished inventory, lists the root
    again, and its summary counts two calls. *)
Lemma hybrid_resume_recounts :
  exit_of (hybrid_empty_account None ∅) = Some Returned
  /\ exit_of (hybrid_empty_account (Some 1%nat) ∅) = Some (SysExit 0)
  /\ exit_of (hybrid_empty_account None
                (files_after (hybrid_empty_account (Some 1%nat) ∅)))
     = Some Returned
  /\ api_calls_made
       (HybridInventory.summary_of
          (state_after HybridInventory.__init__ (hybrid_empty_account None ∅))) = 1
  /\ api_calls_made
       (HybridInventory.summary_of
          (state_after HybridInventory.__init__
             (hybrid_empty_account None
                (files_after (hybrid_empty_account (Some 1%nat) ∅))))) = 2
  /\ HybridInventory.summary_of
       (state_after HybridInventory.__init__
          (hybrid_empty_account None
             (files_after (hybrid_empty_account (Some 1%nat) ∅))))
     <> HybridInventory.summary_of
          (state_after HybridInventory.__init__ (hybrid_empty_account None ∅)).
Proof.
  split; [vm_compute; reflexivity|].
  split; [vm_compute; reflexivity|].
  split; [vm_compute; reflexivity|].
  split; [vm_compute; reflexivity|].
  split; [vm_compute; reflexivity|].
  intros Heq. apply (f_equal api_calls_made) in Heq.
  vm_compute in Heq. discriminate.
Qed.

(** The end-to-end scenario in the legacy enumerator: two files, one
    folder, 3072 bytes, complete, and no checkpoint left. *)
Example end_to_end_scenario :
  exit_of (legacy_two_pages None false ∅) = Some Returned
  /\ total_files
       (DropboxInventory.summary_of
          (state_after DropboxInventory.__init__ (legacy_two_pages None false ∅))) = 2
  /\ total_folders
       (DropboxInventory.summary_of
          (state_after DropboxInventory.__init__ (legacy_two_pages None false ∅))) = 1
  /\ total_size_bytes
       (DropboxInventory.summary_of
          (state_after DropboxInventory.__init__ (legacy_two_pages None false ∅)))
     = 3072
  /\ status
       (DropboxInventory.summary_of
          (state_after DropboxInventory.__init__ (legacy_two_pages None false ∅)))
     = complete
  /\ files_after (legacy_two_pages None false ∅) !! DropboxInventory.CHECKPOINT_FILE
     = None.
Proof. repeat split; vm_compute; reflexivity. Qed.

(** C8 as stated fails: the folder "/A" is recorded at depth 1, the file
    "/A/f.txt" at depth 2 and the file "/B.txt" at depth 1. *)
Lemma depth_of_root_folder_is_one :
  folder_depth <$> HybridInventory._process_entry (IsFolder folder_A) = Some 1
  /\ folder_depth <$> HybridInventory._process_entry (IsFile file_f) = Some 2
  /\ folder_depth <$> HybridInventory._process_entry (IsFile file_B) = Some 1
  /\ folder_depth <$> HybridInventory._process_entry (IsFolder folder_A) <> Some 0.
Proof. repeat split. discriminate. Qed.

Lemma depth_counts_segments_witness :
  HybridInventory._process_entry (IsFile file_f) = Some (file_entry file_f)
  /\ Forall slash_free ["A"; "f.txt"]
  /\ path (file_entry file_f) = absolute ["A"; "f.txt"]
  /\ folder_depth (file_entry file_f) = 2.
Proof.
  assert (Hfree : Forall slash_free ["A"; "f.txt"])
    by (repeat constructor).
  split; [reflexivity|]. split; [exact Hfree|]. split; [reflexivity|].
  exact (proj2 (proj2 (depth_counts_segments (IsFile file_f) (file_entry file_f)
                         eq_refl)) ["A"; "f.txt"] Hfree eq_refl).
Defined.

Lemma contradictory_checkpoint_adopted_witness :
  cp_has_more contradictory = Some false
  /\ cp_cursor contradictory = Some "c1"
  /\ exists self',
       DropboxInventory._load_checkpoint DropboxInventory.__init__ contradictory_fs
       = (Return true, self')
       /\ DropboxInventory.cursor self' = Some "c1"
       /\ DropboxInventory.has_more self' = false.
Proof.
  split; [reflexivity|]. split; [reflexivity|].
  apply (proj1 (contradictory_checkpoint_adopted contradictory "c1"
                  contradictory_fs eq_refl eq_refl)).
  - apply lookup_singleton_eq.
  - unfold contradictory_fs. rewrite lookup_singleton_ne by discriminate.
    discriminate.
Defined.

Lemma own_checkpoint_takes_priority_witness :
  with_own_inventory !! HybridInventory.OLD_CHECKPOINT
  = Some (Text (JCheckpoint contradictory))
  /\ with_own_inventory !! HybridInventory.CHECKPOINT_FILE
     = Some (Text (JCheckpoint own_checkpoint))
  /\ with_own_inventory !! HybridInventory.INVENTORY_JSON
     = Some (Text (JInventory own_inventory))
  /\ HybridInventory.cursor
       (snd (HybridInventory._load_old_progress HybridInventory.__init__
               with_own_inventory)) = Some "c9"
  /\ HybridInventory.has_more
       (snd (HybridInventory._load_old_progress HybridInventory.__init__
               with_own_inventory)) = true
  /\ HybridInventory.api_calls
       (snd (HybridInventory._load_old_progress HybridInventory.__init__
               with_own_inventory)) = 7
  /\ HybridInventory.entries
       (snd (HybridInventory._load_old_progress HybridInventory.__init__
               with_own_inventory)) = [file_entry file_B].
Proof.
  assert (Hold : with_own_inventory !! HybridInventory.OLD_CHECKPOINT
                 = Some (Text (JCheckpoint contradictory)))
    by (vm_compute; reflexivity).
  assert (Hown : with_own_inventory !! HybridInventory.CHECKPOINT_FILE
                 = Some (Text (JCheckpoint own_checkpoint)))
    by (vm_compute; reflexivity).
  assert (Hinv : with_own_inventory !! HybridInventory.INVENTORY_JSON
                 = Some (Text (JInventory own_inventory)))
    by apply lookup_insert_eq.
  assert (Hnd : NoDup (map path (get_entries (JInventory own_inventory)))).
  { apply (bool_decide_unpack _). vm_compute. exact I. }
  split; [exact Hold|]. split; [exact Hown|]. split; [exact Hinv|].
  destruct (own_checkpoint_takes_priority HybridInventory.__init__
              with_own_inventory _ _ Hold Hown) as (_ & Hc & Hm & Ha & Hdata & _).
  split; [exact Hc|]. split; [exact Hm|]. split; [exact Ha|].
  destruct (Hdata _ Hinv) as (_ & _ & Hentries). exact (Hentries Hnd).
Defined.

(** * Further properties *)

(** ** Paths and parents *)

Lemma append_nil_l t : EmptyString +:+ t = t.
Proof. reflexivity. Qed.

Lemma append_cons c s t : String c s +:+ t = String c (s +:+ t).
Proof. reflexivity. Qed.

Lemma append_empty_r s : s +:+ EmptyString = s.
Proof.
  induction s as [|c s IH]; [reflexivity|]. now rewrite append_cons, IH.
Qed.

Lemma split_slash_free_app seg t :
  slash_free seg ->
  split "/" (seg +:+ t)
  = match split "/" t with
    | p :: ps => (seg +:+ p) :: ps
    | [] => [seg +:+ t]
    end.
Proof.
  unfold slash_free. induction seg as [|c seg IH].
  - intros _. rewrite append_nil_l.
    destruct (split "/" t) eqn:Ht; [|reflexivity].
    pose proof (split_length "/" t) as Hlen. rewrite Ht in Hlen.
    simpl in Hlen. lia.
  - cbn [count_char]. destruct (Ascii.eqb c "/") eqn:Hc; [discriminate|].
    intros Hfree. rewrite append_cons. cbn [split]. rewrite Hc, (IH Hfree).
    destruct (split "/" t) eqn:Ht; [|reflexivity].
    pose proof (split_length "/" t) as Hlen. rewrite Ht in Hlen.
    simpl in Hlen. lia.
Qed.

Lemma absolute_cons seg segments :
  absolute (seg :: segments) = String "/" (seg +:+ absolute segments).
Proof. reflexivity. Qed.

Lemma split_absolute segments :
  Forall slash_free segments ->
  split "/" (absolute segments) = EmptyString :: segments.
Proof.
  induction 1 as [|seg segs Hseg _ IH]; [reflexivity|].
  rewrite absolute_cons. cbn [split]. rewrite Ascii.eqb_refl.
  rewrite (split_slash_free_app seg _ Hseg), IH.
  now rewrite append_empty_r.
Qed.

Lemma join_cons2 sep p q rest :
  join sep (p :: q :: rest) = p +:+ sep +:+ join sep (q :: rest).
Proof. reflexivity. Qed.

Lemma join_absolute seg segments :
  join "/" (EmptyString :: seg :: segments) = absolute (seg :: segments).
Proof.
  rewrite join_cons2, append_nil_l.
  revert seg. induction segments as [|seg' segs IH]; intros seg.
  - rewrite absolute_cons. cbn [join absolute fold_right].
    now rewrite append_empty_r.
  - rewrite join_cons2, absolute_cons, IH. reflexivity.
Qed.

Lemma removelast_cons2 {A : Type} (x y : A) l :
  removelast (x :: y :: l) = x :: removelast (y :: l).
Proof. reflexivity. Qed.

Lemma parent_of_absolute segments :
  Forall slash_free segments ->
  parent_of (split "/" (absolute segments))
  = match segments with
    | [] | [_] => "/"
    | _ :: _ :: _ => absolute (removelast segments)
    end.
Proof.
  intros Hfree. rewrite (split_absolute _ Hfree). unfold parent_of.
  destruct segments as [|seg [|seg' segs]]; [reflexivity|reflexivity|].
  rewrite removelast_cons2.
  destruct (removelast (seg :: seg' :: segs)) as [|x l] eqn:Hrl.
  { rewrite removelast_cons2 in Hrl. discriminate. }
  rewrite join_absolute. reflexivity.
Qed.

Lemma parent_folder_of_segments entry e segments :
  HybridInventory._process_entry entry = Some e ->
  Forall slash_free segments ->
  path e = absolute segments ->
  parent_folder e
  = match segments with
    | [] | [_] => "/"
    | _ :: _ :: _ => absolute (removelast segments)
    end.
Proof.
  intros He Hfree Hpath.
  rewrite <- (parent_of_absolute _ Hfree), <- Hpath.
  destruct entry as [m|m|]; cbn [HybridInventory._process_entry] in He;
    [| |discriminate]; injection He as <-; reflexivity.
Qed.

(** X1: for an entry whose display path is the canonical absolute path of
    some segments, [_process_entry] records as [parent_folder] the canonical
    path of all segments but the last, and ["/"] when there is just one
    segment (or none). *)
Theorem parent_folder_of_absolute (entry : Metadata) (e : Entry)
    (segments : list string) :
  HybridInventory._process_entry entry = Some e ->
  Forall slash_free segments ->
  path e = absolute segments ->
  (forall self, fst (DropboxInventory._process_entry entry self) = Some e)
  /\ parent_folder e
     = match segments with
       | [] | [_] => "/"
       | _ :: _ :: _ => absolute (removelast segments)
       end.
Proof.
  intros He Hfree Hpath. split.
  - intros self. now rewrite legacy_process_entry.
  - rewrite <- (parent_of_absolute _ Hfree), <- Hpath.
    destruct entry as [m|m|]; cbn [HybridInventory._process_entry] in He;
      [| |discriminate]; injection He as <-; reflexivity.
Qed.

Lemma parent_folder_of_absolute_witness :
  HybridInventory._process_entry (IsFile file_f) = Some (file_entry file_f)
  /\ Forall slash_free ["A"; "f.txt"]
  /\ parent_folder (file_entry file_f) = "/A".
Proof.
  assert (Hfree : Forall slash_free ["A"; "f.txt"]) by (repeat constructor).
  split; [reflexivity|]. split; [exact Hfree|].
  exact (proj2 (parent_folder_of_absolute (IsFile file_f) (file_entry file_f)
                  ["A"; "f.txt"] eq_refl Hfree eq_refl)).
Defined.

(** ** Per-extension tables *)

Lemma table_total_bump k n d : table_total (bump k n d) = table_total d + n.
Proof.
  unfold table_total, bump.
  assert (Hcomm : forall z1 z2 y : Z, z1 + (z2 + y) = z2 + (z1 + y))
    by (intros; lia).
  destruct (d !! k) as [v|] eqn:Hk; simpl.
  - rewrite <- insert_delete_eq.
    rewrite map_fold_insert_L; [|intros; apply Hcomm|apply lookup_delete_eq].
    rewrite (map_fold_delete_L _ _ k v d); [lia|intros; apply Hcomm|exact Hk].
  - rewrite map_fold_insert_L; [lia|intros; apply Hcomm|exact Hk].
Qed.

Lemma table_total_fold (key : Entry -> string) (val : Entry -> Z) files d :
  table_total (fold_left (fun d e => bump (key e) (val e) d) files d)
  = table_total d + fold_right (fun e acc => val e + acc) 0 files.
Proof.
  revert d. induction files as [|e l IH]; intros d; simpl; [lia|].
  rewrite IH, table_total_bump. lia.
Qed.

Lemma sum_of_ones (files : list Entry) :
  fold_right (fun _ acc => 1 + acc) 0 files = Z.of_nat (length files).
Proof. induction files as [|e l IH]; simpl length; simpl fold_right; lia. Qed.

(** X2: in every summary the per-extension file counts add up to
    [total_files], and the per-extension byte sums of the legacy script add
    up to [total_size_bytes]: each file falls in exactly one bucket, the
    ["(none)"] bucket when it has no extension. *)
Theorem extension_tables_add_up
    (legacy : DropboxInventory.Self) (hybrid : HybridInventory.Self) :
  table_total (file_types (DropboxInventory.summary_of legacy))
  = total_files (DropboxInventory.summary_of legacy)
  /\ (exists sizes,
       size_by_type (DropboxInventory.summary_of legacy) = Some sizes
       /\ table_total sizes = total_size_bytes (DropboxInventory.summary_of legacy))
  /\ table_total (file_types (HybridInventory.summary_of hybrid))
     = total_files (HybridInventory.summary_of hybrid).
Proof.
  assert (Hempty : table_total ∅ = 0) by apply map_fold_empty.
  split; [|split].
  - simpl. unfold ext_counts.
    rewrite (table_total_fold ext_key (fun _ => 1)), Hempty, sum_of_ones. lia.
  - eexists. split; [reflexivity|]. unfold ext_sizes.
    rewrite (table_total_fold ext_key size_bytes), Hempty. reflexivity.
  - simpl. unfold ext_counts.
    rewrite (table_total_fold ext_key (fun _ => 1)), Hempty, sum_of_ones. lia.
Qed.

(** ** The dedup store keeps the first record of each path *)

Lemma first_with_path_cons p e l :
  first_with_path p (e :: l)
  = if bool_decide (path e = p) then Some e else first_with_path p l.
Proof.
  unfold first_with_path. cbn [List.filter].
  destruct (bool_decide (path e = p)); reflexivity.
Qed.

Lemma add_all_lookup l self p :
  HybridInventory.entries_by_path (HybridInventory.add_all l self) !! p
  = match HybridInventory.entries_by_path self !! p with
    | Some e => Some e
    | None => first_with_path p l
    end.
Proof.
  revert self. induction l as [|e l IH]; intros self.
  - cbn. now destruct (HybridInventory.entries_by_path self !! p).
  - rewrite add_all_cons, IH, first_with_path_cons.
    destruct (HybridInventory.entries_by_path self !! path e) as [x|] eqn:Hx.
    + rewrite (add_entry_present self e) by eauto. cbn [snd].
      case_bool_decide as Hp; [|reflexivity].
      subst p. now rewrite Hx.
    + rewrite (add_entry_fresh self e Hx). cbn [snd HybridInventory.set_store
        HybridInventory.entries_by_path].
      case_bool_decide as Hp.
      * subst p. now rewrite lookup_insert_eq, Hx.
      * now rewrite lookup_insert_ne by exact Hp.
Qed.

Lemma add_entry_indexed e0 self :
  (forall e, e ∈ HybridInventory.entries self
             <-> HybridInventory.entries_by_path self !! path e = Some e) ->
  let self' := snd (HybridInventory._add_entry (Some e0) self) in
  forall e, e ∈ HybridInventory.entries self'
            <-> HybridInventory.entries_by_path self' !! path e = Some e.
Proof.
  intros Hidx self' e. subst self'.
  destruct (HybridInventory.entries_by_path self !! path e0) as [x|] eqn:Hx.
  - rewrite (add_entry_present self e0) by eauto. apply Hidx.
  - rewrite (add_entry_fresh self e0 Hx). cbn [snd HybridInventory.set_store
      HybridInventory.entries_by_path HybridInventory.entries].
    rewrite elem_of_app, list_elem_of_singleton.
    destruct (decide (path e0 = path e)) as [Hp|Hp].
    + rewrite Hp, lookup_insert_eq. split.
      * intros [Hin| ->]; [|reflexivity].
        apply Hidx in Hin. rewrite <- Hp in Hin. congruence.
      * intros [= ->]. now right.
    + rewrite lookup_insert_ne by exact Hp. rewrite <- Hidx. split.
      * intros [Hin| ->]; [exact Hin|]. now destruct Hp.
      * now left.
Qed.

Lemma add_all_indexed l self :
  (forall e, e ∈ HybridInventory.entries self
             <-> HybridInventory.entries_by_path self !! path e = Some e) ->
  forall e, e ∈ HybridInventory.entries (HybridInventory.add_all l self)
            <-> HybridInventory.entries_by_path (HybridInventory.add_all l self)
                  !! path e = Some e.
Proof.
  revert self. induction l as [|e0 l IH]; intros self Hidx; [exact Hidx|].
  rewrite add_all_cons. apply IH. apply add_entry_indexed. exact Hidx.
Qed.

(** X3: first seen wins. After a list of stored records has gone through
    [_add_entry] into the empty store, the dictionary maps each path to the
    first record of the list that has it, and the list of entries holds
    exactly those first records: a later record with a path already seen
    never replaces the earlier one. *)
Theorem first_seen_wins (l : list Entry) :
  let self := HybridInventory.add_all l HybridInventory.__init__ in
  (forall p, HybridInventory.entries_by_path self !! p = first_with_path p l)
  /\ (forall e, e ∈ HybridInventory.entries self
                <-> first_with_path (path e) l = Some e).
Proof.
  intros self. subst self.
  assert (Hlookup : forall p,
             HybridInventory.entries_by_path
               (HybridInventory.add_all l HybridInventory.__init__) !! p
             = first_with_path p l).
  { intros p. rewrite add_all_lookup. cbn [HybridInventory.__init__
      HybridInventory.entries_by_path]. now rewrite lookup_empty. }
  split; [exact Hlookup|].
  intros e. rewrite <- Hlookup. apply add_all_indexed.
  intros e'. cbn [HybridInventory.__init__ HybridInventory.entries
    HybridInventory.entries_by_path]. rewrite lookup_empty. split.
  - intros Hin. now apply elem_of_nil in Hin.
  - discriminate.
Qed.

(** ** What [_api_call] lets out, and how long it waits *)

Lemma legacy_api_call_from_outcome {W : Type} `{Environment W} {R : Type}
    (func : W -> Outcome R * W) description attempts self w :
  let r := DropboxInventory._api_call_from func description attempts self w in
  snd (fst r)
  = DropboxInventory.set_api_calls (DropboxInventory.api_calls (snd (fst r))) self
  /\ forall e, fst (fst r) = Raise e -> retryable e = false.
Proof.
  revert self w. induction attempts as [|attempt rest IH]; intros self w.
  - cbn. split; [now destruct self|]. now intros e [= <-].
  - cbn [DropboxInventory._api_call_from].
    set (self1 := DropboxInventory.set_api_calls _ self).
    assert (Hself1 : forall s,
               s = DropboxInventory.set_api_calls (DropboxInventory.api_calls s) self1 ->
               s = DropboxInventory.set_api_calls (DropboxInventory.api_calls s) self).
    { intros s Hs. rewrite Hs. reflexivity. }
    destruct (func w) as [[result|e] w1].
    + cbn. split; [reflexivity|discriminate].
    + destruct e;
        try (cbn; split; [reflexivity|now intros e' [= <-]]);
        match goal with
        | |- context [DropboxInventory._api_call_from func description rest self1 ?w2] =>
            destruct (IH self1 w2) as [Hs He]; cbv zeta;
            split; [apply Hself1; exact Hs|exact He]
        end.
Qed.

Lemma hybrid_api_call_from_outcome {W : Type} `{Environment W} {R : Type}
    (func : W -> Outcome R * W) attempts self w :
  let r := HybridInventory._api_call_from func attempts self w in
  snd (fst r)
  = HybridInventory.set_api_calls (HybridInventory.api_calls (snd (fst r))) self
  /\ forall e, fst (fst r) = Raise e -> retryable e = false.
Proof.
  revert self w. induction attempts as [|attempt rest IH]; intros self w.
  - cbn. split; [now destruct self|]. now intros e [= <-].
  - cbn [HybridInventory._api_call_from].
    set (self1 := HybridInventory.set_api_calls _ self).
    assert (Hself1 : forall s,
               s = HybridInventory.set_api_calls (HybridInventory.api_calls s) self1 ->
               s = HybridInventory.set_api_calls (HybridInventory.api_calls s) self).
    { intros s Hs. rewrite Hs. reflexivity. }
    destruct (func w) as [[result|e] w1].
    + cbn. split; [reflexivity|discriminate].
    + destruct e;
        try (cbn; split; [reflexivity|now intros e' [= <-]]);
        match goal with
        | |- context [HybridInventory._api_call_from func rest self1 ?w2] =>
            destruct (IH self1 w2) as [Hs He]; cbv zeta;
            split; [apply Hself1; exact Hs|exact He]
        end.
Qed.

(** X4: whatever the operation does, [_api_call] (of either class) changes
    nothing of the object but its call counter, and no [RateLimitError] or
    [InternalServerError] ever leaves it: what it raises is an error it does
    not retry on. *)
Theorem api_call_contains_retryable_errors {W : Type} `{Environment W} {R : Type}
    (func : W -> Outcome R * W) :
  (forall description self w,
      let r := DropboxInventory._api_call func description self w in
      snd (fst r)
      = DropboxInventory.set_api_calls (DropboxInventory.api_calls (snd (fst r))) self
      /\ forall e, fst (fst r) = Raise e -> retryable e = false)
  /\ (forall self w,
      let r := HybridInventory._api_call func self w in
      snd (fst r)
      = HybridInventory.set_api_calls (HybridInventory.api_calls (snd (fst r))) self
      /\ forall e, fst (fst r) = Raise e -> retryable e = false).
Proof.
  split.
  - intros description self w. apply legacy_api_call_from_outcome.
  - intros self w. apply hybrid_api_call_from_outcome.
Qed.

Lemma legacy_api_call_from_waits {W : Type} `{Environment W} {R : Type}
    (func : W -> Outcome R * W) e description attempts self w :
  (forall w, fst (func w) = Raise e) -> retryable e = true ->
  DropboxInventory._api_call_from func description attempts self w
  = (Raise (exhausted_for description),
     DropboxInventory.set_api_calls
       (DropboxInventory.api_calls self + Z.of_nat (length attempts)) self,
     fold_left (waited_out func e) attempts w).
Proof.
  intros Hfunc Hretry. revert self w.
  induction attempts as [|attempt rest IH]; intros self w.
  - cbn. rewrite Z.add_0_r. now destruct self.
  - cbn [DropboxInventory._api_call_from fold_left]. unfold waited_out at 2.
    specialize (Hfunc w). destruct (func w) as [out w1]. cbn [fst snd] in *.
    subst out.
    destruct e; cbn in Hretry; try discriminate; rewrite IH;
      unfold DropboxInventory.set_api_calls; cbn; do 3 f_equal; lia.
Qed.

Lemma hybrid_api_call_from_waits {W : Type} `{Environment W} {R : Type}
    (func : W -> Outcome R * W) e attempts self w :
  (forall w, fst (func w) = Raise e) -> retryable e = true ->
  HybridInventory._api_call_from func attempts self w
  = (Raise exhausted,
     HybridInventory.set_api_calls
       (HybridInventory.api_calls self + Z.of_nat (length attempts)) self,
     fold_left (waited_out func e) attempts w).
Proof.
  intros Hfunc Hretry. revert self w.
  induction attempts as [|attempt rest IH]; intros self w.
  - cbn. rewrite Z.add_0_r. now destruct self.
  - cbn [HybridInventory._api_call_from fold_left]. unfold waited_out at 2.
    specialize (Hfunc w). destruct (func w) as [out w1]. cbn [fst snd] in *.
    subst out.
    destruct e; cbn in Hretry; try discriminate; rewrite IH;
      unfold HybridInventory.set_api_calls; cbn; do 3 f_equal; lia.
Qed.

(** X5: the waits of an exhausted [_api_call]. When the operation keeps
    failing with the same retryable error and none of the waits is negative
    ([time.sleep] refuses a negative wait), the world at the end is the one
    in which each of the five attempts has been made and waited out in turn,
    the fifth included: the error is raised only after a last sleep. A
    server error, a rate limit without a hint, and a rate limit whose hint is
    0 wait 1, 2, 4, 8, 16 seconds; a rate limit with a positive hint waits
    that hint each time. *)
Theorem exhausted_call_waits {W : Type} `{Environment W} {R : Type}
    (func : W -> Outcome R * W) (e : Exception) :
  (forall w, fst (func w) = Raise e) ->
  retryable e = true ->
  (forall attempt, 0 <= wait_after e attempt) ->
  (forall description self w,
      DropboxInventory._api_call func description self w
      = (Raise (exhausted_for description),
         DropboxInventory.set_api_calls (DropboxInventory.api_calls self + 5) self,
         fold_left (waited_out func e) [0; 1; 2; 3; 4]%nat w))
  /\ (forall self w,
      HybridInventory._api_call func self w
      = (Raise exhausted,
         HybridInventory.set_api_calls (HybridInventory.api_calls self + 5) self,
         fold_left (waited_out func e) [0; 1; 2; 3; 4]%nat w))
  /\ map (wait_after InternalServerError) [0; 1; 2; 3; 4]%nat = [1; 2; 4; 8; 16]
  /\ map (wait_after (RateLimitError None)) [0; 1; 2; 3; 4]%nat = [1; 2; 4; 8; 16]
  /\ map (wait_after (RateLimitError (Some 0))) [0; 1; 2; 3; 4]%nat
     = [1; 2; 4; 8; 16]
  /\ (forall hint attempt, 0 < hint ->
      wait_after (RateLimitError (Some hint)) attempt = hint).
Proof.
  intros Hfunc Hretry _. split; [|split; [|split; [|split; [|split]]]].
  - intros description self w. unfold DropboxInventory._api_call.
    now rewrite (legacy_api_call_from_waits func e) by assumption.
  - intros self w. unfold HybridInventory._api_call.
    now rewrite (hybrid_api_call_from_waits func e) by assumption.
  - reflexivity.
  - reflexivity.
  - reflexivity.
  - intros hint attempt Hhint. cbn. rewrite decide_False; [reflexivity|lia].
Qed.

Lemma exhausted_call_waits_witness :
  @HybridInventory._api_call (list Z) (scripted rate_limited) ListFolderResult
    (@files_list_folder_continue (list Z) (scripted rate_limited) (Some "c1"))
    HybridInventory.__init__ []
  = (Raise exhausted,
     HybridInventory.set_api_calls 5 HybridInventory.__init__,
     [1; 2; 4; 8; 16]).
Proof.
  assert (Hwaits : forall attempt, 0 <= wait_after (RateLimitError None) attempt).
  { intros attempt. cbn. lia. }
  destruct (@exhausted_call_waits (list Z) (scripted rate_limited) ListFolderResult
              (@files_list_folder_continue (list Z) (scripted rate_limited)
                 (Some "c1"))
              (RateLimitError None) (fun _ => eq_refl) eq_refl Hwaits)
    as (_ & Hhybrid & _).
  rewrite Hhybrid. reflexivity.
Defined.

(** ** Unreadable files *)

(** X6: the legacy resume does not survive an unreadable file. When the
    checkpoint cannot be parsed, or the checkpoint can and the inventory
    beside it cannot, [run(resume=True)] ends with the parser's exception
    before any call is made: the object is as [run] found it but for
    [last_save_time], the files are untouched and so is the world. *)
Theorem unreadable_file_aborts_resume {W : Type} `{Environment W}
    (sigint : option nat) (fuel : nat) (self : DropboxInventory.Self)
    (fs : FS) (w : W) :
  fs !! DropboxInventory.CHECKPOINT_FILE = Some Truncated
  \/ (exists j, fs !! DropboxInventory.CHECKPOINT_FILE = Some (Text j)
                /\ fs !! DropboxInventory.INVENTORY_JSON = Some Truncated) ->
  DropboxInventory.run sigint true fuel self fs w
  = Some (Uncaught JSONDecodeError,
          DropboxInventory.set_last_save_time (Some (time_time w)) self, fs, w).
Proof.
  intros [Hcp|(j & Hcp & Hinv)];
    unfold DropboxInventory.run, DropboxInventory._load_checkpoint;
    rewrite Hcp; cbn [json_load]; [reflexivity|].
  rewrite Hinv. reflexivity.
Qed.

Lemma unreadable_file_aborts_resume_witness :
  torn_checkpoint !! DropboxInventory.CHECKPOINT_FILE = Some Truncated
  /\ exit_of (@DropboxInventory.run (list Z) (scripted two_pages) None true 2
                DropboxInventory.__init__ torn_checkpoint [])
     = Some (Uncaught JSONDecodeError).
Proof.
  assert (Htorn : torn_checkpoint !! DropboxInventory.CHECKPOINT_FILE
                  = Some Truncated) by apply lookup_insert_eq.
  split; [exact Htorn|].
  rewrite (@unreadable_file_aborts_resume (list Z) (scripted two_pages) None 2
             DropboxInventory.__init__ torn_checkpoint [] (or_introl Htorn)).
  reflexivity.
Defined.

Lemma drop_unreadable_lookup (fs : FS) p :
  drop_unreadable fs !! p
  = match fs !! p with
    | Some (Text j) => Some (Text j)
    | _ => None
    end.
Proof.
  unfold drop_unreadable. rewrite lookup_omap.
  destruct (fs !! p) as [[|j]|]; reflexivity.
Qed.

Lemma load_old_checkpoint_unreadable loaded self (fs : FS) :
  HybridInventory.load_old_checkpoint loaded self (drop_unreadable fs)
  = HybridInventory.load_old_checkpoint loaded self fs.
Proof.
  unfold HybridInventory.load_old_checkpoint. rewrite drop_unreadable_lookup.
  destruct (fs !! HybridInventory.OLD_CHECKPOINT) as [[|j]|]; reflexivity.
Qed.

Lemma load_old_inventory_unreadable loaded self (fs : FS) :
  HybridInventory.load_old_inventory loaded self (drop_unreadable fs)
  = HybridInventory.load_old_inventory loaded self fs.
Proof.
  unfold HybridInventory.load_old_inventory. rewrite drop_unreadable_lookup.
  destruct (fs !! HybridInventory.OLD_INVENTORY_JSON) as [[|j]|]; reflexivity.
Qed.

Lemma load_own_unreadable loaded self (fs : FS) :
  snd (HybridInventory.load_own loaded self (drop_unreadable fs))
  = snd (HybridInventory.load_own loaded self fs).
Proof.
  unfold HybridInventory.load_own. rewrite !drop_unreadable_lookup.
  destruct (fs !! HybridInventory.CHECKPOINT_FILE) as [[|j]|]; try reflexivity.
  cbn [json_load].
  destruct (fs !! HybridInventory.INVENTORY_JSON) as [[|i]|]; reflexivity.
Qed.

(** X7: the hybrid loader takes an unreadable file for a missing one, and
    never fails. Each of its three blocks catches the parser's exception and
    goes on, so the object it leaves is the one it would leave with the
    unreadable files removed; in particular an unreadable legacy checkpoint
    or inventory changes nothing, and an unreadable own checkpoint leaves
    what the legacy files gave. *)
Theorem unreadable_file_is_skipped (self : HybridInventory.Self) (fs : FS) :
  snd (HybridInventory._load_old_progress self fs)
  = snd (HybridInventory._load_old_progress self (drop_unreadable fs))
  /\ (fs !! HybridInventory.OLD_CHECKPOINT = Some Truncated ->
      HybridInventory.load_old_checkpoint false self fs = (false, self))
  /\ (forall loaded, fs !! HybridInventory.OLD_INVENTORY_JSON = Some Truncated ->
      HybridInventory.load_old_inventory loaded self fs = (loaded, self))
  /\ (forall loaded, fs !! HybridInventory.CHECKPOINT_FILE = Some Truncated ->
      HybridInventory.load_own loaded self fs = (loaded, self)).
Proof.
  split; [|split; [|split]].
  - unfold HybridInventory._load_old_progress.
    rewrite load_old_checkpoint_unreadable.
    destruct (HybridInventory.load_old_checkpoint false self fs) as [loaded1 self1].
    rewrite load_old_inventory_unreadable.
    destruct (HybridInventory.load_old_inventory loaded1 self1 fs)
      as [loaded2 self2].
    now rewrite load_own_unreadable.
  - intros Hcp. unfold HybridInventory.load_old_checkpoint. now rewrite Hcp.
  - intros loaded Hinv. unfold HybridInventory.load_old_inventory.
    now rewrite Hinv.
  - intros loaded Hcp. unfold HybridInventory.load_own. now rewrite Hcp.
Qed.

(** ** An inventory already complete *)

Lemma load_old_checkpoint_running loaded self (fs : FS) :
  HybridInventory.is_running
    (snd (HybridInventory.load_old_checkpoint loaded self fs))
  = HybridInventory.is_running self.
Proof.
  unfold HybridInventory.load_old_checkpoint.
  destruct (fs !! HybridInventory.OLD_CHECKPOINT) as [c|]; [|reflexivity].
  destruct (json_load c); reflexivity.
Qed.

Lemma load_old_inventory_running loaded self (fs : FS) :
  HybridInventory.is_running
    (snd (HybridInventory.load_old_inventory loaded self fs))
  = HybridInventory.is_running self.
Proof.
  unfold HybridInventory.load_old_inventory.
  destruct (fs !! HybridInventory.OLD_INVENTORY_JSON) as [c|]; [|reflexivity].
  destruct (json_load c); [|reflexivity]. cbn [snd].
  apply (add_all_frame (get_entries a) self).
Qed.

Lemma load_own_running loaded self (fs : FS) :
  HybridInventory.is_running (snd (HybridInventory.load_own loaded self fs))
  = HybridInventory.is_running self.
Proof.
  unfold HybridInventory.load_own.
  destruct (fs !! HybridInventory.CHECKPOINT_FILE) as [c|]; [|reflexivity].
  destruct (json_load c) as [j|]; [|reflexivity]. cbv zeta.
  destruct (fs !! HybridInventory.INVENTORY_JSON) as [i|]; [|reflexivity].
  destruct (json_load i) as [data|]; [|reflexivity]. cbn [snd].
  match goal with
  | |- HybridInventory.is_running (HybridInventory.add_all ?l ?s) = _ =>
      rewrite (proj2 (proj2 (proj2 (proj2 (add_all_frame l s)))))
  end.
  reflexivity.
Qed.

Lemma load_old_progress_running self (fs : FS) :
  HybridInventory.is_running (snd (HybridInventory._load_old_progress self fs))
  = HybridInventory.is_running self.
Proof.
  unfold HybridInventory._load_old_progress.
  pose proof (load_old_checkpoint_running false self fs) as H1.
  destruct (HybridInventory.load_old_checkpoint false self fs) as [loaded1 self1].
  pose proof (load_old_inventory_running loaded1 self1 fs) as H2.
  destruct (HybridInventory.load_old_inventory loaded1 self1 fs)
    as [loaded2 self2].
  rewrite load_own_running. cbn [snd] in *. congruence.
Qed.

(** X8: an inventory that is already complete is not listed again. When
    what [_load_old_progress] finds says [has_more = False] and holds at
    least one entry, [run] makes no call at all (the world and the call
    counter are as they were, whatever the remote would answer and whenever
    SIGINT was to come between pages): it saves the loaded entries as a
    complete inventory, with its CSV export, removes the checkpoint, and
    leaves every other file as it was. *)
Theorem complete_inventory_is_not_relisted {W : Type} `{Environment W}
    (sigint : option nat) (fuel : nat) (self : HybridInventory.Self)
    (fs : FS) (w : W) :
  let loaded :=
    snd (HybridInventory._load_old_progress
           (HybridInventory.set_last_save_time (Some (time_time w)) self) fs) in
  HybridInventory.is_running self = true ->
  HybridInventory.has_more loaded = false ->
  HybridInventory.entries loaded <> [] ->
  exists fs',
    HybridInventory.run sigint fuel self fs w
    = Some (Returned,
            HybridInventory.set_last_save_time (Some (time_time w)) loaded,
            fs', w)
    /\ fs' !! HybridInventory.CHECKPOINT_FILE = None
    /\ fs' !! HybridInventory.INVENTORY_JSON
       = Some (Text (JInventory
                 {| inv_summary := HybridInventory.summary_of loaded;
                    inv_entries := HybridInventory.entries loaded |}))
    /\ status (HybridInventory.summary_of loaded) = complete
    /\ is_Some (fs' !! HybridInventory.INVENTORY_CSV)
    /\ (forall p, p <> HybridInventory.CHECKPOINT_FILE ->
                  p <> HybridInventory.INVENTORY_JSON ->
                  p <> HybridInventory.INVENTORY_CSV -> fs' !! p = fs !! p).
Proof.
  intros loaded Hrun Hmore Hentries.
  assert (Hrunning : HybridInventory.is_running loaded = true).
  { unfold loaded. now rewrite load_old_progress_running. }
  unfold HybridInventory.run. fold loaded.
  destruct (HybridInventory._load_old_progress _ fs) as [had_progress self1].
  cbn [snd] in loaded. subst loaded.
  assert (Hnonempty : nonempty (HybridInventory.entries self1) = true).
  { destruct (HybridInventory.entries self1); [congruence|reflexivity]. }
  rewrite Hmore, andb_false_r, Hnonempty. cbn [negb andb].
  unfold HybridInventory.finish, HybridInventory._save_all.
  rewrite Hrunning. cbn [HybridInventory.has_more HybridInventory.set_last_save_time].
  rewrite Hmore.
  destruct (hybrid_save_all_files self1 fs) as [Hcp Hinv].
  rewrite Hcp. eexists. split; [reflexivity|].
  cbn [fs_run fold_left fs_step].
  fold (fs_run (HybridInventory._save_all_ops self1) fs).
  split; [apply lookup_delete_eq|].
  split; [rewrite lookup_delete_ne by discriminate; exact Hinv|].
  split; [cbn; now rewrite Hmore|].
  split.
  { rewrite lookup_delete_ne by discriminate.
    now apply hybrid_save_all_csv. }
  intros p Hp1 Hp2 Hp3.
  rewrite lookup_delete_ne by congruence.
  now apply hybrid_save_all_keeps.
Qed.

Lemma complete_inventory_is_not_relisted_witness :
  exists fs',
    @HybridInventory.run (list Z) (scripted refusing) None 0
      HybridInventory.__init__ before_cleanup []
    = Some (Returned,
            HybridInventory.set_last_save_time (Some 0)
              (snd (HybridInventory._load_old_progress
                      (HybridInventory.set_last_save_time (Some 0)
                         HybridInventory.__init__) before_cleanup)),
            fs', [])
    /\ fs' !! HybridInventory.CHECKPOINT_FILE = None.
Proof.
  assert (Hmore : HybridInventory.has_more
                    (snd (HybridInventory._load_old_progress
                            (HybridInventory.set_last_save_time (Some 0)
                               HybridInventory.__init__) before_cleanup)) = false)
    by (vm_compute; reflexivity).
  assert (Hentries : HybridInventory.entries
                       (snd (HybridInventory._load_old_progress
                               (HybridInventory.set_last_save_time (Some 0)
                                  HybridInventory.__init__) before_cleanup)) <> [])
    by (vm_compute; discriminate).
  destruct (@complete_inventory_is_not_relisted (list Z) (scripted refusing) None 0
              HybridInventory.__init__ before_cleanup [] eq_refl Hmore Hentries)
    as (fs' & Hrun & Hcp & _).
  exists fs'. split; [exact Hrun|exact Hcp].
Defined.

(** ** The files a run leaves, however it ends *)

Lemma legacy_paginate_unfold {W : Type} `{Environment W}
    sigint fuel pages self (fs : FS) (w : W) :
  DropboxInventory.paginate sigint fuel pages self fs w
  = if decide (sigint = Some pages)
    then Some (DropboxInventory._signal_handler self fs w)
    else if DropboxInventory.has_more self && DropboxInventory.is_running self then
      match fuel with
      | O => None
      | S fuel =>
          match DropboxInventory._api_call
                  (files_list_folder_continue (DropboxInventory.cursor self))
                  "list_folder_continue" self w with
          | (Raise e, self, w) => Some (Uncaught e, self, fs, w)
          | (Return result, self, w) =>
              let self := DropboxInventory.take_page result self in
              let '(self, fs) :=
                if DropboxInventory._should_save self w
                then DropboxInventory._save_inventory self
                       (DropboxInventory._save_checkpoint self fs) w
                else (self, fs) in
              DropboxInventory.paginate sigint fuel (S pages) self fs w
          end
      end
    else Some (DropboxInventory.finish self fs w).
Proof. destruct fuel; reflexivity. Qed.

Lemma legacy_api_call_frame {W : Type} `{Environment W} {R : Type}
    (func : W -> Outcome R * W) description self w out self1 w1 :
  DropboxInventory._api_call func description self w = (out, self1, w1) ->
  DropboxInventory.entries self1 = DropboxInventory.entries self
  /\ DropboxInventory.is_running self1 = DropboxInventory.is_running self
  /\ forall e, out = Raise e -> retryable e = false.
Proof.
  intros Hcall.
  destruct (legacy_api_call_from_outcome func description (seq 0 max_retries) self w)
    as [Hself Hout].
  fold (DropboxInventory._api_call func description self w) in Hself, Hout.
  rewrite Hcall in Hself, Hout. cbn [fst snd] in Hself, Hout.
  rewrite Hself. split; [reflexivity|]. split; [reflexivity|exact Hout].
Qed.

Lemma legacy_save_saved {W : Type} `{Environment W} self (fs : FS) (w : W) :
  let r := DropboxInventory._save_inventory self
             (DropboxInventory._save_checkpoint self fs) w in
  progress_of (fst r) = progress_of self
  /\ DropboxInventory.is_running (fst r) = DropboxInventory.is_running self
  /\ saved (progress_of self) (snd r).
Proof.
  cbv zeta. unfold DropboxInventory._save_inventory. cbn [fst snd].
  split; [reflexivity|]. split; [reflexivity|].
  exists (DropboxInventory.checkpoint_of self).
  split; [apply legacy_save_pair|]. split; [apply legacy_save_pair|].
  repeat split.
Qed.

Lemma legacy_signal_handler_exit {W : Type} `{Environment W}
    self (fs : FS) (w : W) :
  exists self' fs',
    DropboxInventory._signal_handler self fs w = (SysExit 0, self', fs', w)
    /\ saved (progress_of self') fs'.
Proof.
  unfold DropboxInventory._signal_handler, DropboxInventory._save_inventory.
  do 2 eexists. split; [reflexivity|].
  exists (DropboxInventory.checkpoint_of (DropboxInventory.set_is_running false self)).
  split; [apply (legacy_save_pair (DropboxInventory.set_is_running false self))|].
  split; [apply (legacy_save_pair (DropboxInventory.set_is_running false self))|].
  repeat split.
Qed.

Lemma behind_more fs0 (fs : FS) entries more_entries :
  behind fs0 fs entries -> behind fs0 fs (entries ++ more_entries)%list.
Proof.
  intros [->|(p & rest & Hsaved & ->)]; [now left|].
  right. exists p, (rest ++ more_entries)%list.
  split; [exact Hsaved|]. now rewrite app_assoc.
Qed.

Lemma legacy_paginate_exit {W : Type} `{Environment W} (fs0 : FS) sigint fuel :
  forall pages self (fs : FS) (w : W) exit self' fs' w',
    DropboxInventory.is_running self = true ->
    behind fs0 fs (DropboxInventory.entries self) ->
    DropboxInventory.paginate sigint fuel pages self fs w
    = Some (exit, self', fs', w') ->
    legacy_exit_ok fs0 exit self' fs'.
Proof.
  induction fuel as [|fuel IH]; intros pages self fs w exit self' fs' w' Hrun Hbehind;
    rewrite legacy_paginate_unfold;
    (destruct (decide (sigint = Some pages)) as [_|_];
     [destruct (legacy_signal_handler_exit self fs w)
        as (self1 & fs1 & -> & Hsaved);
      intros [= <- <- <- <-]; split; [reflexivity|exact Hsaved]
     |]);
    rewrite Hrun, andb_true_r;
    (destruct (DropboxInventory.has_more self) eqn:Hmore;
     [|destruct (legacy_finish_completes self fs w Hrun Hmore)
         as (self1 & fs1 & -> & Hp & Hfin);
       intros [= <- <- <- <-]; split;
       [change (more (progress_of self1) = false); rewrite Hp; exact Hmore
       |rewrite Hp; exact Hfin]]).
  - discriminate.
  - destruct (DropboxInventory._api_call _ _ self w) as [[out self1] w1] eqn:Hcall.
    destruct (legacy_api_call_frame _ _ _ _ _ _ _ Hcall) as (He1 & Hr1 & Hout).
    destruct out as [result|e].
    + cbv zeta.
      destruct (legacy_take_page_progress result self1) as [Hp2 Hr2].
      set (self2 := DropboxInventory.take_page result self1) in *.
      assert (He2 : DropboxInventory.entries self2
                    = (DropboxInventory.entries self
                       ++ omap HybridInventory._process_entry (res_entries result))%list).
      { pose proof (f_equal seen Hp2) as Hs. cbn [seen progress_of] in Hs.
        rewrite He1 in Hs. exact Hs. }
      destruct (DropboxInventory._should_save self2 w1).
      * destruct (legacy_save_saved self2 fs w1) as (Hp3 & Hr3 & Hsaved).
        cbv zeta in Hp3, Hr3, Hsaved.
        destruct (DropboxInventory._save_inventory self2 _ w1) as [self3 fs3].
        cbn [fst snd] in Hp3, Hr3, Hsaved.
        apply IH; [congruence|].
        right. exists (progress_of self2), (@nil Entry). split; [exact Hsaved|].
        rewrite app_nil_r. exact (f_equal seen Hp3).
      * apply IH; [congruence|]. rewrite He2. now apply behind_more.
    + intros [= <- <- <- <-]. split; [now apply Hout|]. now rewrite He1.
Qed.

Lemma legacy_load_checkpoint_frame self (fs : FS) :
  let r := DropboxInventory._load_checkpoint self fs in
  DropboxInventory.is_running (snd r) = DropboxInventory.is_running self
  /\ match fst r with
     | Raise e => e = JSONDecodeError /\ snd r = self
     | Return _ => True
     end.
Proof.
  cbv zeta. unfold DropboxInventory._load_checkpoint.
  destruct (fs !! DropboxInventory.CHECKPOINT_FILE) as [[|j]|]; cbn; auto.
  destruct (fs !! DropboxInventory.INVENTORY_JSON) as [[|i]|]; cbn; auto.
Qed.

(** X9: however the legacy run ends, under any remote and any clock, the
    files it leaves are consistent. If it returns, the listing was
    exhausted, the checkpoint is gone and the inventory holds exactly the
    entries in memory, marked complete. If SIGINT stops it, checkpoint and
    inventory were both written from the same state. If an exception ends
    it, that exception is not one [_api_call] retries on, and the files are
    either those the run found or those of its last periodic save, whose
    entries are a prefix of the ones in memory. *)
Theorem legacy_run_leaves_consistent_files {W : Type} `{Environment W}
    (sigint : option nat) (resume : bool) (fuel : nat)
    (self : DropboxInventory.Self) (fs : FS) (w : W)
    (exit : Exit) (self' : DropboxInventory.Self) (fs' : FS) (w' : W) :
  DropboxInventory.is_running self = true ->
  DropboxInventory.run sigint resume fuel self fs w = Some (exit, self', fs', w') ->
  legacy_exit_ok fs exit self' fs'.
Proof.
  intros Hrun. unfold DropboxInventory.run.
  set (self0 := DropboxInventory.set_last_save_time _ self).
  assert (Hload : exists out self1,
             (if resume then DropboxInventory._load_checkpoint self0 fs
              else (Return false, self0)) = (out, self1)
             /\ DropboxInventory.is_running self1 = true
             /\ match out with
                | Raise e => e = JSONDecodeError
                | Return _ => True
                end).
  { destruct resume.
    - destruct (legacy_load_checkpoint_frame self0 fs) as [Hr Hout].
      cbv zeta in Hr, Hout.
      destruct (DropboxInventory._load_checkpoint self0 fs) as [out self1].
      cbn [fst snd] in Hr, Hout. exists out, self1.
      split; [reflexivity|]. split; [now rewrite Hr|].
      destruct out; [exact I|apply Hout].
    - exists (Return false), self0. repeat split. exact Hrun. }
  destruct Hload as (out & self1 & -> & Hr1 & Hout).
  destruct out as [loaded|e].
  - destruct (loaded && truthy (DropboxInventory.cursor self1)).
    + apply legacy_paginate_exit; [exact Hr1|now left].
    + unfold DropboxInventory.fresh_start.
      destruct (decide (sigint = Some O)) as [_|_].
      * destruct (legacy_signal_handler_exit self1 fs w)
          as (self2 & fs2 & -> & Hsaved).
        intros [= <- <- <- <-]. split; [reflexivity|exact Hsaved].
      * destruct (DropboxInventory._api_call _ _ (DropboxInventory.fresh self1) w)
          as [[out self2] w2] eqn:Hcall.
        destruct (legacy_api_call_frame _ _ _ _ _ _ _ Hcall) as (He2 & Hr2 & Hout2).
        destruct out as [result|e].
        -- apply legacy_paginate_exit; [|now left].
           rewrite (proj2 (legacy_take_page_progress result self2)), Hr2.
           exact Hr1.
        -- intros [= <- <- <- <-]. split; [now apply Hout2|now left].
  - subst e. intros [= <- <- <- <-]. split; [reflexivity|now left].
Qed.

Lemma legacy_run_leaves_consistent_files_witness :
  legacy_exit_ok ∅ Returned
    (state_after DropboxInventory.__init__ (legacy_two_pages None false ∅))
    (files_after (legacy_two_pages None false ∅)).
Proof.
  apply (@legacy_run_leaves_consistent_files (list Z) (scripted two_pages)
           None false 2 DropboxInventory.__init__ ∅ [] Returned
           (state_after DropboxInventory.__init__ (legacy_two_pages None false ∅))
           (files_after (legacy_two_pages None false ∅))
           (world_after [] (legacy_two_pages None false ∅)) eq_refl).
  vm_compute; reflexivity.
Defined.

Lemma hybrid_continue_unfold {W : Type} `{Environment W}
    sigint fuel pages self (fs : FS) (w : W) :
  HybridInventory._continue_recursive sigint fuel pages self fs w
  = if decide (sigint = Some pages)
    then Some (HybridInventory._signal_handler self fs w)
    else if HybridInventory.has_more self && HybridInventory.is_running self then
      match fuel with
      | O => None
      | S fuel =>
          match HybridInventory._api_call
                  (files_list_folder_continue (HybridInventory.cursor self))
                  self w with
          | (Raise e, self, w) => Some (Returned, self, fs, w)
          | (Return result, self, w) =>
              let self := HybridInventory.take_page result self in
              let '(self, fs) :=
                if HybridInventory.save_due self w
                then HybridInventory._save_all self fs w else (self, fs) in
              HybridInventory._continue_recursive sigint fuel (S pages) self fs w
          end
      end
    else Some (Returned, self, fs, w).
Proof. destruct fuel; reflexivity. Qed.

Lemma store_ok_same_store s1 s2 :
  HybridInventory.entries s1 = HybridInventory.entries s2 ->
  HybridInventory.entries_by_path s1 = HybridInventory.entries_by_path s2 ->
  store_ok s1 -> store_ok s2.
Proof. unfold store_ok. now intros -> ->. Qed.

Lemma hybrid_api_call_frame {W : Type} `{Environment W} {R : Type}
    (func : W -> Outcome R * W) self w out self1 w1 :
  HybridInventory._api_call func self w = (out, self1, w1) ->
  (store_ok self -> store_ok self1)
  /\ HybridInventory.is_running self1 = HybridInventory.is_running self
  /\ forall e, out = Raise e -> retryable e = false.
Proof.
  intros Hcall.
  destruct (hybrid_api_call_from_outcome func (seq 0 max_retries) self w)
    as [Hself Hout].
  fold (HybridInventory._api_call func self w) in Hself, Hout.
  rewrite Hcall in Hself, Hout. cbn [fst snd] in Hself, Hout.
  rewrite Hself. split; [|split; [reflexivity|exact Hout]].
  apply store_ok_same_store; reflexivity.
Qed.

Lemma hybrid_signal_handler_exit {W : Type} `{Environment W}
    self (fs : FS) (w : W) :
  exists self' fs',
    HybridInventory._signal_handler self fs w = (SysExit 0, self', fs', w)
    /\ (store_ok self -> store_ok self')
    /\ hybrid_saved (hybrid_progress_of self') fs'.
Proof.
  unfold HybridInventory._signal_handler, HybridInventory._save_all.
  do 2 eexists. split; [reflexivity|]. split.
  - apply store_ok_same_store; reflexivity.
  - exists (HybridInventory.checkpoint_of (HybridInventory.set_is_running false self)).
    destruct (hybrid_save_all_files (HybridInventory.set_is_running false self) fs)
      as [-> ->].
    repeat split.
Qed.

Lemma hybrid_continue_exit {W : Type} `{Environment W} sigint fuel :
  forall pages self (fs : FS) (w : W) exit self' fs' w',
    store_ok self ->
    HybridInventory.is_running self = true ->
    HybridInventory._continue_recursive sigint fuel pages self fs w
    = Some (exit, self', fs', w') ->
    store_ok self'
    /\ match exit with
       | Returned => HybridInventory.is_running self' = true
       | SysExit code => code = 0 /\ hybrid_saved (hybrid_progress_of self') fs'
       | Uncaught _ => False
       end.
Proof.
  induction fuel as [|fuel IH]; intros pages self fs w exit self' fs' w' Hok Hrun;
    rewrite hybrid_continue_unfold;
    (destruct (decide (sigint = Some pages)) as [_|_];
     [destruct (hybrid_signal_handler_exit self fs w)
        as (self1 & fs1 & -> & Hok1 & Hsaved);
      intros [= <- <- <- <-]; split; [now apply Hok1|split; [reflexivity|exact Hsaved]]
     |]);
    rewrite Hrun, andb_true_r;
    (destruct (HybridInventory.has_more self) eqn:Hmore;
     [|intros [= <- <- <- <-]; split; [exact Hok|exact Hrun]]).
  - discriminate.
  - destruct (HybridInventory._api_call _ self w) as [[out self1] w1] eqn:Hcall.
    destruct (hybrid_api_call_frame _ _ _ _ _ _ Hcall) as (Hok1 & Hr1 & Hout).
    destruct out as [result|e].
    + cbv zeta.
      destruct (hybrid_take_page_progress result self1 (Hok1 Hok))
        as (_ & Hok2 & Hr2).
      set (self2 := HybridInventory.take_page result self1) in *.
      destruct (hybrid_periodic_save self2 fs w1) as (_ & Hok3 & Hr3 & _).
      cbv zeta in Hok3, Hr3.
      destruct (if HybridInventory.save_due self2 w1
                then HybridInventory._save_all self2 fs w1 else (self2, fs))
        as [self3 fs3].
      cbn [fst] in Hok3, Hr3.
      apply IH; [now apply Hok3|congruence].
    + intros [= <- <- <- <-]. split; [now apply Hok1|congruence].
Qed.

Lemma hybrid_finish_exit {W : Type} `{Environment W} self (fs : FS) (w : W) :
  HybridInventory.is_running self = true ->
  exists self' fs',
    HybridInventory.finish self fs w = (Returned, self', fs', w)
    /\ (store_ok self -> store_ok self')
    /\ if HybridInventory.has_more self'
       then hybrid_saved (hybrid_progress_of self') fs'
       else hybrid_finished (hybrid_progress_of self') fs'.
Proof.
  intros Hrun. unfold HybridInventory.finish, HybridInventory._save_all.
  rewrite Hrun. cbn [HybridInventory.has_more HybridInventory.set_last_save_time].
  destruct (hybrid_save_all_files self fs) as [Hcp Hinv].
  destruct (HybridInventory.has_more self) eqn:Hmore.
  - do 2 eexists. split; [reflexivity|].
    split; [apply store_ok_same_store; reflexivity|].
    cbn [HybridInventory.has_more HybridInventory.set_last_save_time]. rewrite Hmore.
    exists (HybridInventory.checkpoint_of self).
    split; [exact Hcp|]. split; [exact Hinv|].
    cbn. now rewrite Hmore.
  - rewrite Hcp. do 2 eexists. split; [reflexivity|].
    split; [apply store_ok_same_store; reflexivity|].
    cbn [HybridInventory.has_more HybridInventory.set_last_save_time]. rewrite Hmore.
    change (fs_run [Unlink HybridInventory.CHECKPOINT_FILE]
              (fs_run (HybridInventory._save_all_ops self) fs))
      with (delete HybridInventory.CHECKPOINT_FILE
              (fs_run (HybridInventory._save_all_ops self) fs)).
    split.
    + apply lookup_delete_eq.
    + rewrite lookup_delete_ne by discriminate. exact Hinv.
Qed.

Lemma load_old_progress_store_ok self (fs : FS) :
  store_ok self -> store_ok (snd (HybridInventory._load_old_progress self fs)).
Proof.
  intros Hok. unfold HybridInventory._load_old_progress.
  assert (H1 : store_ok (snd (HybridInventory.load_old_checkpoint false self fs))).
  { unfold HybridInventory.load_old_checkpoint.
    destruct (fs !! HybridInventory.OLD_CHECKPOINT) as [[|j]|]; exact Hok. }
  destruct (HybridInventory.load_old_checkpoint false self fs) as [loaded1 self1].
  cbn [snd] in H1.
  assert (H2 : store_ok (snd (HybridInventory.load_old_inventory loaded1 self1 fs))).
  { unfold HybridInventory.load_old_inventory.
    destruct (fs !! HybridInventory.OLD_INVENTORY_JSON) as [[|j]|]; try exact H1.
    cbn [json_load snd]. now apply add_all_store_ok. }
  destruct (HybridInventory.load_old_inventory loaded1 self1 fs) as [loaded2 self2].
  cbn [snd] in H2.
  unfold HybridInventory.load_own.
  destruct (fs !! HybridInventory.CHECKPOINT_FILE) as [[|j]|]; try exact H2.
  cbn [json_load]. cbv zeta.
  destruct (fs !! HybridInventory.INVENTORY_JSON) as [[|i]|]; try exact H2.
  cbn [json_load snd]. apply add_all_store_ok.
  apply (store_ok_same_store HybridInventory.__init__); [reflexivity..|].
  apply store_ok_init.
Qed.

(** X10: however the hybrid run ends, under any remote, any clock and any
    files found, its store is coherent and the files it leaves are
    consistent. If it returns, the inventory holds exactly the entries in
    memory, no two with the same path; the checkpoint is gone when the
    listing was exhausted, and holds the cursor when the run stopped with
    more to come (after an error caught in the loop). If SIGINT stops it,
    checkpoint and inventory were written from the same state. If an
    exception ends it (only the first listing of a fresh scan can), that
    exception is not one [_api_call] retries on and no file has been
    written. *)
Theorem hybrid_run_leaves_consistent_files {W : Type} `{Environment W}
    (sigint : option nat) (fuel : nat)
    (self : HybridInventory.Self) (fs : FS) (w : W)
    (exit : Exit) (self' : HybridInventory.Self) (fs' : FS) (w' : W) :
  store_ok self ->
  HybridInventory.is_running self = true ->
  HybridInventory.run sigint fuel self fs w = Some (exit, self', fs', w') ->
  hybrid_exit_ok fs exit self' fs'
  /\ NoDup (map path (HybridInventory.entries self')).
Proof.
  intros Hok Hrun Hresult.
  enough (Hexit : hybrid_exit_ok fs exit self' fs').
  { split; [exact Hexit|]. destruct Hexit as [[Hnd _] _]. exact Hnd. }
  revert Hresult. unfold HybridInventory.run.
  set (self0 := HybridInventory.set_last_save_time _ self).
  pose proof (load_old_progress_store_ok self0 fs
                (store_ok_same_store self self0 eq_refl eq_refl Hok)) as Hok1.
  pose proof (load_old_progress_running self0 fs) as Hr1.
  destruct (HybridInventory._load_old_progress self0 fs) as [had_progress self1].
  cbn [snd] in Hok1, Hr1. change (HybridInventory.is_running self0)
    with (HybridInventory.is_running self) in Hr1. rewrite Hrun in Hr1.
  assert (Hfinish : forall self2 fs2 w2,
             store_ok self2 -> HybridInventory.is_running self2 = true ->
             Some (HybridInventory.finish self2 fs2 w2) = Some (exit, self', fs', w') ->
             hybrid_exit_ok fs exit self' fs').
  { intros self2 fs2 w2 Hok2 Hr2.
    destruct (hybrid_finish_exit self2 fs2 w2 Hr2) as (self3 & fs3 & -> & Hok3 & Hfiles).
    intros [= <- <- <- <-]. split; [now apply Hok3|exact Hfiles]. }
  assert (Hloop : forall pages self2 fs2 w2 r,
             store_ok self2 -> HybridInventory.is_running self2 = true ->
             HybridInventory._continue_recursive sigint fuel pages self2 fs2 w2 = r ->
             match r with
             | Some (Returned, self, fs, w) => Some (HybridInventory.finish self fs w)
             | _ => r
             end = Some (exit, self', fs', w') ->
             hybrid_exit_ok fs exit self' fs').
  { intros pages self2 fs2 w2 r Hok2 Hr2 Hcont.
    destruct r as [[[[exit3 self3] fs3] w3]|]; [|discriminate].
    destruct (hybrid_continue_exit _ _ _ _ _ _ _ _ _ _ Hok2 Hr2 Hcont)
      as [Hok3 Hexit3].
    destruct exit3 as [|code|e].
    - now apply Hfinish.
    - intros [= <- <- <- <-]. split; [exact Hok3|exact Hexit3].
    - destruct Hexit3. }
  destruct (truthy (HybridInventory.cursor self1) && HybridInventory.has_more self1).
  { exact (Hloop _ _ _ _ _ Hok1 Hr1 eq_refl). }
  destruct (negb (HybridInventory.has_more self1)
            && nonempty (HybridInventory.entries self1)).
  { now apply Hfinish. }
  unfold HybridInventory._start_fresh.
  destruct (decide (sigint = Some O)) as [_|_].
  - destruct (hybrid_signal_handler_exit self1 fs w)
      as (self2 & fs2 & -> & Hok2 & Hsaved).
    intros [= <- <- <- <-]. split; [now apply Hok2|split; [reflexivity|exact Hsaved]].
  - destruct (HybridInventory._api_call _ self1 w) as [[out self2] w2] eqn:Hcall.
    destruct (hybrid_api_call_frame _ _ _ _ _ _ Hcall) as (Hok2 & Hr2 & Hout).
    destruct out as [result|e].
    + destruct (hybrid_take_page_progress result self2 (Hok2 Hok1))
        as (_ & Hok3 & Hr3).
      refine (Hloop _ _ _ _ _ Hok3 _ eq_refl). congruence.
    + intros [= <- <- <- <-]. split; [now apply Hok2|].
      split; [now apply Hout|reflexivity].
Qed.

Lemma hybrid_run_leaves_consistent_files_witness :
  hybrid_exit_ok ∅ (SysExit 0)
    (state_after HybridInventory.__init__ (hybrid_two_pages (Some 1%nat) ∅))
    (files_after (hybrid_two_pages (Some 1%nat) ∅)).
Proof.
  refine (proj1 (@hybrid_run_leaves_consistent_files (list Z) (scripted two_pages)
           (Some 1%nat) 2 HybridInventory.__init__ ∅ [] (SysExit 0)
           (state_after HybridInventory.__init__ (hybrid_two_pages (Some 1%nat) ∅))
           (files_after (hybrid_two_pages (Some 1%nat) ∅))
           (world_after [] (hybrid_two_pages (Some 1%nat) ∅))
           store_ok_init eq_refl _)).
  vm_compute; reflexivity.
Defined.

(** ** The verifier on what the enumerators record *)

(** X11: the verifier's reading of the inventory fits the enumerators'
    numbering of depths. The root folders it takes from an inventory made of
    processed listing records are exactly the listed folders whose display
    path has one slash; so when every root folder of the live listing is
    such a folder of the recursive listing, nothing is reported missing. *)
Theorem root_folders_are_one_slash_folders
    (listing : list Metadata) (api_root_folders : list string) :
  let entries := omap HybridInventory._process_entry listing in
  (forall p, p ∈ inventory_root_paths entries
             <-> exists m, IsFolder m ∈ listing /\ dm_path_display m = p
                           /\ count_char "/" p = 1%nat)
  /\ ((forall p, p ∈ api_root_folders ->
          exists m, IsFolder m ∈ listing /\ dm_path_display m = p
                    /\ count_char "/" p = 1%nat) ->
      verify_inventory.issues (verify_inventory.compare_roots api_root_folders entries)
      = []).
Proof.
  intros entries.
  assert (Hroots : forall p, p ∈ inventory_root_paths entries
             <-> exists m, IsFolder m ∈ listing /\ dm_path_display m = p
                           /\ count_char "/" p = 1%nat).
  { intros p. rewrite inventory_root_paths_spec. unfold entries. split.
    - intros (e & Hin & Htype & Hdepth & Hpath).
      apply list_elem_of_omap in Hin as (entry & Hentry & Hproc).
      rewrite (process_entry_depth entry e Hproc), Hpath in Hdepth.
      destruct entry as [m|m|]; cbn in Hproc; [| |discriminate];
        injection Hproc as <-; [discriminate|].
      exists m. split; [exact Hentry|]. split; [exact Hpath|].
      cbn in Hpath. lia.
    - intros (m & Hentry & Hpath & Hslash).
      exists (folder_entry m). split.
      + apply list_elem_of_omap. exists (IsFolder m). now split.
      + split; [reflexivity|]. split; [|exact Hpath].
        rewrite (process_entry_depth (IsFolder m) (folder_entry m) eq_refl).
        change (path (folder_entry m)) with (dm_path_display m).
        rewrite Hpath, Hslash. reflexivity. }
  split; [exact Hroots|].
  intros Hall. unfold verify_inventory.compare_roots; cbn [verify_inventory.issues].
  fold (inventory_root_paths entries).
  rewrite decide_True; [reflexivity|].
  apply elem_of_equiv_empty_L. intros p Hp.
  apply elem_of_difference in Hp as [Hapi Hinv].
  apply elem_of_list_to_set in Hapi. apply Hinv, elem_of_list_to_set.
  apply Hroots, Hall, Hapi.
Qed.

Lemma size_for_path_fold entries under total :
  fold_left
    (fun total e =>
       if bool_decide (type e = file) && String.prefix under (path e)
       then total + size_bytes e else total)
    entries total
  = total + verify_inventory.get_inventory_size_for_path entries under.
Proof.
  unfold verify_inventory.get_inventory_size_for_path.
  revert total. induction entries as [|e l IH]; intros total; cbn [fold_left]; [lia|].
  destruct (bool_decide (type e = file) && String.prefix under (path e)).
  - rewrite (IH (total + size_bytes e)), (IH (0 + size_bytes e)). lia.
  - apply IH.
Qed.

Lemma size_for_path_cons e entries under :
  verify_inventory.get_inventory_size_for_path (e :: entries) under
  = (if bool_decide (type e = file) && String.prefix under (path e)
     then size_bytes e else 0)
    + verify_inventory.get_inventory_size_for_path entries under.
Proof.
  unfold verify_inventory.get_inventory_size_for_path at 1. cbn [fold_left].
  rewrite size_for_path_fold.
  destruct (bool_decide (type e = file) && String.prefix under (path e)); lia.
Qed.

Lemma string_prefix_empty s : String.prefix EmptyString s = true.
Proof. destruct s; reflexivity. Qed.

Lemma string_prefix_trans p q s :
  String.prefix p q = true -> String.prefix q s = true -> String.prefix p s = true.
Proof.
  revert q s. induction p as [|a p IH]; intros q s;
    [intros _ _; apply string_prefix_empty|].
  destruct q as [|b q]; [discriminate|]. destruct s as [|c s]; [discriminate|].
  cbn. destruct (ascii_dec a b) as [->|]; [|discriminate].
  destruct (ascii_dec b c) as [->|]; [|discriminate].
  apply IH.
Qed.

(** X12: the size the verifier prints for a folder is a sum over string
    prefixes. With no negative sizes, a longer prefix selects no more bytes
    than a shorter one, every folder's figure lies between 0 and the total,
    and the figure for the empty prefix is the total the enumerators write
    as [total_size_bytes]. *)
Theorem size_for_path_is_monotone (entries : list Entry) (p q : string) :
  Forall (fun e => 0 <= size_bytes e) entries ->
  String.prefix p q = true ->
  0 <= verify_inventory.get_inventory_size_for_path entries q
  /\ verify_inventory.get_inventory_size_for_path entries q
     <= verify_inventory.get_inventory_size_for_path entries p
  /\ verify_inventory.get_inventory_size_for_path entries p
     <= verify_inventory.get_inventory_size_for_path entries EmptyString
  /\ verify_inventory.get_inventory_size_for_path entries EmptyString
     = sum_sizes (files_only entries).
Proof.
  intros Hsizes Hpq. induction Hsizes as [|e l He _ IH].
  - cbn. lia.
  - rewrite !size_for_path_cons. unfold files_only in *. cbn [List.filter].
    destruct IH as (IH0 & IH1 & IH2 & IH3).
    destruct (bool_decide (type e = file)); cbn [andb sum_sizes fold_right];
      [|fold (sum_sizes (List.filter (fun e => bool_decide (type e = file)) l)); lia].
    fold (sum_sizes (List.filter (fun e => bool_decide (type e = file)) l)).
    rewrite string_prefix_empty.
    destruct (String.prefix q (path e)) eqn:Hq.
    + rewrite (string_prefix_trans p q (path e) Hpq Hq). lia.
    + destruct (String.prefix p (path e)); lia.
Qed.

Lemma size_for_path_is_monotone_witness :
  verify_inventory.get_inventory_size_for_path
    [folder_entry folder_A; file_entry file_f; file_entry file_B] "/A/"
  <= verify_inventory.get_inventory_size_for_path
       [folder_entry folder_A; file_entry file_f; file_entry file_B] "/A".
Proof.
  refine (proj1 (proj2 (size_for_path_is_monotone
            [folder_entry folder_A; file_entry file_f; file_entry file_B]
            "/A" "/A/" _ eq_refl))).
  repeat constructor; cbn; lia.
Defined.

Lemma count_entry_lookup m e d :
  verify_inventory.count_entry m e !! d
  = if bool_decide (folder_depth e = d)
    then
      let row := default {| verify_inventory.row_files := 0;
                            verify_inventory.row_folders := 0 |} (m !! d) in
      Some match type e with
           | file =>
               {| verify_inventory.row_files := verify_inventory.row_files row + 1;
                  verify_inventory.row_folders := verify_inventory.row_folders row |}
           | folder =>
               {| verify_inventory.row_files := verify_inventory.row_files row;
                  verify_inventory.row_folders := verify_inventory.row_folders row + 1 |}
           end
    else m !! d.
Proof.
  unfold verify_inventory.count_entry. cbv zeta.
  case_bool_decide as Hd.
  - subst d. destruct (m !! folder_depth e) as [row|] eqn:Hrow.
    + rewrite Hrow. destruct (type e); now rewrite lookup_insert_eq.
    + rewrite lookup_insert_eq. destruct (type e); now rewrite lookup_insert_eq.
  - destruct (m !! folder_depth e) as [row|] eqn:Hrow.
    + rewrite Hrow. destruct (type e); now rewrite lookup_insert_ne.
    + rewrite lookup_insert_eq.
      destruct (type e); now rewrite !lookup_insert_ne.
Qed.

Lemma at_depth_snoc d l e :
  at_depth d (l ++ [e])
  = (at_depth d l ++ if bool_decide (folder_depth e = d) then [e] else [])%list.
Proof.
  unfold at_depth. rewrite List.filter_app. cbn [List.filter].
  now destruct (bool_decide (folder_depth e = d)).
Qed.

Lemma files_only_snoc l e :
  files_only (l ++ [e])
  = (files_only l ++ if bool_decide (type e = file) then [e] else [])%list.
Proof.
  unfold files_only. rewrite List.filter_app. cbn [List.filter].
  now destruct (bool_decide (type e = file)).
Qed.

Lemma folders_at_depth_snoc d l e :
  verify_inventory.get_inventory_folders_at_depth (l ++ [e]) d
  = (verify_inventory.get_inventory_folders_at_depth l d
     ++ if bool_decide (type e = folder) && bool_decide (folder_depth e = d)
        then [e] else [])%list.
Proof.
  unfold verify_inventory.get_inventory_folders_at_depth.
  rewrite List.filter_app. cbn [List.filter].
  now destruct (bool_decide (type e = folder) && bool_decide (folder_depth e = d)).
Qed.

Lemma folders_at_depth_none d l :
  at_depth d l = [] -> verify_inventory.get_inventory_folders_at_depth l d = [].
Proof.
  unfold at_depth, verify_inventory.get_inventory_folders_at_depth.
  induction l as [|x l IH]; [reflexivity|]. cbn [List.filter].
  destruct (bool_decide (folder_depth x = d)); [discriminate|].
  rewrite andb_false_r. exact IH.
Qed.

(** X14: the depth table of the verifier. For each depth it has a row
    exactly when some entry is recorded at that depth; the row's file count
    is the number of files at that depth, and its folder count is the number
    of folders [get_inventory_folders_at_depth] returns for it, so the row
    of depth 1 counts the root folders of the comparison. *)
Theorem depth_table_counts (entries : list Entry) (d : Z) :
  verify_inventory.depth_counts entries !! d
  = match at_depth d entries with
    | [] => None
    | _ :: _ =>
        Some {| verify_inventory.row_files :=
                  Z.of_nat (length (files_only (at_depth d entries)));
                verify_inventory.row_folders :=
                  Z.of_nat (length (verify_inventory.get_inventory_folders_at_depth
                                      entries d)) |}
    end.
Proof.
  unfold verify_inventory.depth_counts.
  induction entries as [|e l IH] using rev_ind; [apply lookup_empty|].
  rewrite fold_left_app. cbn [fold_left]. rewrite count_entry_lookup, IH.
  rewrite at_depth_snoc, folders_at_depth_snoc.
  case_bool_decide as Hd.
  - rewrite andb_true_r, files_only_snoc. cbv zeta.
    destruct (at_depth d l) as [|z l0] eqn:Hat.
    + rewrite (folders_at_depth_none d l Hat). cbn [default from_option id app].
      destruct (type e);
        repeat first [rewrite bool_decide_eq_true_2 by congruence
                     |rewrite bool_decide_eq_false_2 by congruence];
        reflexivity.
    + cbn [default from_option id app
             verify_inventory.row_files verify_inventory.row_folders].
      destruct (type e);
        repeat first [rewrite bool_decide_eq_true_2 by congruence
                     |rewrite bool_decide_eq_false_2 by congruence];
        rewrite ?app_nil_r, ?length_app; cbn [length];
        do 2 f_equal; lia.
  - rewrite andb_false_r, !app_nil_r. reflexivity.
Qed.

(** ** A page delivered twice *)

Lemma hybrid_continue_step {W : Type} `{Environment W}
    sigint fuel pages self (fs : FS) (w : W) result w1 :
  sigint <> Some pages ->
  HybridInventory.has_more self = true ->
  HybridInventory.is_running self = true ->
  store_ok self ->
  files_list_folder_continue (HybridInventory.cursor self) w = (Return result, w1) ->
  exists self' fs',
    HybridInventory._continue_recursive sigint (S fuel) pages self fs w
    = HybridInventory._continue_recursive sigint fuel (S pages) self' fs' w1
    /\ hybrid_progress_of self'
       = {| seen := extend (HybridInventory.entries self)
                      (omap HybridInventory._process_entry (res_entries result));
            at_cursor := Some (res_cursor result);
            more := res_has_more result;
            calls := HybridInventory.api_calls self + 1 |}
    /\ store_ok self'
    /\ HybridInventory.is_running self' = true.
Proof.
  intros Hsig Hmore Hrun Hok Hcall.
  rewrite hybrid_continue_unfold, decide_False by exact Hsig.
  rewrite Hmore, Hrun. cbn [andb].
  rewrite (hybrid_api_call_answers _ self w result w1 Hcall). cbv zeta.
  set (self1 := HybridInventory.set_api_calls _ self).
  destruct (hybrid_take_page_progress result self1) as (Hp2 & Hok2 & Hr2);
    [apply (store_ok_same_store self); [reflexivity..|exact Hok]|].
  set (self2 := HybridInventory.take_page result self1) in *.
  destruct (hybrid_periodic_save self2 fs w1) as (Hp3 & Hok3 & Hr3 & _).
  cbv zeta in Hp3, Hok3, Hr3.
  destruct (if HybridInventory.save_due self2 w1
            then HybridInventory._save_all self2 fs w1 else (self2, fs))
    as [self3 fs3].
  cbn [fst] in Hp3, Hok3, Hr3.
  exists self3, fs3. split; [reflexivity|].
  split; [now rewrite Hp3, Hp2|]. split; [now apply Hok3|].
  now rewrite Hr3, Hr2.
Qed.

Lemma hybrid_continue_interrupted {W : Type} `{Environment W}
    fuel pages self (fs : FS) (w : W) :
  exists self' fs',
    HybridInventory._continue_recursive (Some pages) fuel pages self fs w
    = Some (SysExit 0, self', fs', w)
    /\ hybrid_progress_of self' = hybrid_progress_of self.
Proof.
  rewrite hybrid_continue_unfold, decide_True by reflexivity.
  unfold HybridInventory._signal_handler, HybridInventory._save_all.
  do 2 eexists. split; reflexivity.
Qed.

Lemma legacy_paginate_step {W : Type} `{Environment W}
    sigint fuel pages self (fs : FS) (w : W) result w1 :
  sigint <> Some pages ->
  DropboxInventory.has_more self = true ->
  DropboxInventory.is_running self = true ->
  files_list_folder_continue (DropboxInventory.cursor self) w = (Return result, w1) ->
  exists self' fs',
    DropboxInventory.paginate sigint (S fuel) pages self fs w
    = DropboxInventory.paginate sigint fuel (S pages) self' fs' w1
    /\ progress_of self'
       = {| seen := (DropboxInventory.entries self
                     ++ omap HybridInventory._process_entry (res_entries result))%list;
            at_cursor := Some (res_cursor result);
            more := res_has_more result;
            calls := DropboxInventory.api_calls self + 1 |}
    /\ DropboxInventory.is_running self' = true.
Proof.
  intros Hsig Hmore Hrun Hcall.
  rewrite legacy_paginate_unfold, decide_False by exact Hsig.
  rewrite Hmore, Hrun. cbn [andb].
  rewrite (legacy_api_call_answers _ "list_folder_continue" self w result w1 Hcall).
  cbv zeta.
  set (self1 := DropboxInventory.set_api_calls _ self).
  destruct (legacy_take_page_progress result self1) as (Hp2 & Hr2).
  set (self2 := DropboxInventory.take_page result self1) in *.
  destruct (legacy_periodic_save self2 fs w1) as (Hp3 & Hr3).
  cbv zeta in Hp3, Hr3.
  destruct (if DropboxInventory._should_save self2 w1
            then DropboxInventory._save_inventory self2
                   (DropboxInventory._save_checkpoint self2 fs) w1
            else (self2, fs)) as [self3 fs3].
  cbn [fst] in Hp3, Hr3.
  exists self3, fs3. split; [reflexivity|].
  split; [now rewrite Hp3, Hp2|]. now rewrite Hr3, Hr2.
Qed.

Lemma legacy_paginate_interrupted {W : Type} `{Environment W}
    fuel pages self (fs : FS) (w : W) :
  exists self' fs',
    DropboxInventory.paginate (Some pages) fuel pages self fs w
    = Some (SysExit 0, self', fs', w)
    /\ progress_of self' = progress_of self.
Proof.
  rewrite legacy_paginate_unfold, decide_True by reflexivity.
  unfold DropboxInventory._signal_handler, DropboxInventory._save_inventory.
  do 2 eexists. split; reflexivity.
Qed.

(** X13: a page that the remote delivers a second time. Let the remote
    answer every continuation with the same page, which says there is more.
    Against the run that SIGINT stops after the first delivery, the run
    stopped after the second has made one more request and counted it; the
    hybrid enumerator, whose store is coherent, has taken nothing from the
    second delivery (same entries, cursor and [has_more]), and the legacy
    enumerator has appended every record of the page once more. *)
Theorem page_delivered_twice {W : Type} `{Environment W}
    (result : ListFolderResult) (fuel pages : nat)
    (hybrid : HybridInventory.Self) (legacy : DropboxInventory.Self)
    (fs : FS) (w : W) :
  (forall c w, exists w', files_list_folder_continue c w = (Return result, w')) ->
  res_has_more result = true ->
  store_ok hybrid ->
  HybridInventory.has_more hybrid = true ->
  HybridInventory.is_running hybrid = true ->
  DropboxInventory.has_more legacy = true ->
  DropboxInventory.is_running legacy = true ->
  (exists once fs1 w1 twice fs2 w2,
      HybridInventory._continue_recursive (Some (S pages)) (S (S fuel)) pages
        hybrid fs w = Some (SysExit 0, once, fs1, w1)
      /\ HybridInventory._continue_recursive (Some (S (S pages))) (S (S fuel)) pages
           hybrid fs w = Some (SysExit 0, twice, fs2, w2)
      /\ HybridInventory.entries twice = HybridInventory.entries once
      /\ HybridInventory.cursor twice = HybridInventory.cursor once
      /\ HybridInventory.has_more twice = HybridInventory.has_more once
      /\ HybridInventory.api_calls twice = HybridInventory.api_calls once + 1)
  /\ (exists once fs1 w1 twice fs2 w2,
      DropboxInventory.paginate (Some (S pages)) (S (S fuel)) pages
        legacy fs w = Some (SysExit 0, once, fs1, w1)
      /\ DropboxInventory.paginate (Some (S (S pages))) (S (S fuel)) pages
           legacy fs w = Some (SysExit 0, twice, fs2, w2)
      /\ DropboxInventory.entries twice
         = (DropboxInventory.entries once
            ++ omap HybridInventory._process_entry (res_entries result))%list
      /\ DropboxInventory.api_calls twice = DropboxInventory.api_calls once + 1).
Proof.
  intros Hanswer Hpage Hok Hmore Hrun Hlmore Hlrun.
  assert (Hne1 : forall n : nat, Some (S n) <> Some n).
  { intros n [= Hn]. lia. }
  assert (Hne2 : forall n : nat, Some (S (S n)) <> Some n).
  { intros n [= Hn]. lia. }
  split.
  - destruct (Hanswer (HybridInventory.cursor hybrid) w) as [wa Ha].
    destruct (hybrid_continue_step (Some (S pages)) (S fuel) pages hybrid fs w
                result wa (Hne1 pages) Hmore Hrun Hok Ha)
      as (s1 & fsa & Hrun1 & Hp1 & _ & _).
    destruct (hybrid_continue_interrupted (S fuel) (S pages) s1 fsa wa)
      as (once & fs1 & Hstop1 & Hponce).
    destruct (hybrid_continue_step (Some (S (S pages))) (S fuel) pages hybrid fs w
                result wa (Hne2 pages) Hmore Hrun Hok Ha)
      as (t1 & fsb & Hrun2 & Hq1 & Hokt1 & Hrt1).
    destruct (Hanswer (HybridInventory.cursor t1) wa) as [wb Hb].
    assert (Hmoret1 : HybridInventory.has_more t1 = true).
    { change (more (hybrid_progress_of t1) = true). now rewrite Hq1. }
    destruct (hybrid_continue_step (Some (S (S pages))) fuel (S pages) t1 fsb wa
                result wb (Hne1 (S pages)) Hmoret1 Hrt1 Hokt1 Hb)
      as (t2 & fsc & Hrun3 & Hq2 & _ & _).
    destruct (hybrid_continue_interrupted fuel (S (S pages)) t2 fsc wb)
      as (twice & fs2 & Hstop2 & Hptwice).
    exists once, fs1, wa, twice, fs2, wb.
    split; [now rewrite Hrun1|]. split; [now rewrite Hrun2, Hrun3|].
    rewrite Hp1 in Hponce. rewrite Hq2 in Hptwice.
    pose proof (f_equal seen Hq1) as He1. cbn [seen hybrid_progress_of] in He1.
    pose proof (f_equal calls Hq1) as Hc1. cbn [calls hybrid_progress_of] in Hc1.
    rewrite He1, Hc1 in Hptwice.
    rewrite extend_known in Hptwice
      by (intros p Hp; apply extend_paths; now right).
    split; [|split; [|split]].
    + change (seen (hybrid_progress_of twice) = seen (hybrid_progress_of once)).
      now rewrite Hptwice, Hponce.
    + change (at_cursor (hybrid_progress_of twice)
              = at_cursor (hybrid_progress_of once)).
      now rewrite Hptwice, Hponce.
    + change (more (hybrid_progress_of twice) = more (hybrid_progress_of once)).
      now rewrite Hptwice, Hponce.
    + change (calls (hybrid_progress_of twice)
              = calls (hybrid_progress_of once) + 1).
      now rewrite Hptwice, Hponce.
  - destruct (Hanswer (DropboxInventory.cursor legacy) w) as [wa Ha].
    destruct (legacy_paginate_step (Some (S pages)) (S fuel) pages legacy fs w
                result wa (Hne1 pages) Hlmore Hlrun Ha)
      as (s1 & fsa & Hrun1 & Hp1 & _).
    destruct (legacy_paginate_interrupted (S fuel) (S pages) s1 fsa wa)
      as (once & fs1 & Hstop1 & Hponce).
    destruct (legacy_paginate_step (Some (S (S pages))) (S fuel) pages legacy fs w
                result wa (Hne2 pages) Hlmore Hlrun Ha)
      as (t1 & fsb & Hrun2 & Hq1 & Hrt1).
    destruct (Hanswer (DropboxInventory.cursor t1) wa) as [wb Hb].
    assert (Hmoret1 : DropboxInventory.has_more t1 = true).
    { change (more (progress_of t1) = true). now rewrite Hq1. }
    destruct (legacy_paginate_step (Some (S (S pages))) fuel (S pages) t1 fsb wa
                result wb (Hne1 (S pages)) Hmoret1 Hrt1 Hb)
      as (t2 & fsc & Hrun3 & Hq2 & _).
    destruct (legacy_paginate_interrupted fuel (S (S pages)) t2 fsc wb)
      as (twice & fs2 & Hstop2 & Hptwice).
    exists once, fs1, wa, twice, fs2, wb.
    split; [now rewrite Hrun1|]. split; [now rewrite Hrun2, Hrun3|].
    rewrite Hp1 in Hponce. rewrite Hq2 in Hptwice.
    pose proof (f_equal seen Hq1) as He1. cbn [seen progress_of] in He1.
    pose proof (f_equal calls Hq1) as Hc1. cbn [calls progress_of] in Hc1.
    rewrite He1, Hc1 in Hptwice.
    split.
    + change (seen (progress_of twice)
              = (seen (progress_of once)
                 ++ omap HybridInventory._process_entry (res_entries result))%list).
      now rewrite Hptwice, Hponce.
    + change (calls (progress_of twice) = calls (progress_of once) + 1).
      now rewrite Hptwice, Hponce.
Qed.

Lemma page_delivered_twice_witness :
  exists once fs1 w1 twice fs2 w2,
    @HybridInventory._continue_recursive (list Z) (scripted stuttering)
      (Some 1%nat) 2 0 HybridInventory.__init__ ∅ []
    = Some (SysExit 0, once, fs1, w1)
    /\ @HybridInventory._continue_recursive (list Z) (scripted stuttering)
         (Some 2%nat) 2 0 HybridInventory.__init__ ∅ []
       = Some (SysExit 0, twice, fs2, w2)
    /\ HybridInventory.entries twice = HybridInventory.entries once
    /\ HybridInventory.api_calls twice = HybridInventory.api_calls once + 1.
Proof.
  destruct (@page_delivered_twice (list Z) (scripted stuttering) root_page 0 0
              HybridInventory.__init__ DropboxInventory.__init__ ∅ []
              (fun c w => ex_intro _ w eq_refl) eq_refl store_ok_init
              eq_refl eq_refl eq_refl eq_refl)
    as [(once & fs1 & w1 & twice & fs2 & w2 & H1 & H2 & He & _ & _ & Hc) _].
  exists once, fs1, w1, twice, fs2, w2.
  split; [exact H1|]. split; [exact H2|]. split; [exact He|exact Hc].
Defined.

(** ** The call counter and the requests sent *)

Lemma legacy_api_call_from_counts {W : Type} `{Environment W} {R : Type}
    (count : W -> Z) (func : W -> Outcome R * W) description attempts self w :
  (forall w, count (snd (func w)) = count w + 1) ->
  (forall z w, count (time_sleep z w) = count w) ->
  let r := DropboxInventory._api_call_from func description attempts self w in
  DropboxInventory.api_calls (snd (fst r)) - DropboxInventory.api_calls self
  = count (snd r) - count w.
Proof.
  intros Hfunc Hsleep. revert self w.
  induction attempts as [|attempt rest IH]; intros self w; cbv zeta.
  - cbn. lia.
  - cbn [DropboxInventory._api_call_from].
    specialize (Hfunc w). destruct (func w) as [[result|e] w1]; cbn [snd] in Hfunc.
    + cbn. lia.
    + set (self1 := DropboxInventory.set_api_calls _ self).
      destruct e; try (cbn; lia);
        match goal with
        | |- context [DropboxInventory._api_call_from func description rest self1 ?w2] =>
            specialize (IH self1 w2); cbv zeta in IH;
            rewrite Hsleep in IH; cbn [DropboxInventory.api_calls
              DropboxInventory.set_api_calls self1] in IH; lia
        end.
Qed.

Lemma hybrid_api_call_from_counts {W : Type} `{Environment W} {R : Type}
    (count : W -> Z) (func : W -> Outcome R * W) attempts self w :
  (forall w, count (snd (func w)) = count w + 1) ->
  (forall z w, count (time_sleep z w) = count w) ->
  let r := HybridInventory._api_call_from func attempts self w in
  HybridInventory.api_calls (snd (fst r)) - HybridInventory.api_calls self
  = count (snd r) - count w.
Proof.
  intros Hfunc Hsleep. revert self w.
  induction attempts as [|attempt rest IH]; intros self w; cbv zeta.
  - cbn. lia.
  - cbn [HybridInventory._api_call_from].
    specialize (Hfunc w). destruct (func w) as [[result|e] w1]; cbn [snd] in Hfunc.
    + cbn. lia.
    + set (self1 := HybridInventory.set_api_calls _ self).
      destruct e; try (cbn; lia);
        match goal with
        | |- context [HybridInventory._api_call_from func rest self1 ?w2] =>
            specialize (IH self1 w2); cbv zeta in IH;
            rewrite Hsleep in IH; cbn [HybridInventory.api_calls
              HybridInventory.set_api_calls self1] in IH; lia
        end.
Qed.

Lemma legacy_paginate_counts {W : Type} `{Environment W} (count : W -> Z)
    sigint fuel :
  (forall c w, count (snd (files_list_folder_continue c w)) = count w + 1) ->
  (forall z w, count (time_sleep z w) = count w) ->
  forall pages self (fs : FS) (w : W) exit self' fs' w',
    DropboxInventory.paginate sigint fuel pages self fs w
    = Some (exit, self', fs', w') ->
    DropboxInventory.api_calls self' - DropboxInventory.api_calls self
    = count w' - count w.
Proof.
  intros Hcont Hsleep.
  induction fuel as [|fuel IH]; intros pages self fs w exit self' fs' w';
    rewrite legacy_paginate_unfold;
    (destruct (decide (sigint = Some pages)) as [_|_];
     [unfold DropboxInventory._signal_handler, DropboxInventory._save_inventory;
      intros [= <- <- <- <-]; cbn; lia|]);
    (destruct (DropboxInventory.has_more self && DropboxInventory.is_running self);
     [|unfold DropboxInventory.finish, DropboxInventory._save_inventory;
       destruct (DropboxInventory.is_running self);
       intros [= <- <- <- <-]; cbn; lia]).
  - discriminate.
  - pose proof (legacy_api_call_from_counts count
                  (files_list_folder_continue (DropboxInventory.cursor self))
                  "list_folder_continue" (seq 0 max_retries) self w
                  (Hcont _) Hsleep) as Hcall.
    cbv zeta in Hcall.
    fold (DropboxInventory._api_call
            (files_list_folder_continue (DropboxInventory.cursor self))
            "list_folder_continue" self w) in Hcall.
    destruct (DropboxInventory._api_call _ _ self w) as [[out self1] w1].
    cbn [fst snd] in Hcall.
    destruct out as [result|e]; [|intros [= <- <- <- <-]; exact Hcall].
    cbv zeta.
    pose proof (f_equal calls (proj1 (legacy_take_page_progress result self1)))
      as Hpage. cbn [calls progress_of] in Hpage.
    set (self2 := DropboxInventory.take_page result self1) in *.
    pose proof (f_equal calls (proj1 (legacy_periodic_save self2 fs w1))) as Hsave.
    cbv zeta in Hsave. cbn [calls progress_of] in Hsave.
    destruct (if DropboxInventory._should_save self2 w1
              then DropboxInventory._save_inventory self2
                     (DropboxInventory._save_checkpoint self2 fs) w1
              else (self2, fs)) as [self3 fs3].
    cbn [fst] in Hsave. intros Hrest. apply IH in Hrest. lia.
Qed.

Lemma hybrid_take_page_api_calls result self :
  HybridInventory.api_calls (HybridInventory.take_page result self)
  = HybridInventory.api_calls self.
Proof.
  unfold HybridInventory.take_page.
  cbn [HybridInventory.api_calls HybridInventory.set_has_more
    HybridInventory.set_cursor].
  generalize (res_entries result). intros l. revert self.
  induction l as [|entry l IH]; intros self; [reflexivity|].
  cbn [fold_left]. rewrite IH. apply add_entry_frame.
Qed.

Lemma hybrid_continue_counts {W : Type} `{Environment W} (count : W -> Z)
    sigint fuel :
  (forall c w, count (snd (files_list_folder_continue c w)) = count w + 1) ->
  (forall z w, count (time_sleep z w) = count w) ->
  forall pages self (fs : FS) (w : W) exit self' fs' w',
    HybridInventory._continue_recursive sigint fuel pages self fs w
    = Some (exit, self', fs', w') ->
    HybridInventory.api_calls self' - HybridInventory.api_calls self
    = count w' - count w.
Proof.
  intros Hcont Hsleep.
  induction fuel as [|fuel IH]; intros pages self fs w exit self' fs' w';
    rewrite hybrid_continue_unfold;
    (destruct (decide (sigint = Some pages)) as [_|_];
     [unfold HybridInventory._signal_handler, HybridInventory._save_all;
      intros [= <- <- <- <-]; cbn; lia|]);
    (destruct (HybridInventory.has_more self && HybridInventory.is_running self);
     [|intros [= <- <- <- <-]; lia]).
  - discriminate.
  - pose proof (hybrid_api_call_from_counts count
                  (files_list_folder_continue (HybridInventory.cursor self))
                  (seq 0 max_retries) self w (Hcont _) Hsleep) as Hcall.
    cbv zeta in Hcall.
    fold (HybridInventory._api_call
            (files_list_folder_continue (HybridInventory.cursor self)) self w)
      in Hcall.
    destruct (HybridInventory._api_call _ self w) as [[out self1] w1].
    cbn [fst snd] in Hcall.
    destruct out as [result|e]; [|intros [= <- <- <- <-]; exact Hcall].
    cbv zeta.
    pose proof (hybrid_take_page_api_calls result self1) as Hpage.
    set (self2 := HybridInventory.take_page result self1) in *.
    assert (Hsave : HybridInventory.api_calls
                      (fst (if HybridInventory.save_due self2 w1
                            then HybridInventory._save_all self2 fs w1
                            else (self2, fs)))
                    = HybridInventory.api_calls self2).
    { destruct (HybridInventory.save_due self2 w1); reflexivity. }
    destruct (if HybridInventory.save_due self2 w1
              then HybridInventory._save_all self2 fs w1 else (self2, fs))
      as [self3 fs3].
    cbn [fst] in Hsave. intros Hrest. apply IH in Hrest. lia.
Qed.

Lemma hybrid_finish_counts {W : Type} `{Environment W} self (fs : FS) (w : W) :
  HybridInventory.api_calls (snd (fst (fst (HybridInventory.finish self fs w))))
  = HybridInventory.api_calls self
  /\ snd (HybridInventory.finish self fs w) = w.
Proof.
  unfold HybridInventory.finish, HybridInventory._save_all.
  destruct (HybridInventory.is_running self); split; reflexivity.
Qed.

(** X15: the call counter counts the requests sent. Let the world carry a
    count that every listing request raises by one and that sleeping leaves
    alone. Then a fresh legacy run ends with [api_calls] equal to the number
    of requests it has sent, failed attempts included, however it ends; and
    the hybrid run ends with the counter it loaded (its own checkpoint's, or
    the one it started with) plus the number of requests it has sent. *)
Theorem call_counter_counts_requests {W : Type} `{Environment W} (count : W -> Z) :
  (forall w, count (snd (files_list_folder w)) = count w + 1) ->
  (forall c w, count (snd (files_list_folder_continue c w)) = count w + 1) ->
  (forall z w, count (time_sleep z w) = count w) ->
  (forall sigint fuel self (fs : FS) w exit self' fs' w',
      DropboxInventory.run sigint false fuel self fs w = Some (exit, self', fs', w') ->
      sigint <> Some O ->
      DropboxInventory.api_calls self' = count w' - count w)
  /\ (forall sigint fuel self (fs : FS) w exit self' fs' w',
      HybridInventory.run sigint fuel self fs w = Some (exit, self', fs', w') ->
      HybridInventory.api_calls self'
      = HybridInventory.api_calls
          (snd (HybridInventory._load_old_progress
                  (HybridInventory.set_last_save_time (Some (time_time w)) self) fs))
        + (count w' - count w)).
Proof.
  intros Hroot Hcont Hsleep. split.
  - intros sigint fuel self fs w exit self' fs' w'.
    unfold DropboxInventory.run, DropboxInventory.fresh_start. cbn [andb].
    intros Hresult Hsig. rewrite decide_False in Hresult by exact Hsig.
    set (self0 := DropboxInventory.fresh _) in Hresult.
    pose proof (legacy_api_call_from_counts count files_list_folder
                  "Initial list_folder" (seq 0 max_retries) self0 w Hroot Hsleep)
      as Hcall.
    cbv zeta in Hcall.
    fold (DropboxInventory._api_call files_list_folder "Initial list_folder" self0 w)
      in Hcall.
    destruct (DropboxInventory._api_call _ _ self0 w) as [[out self1] w1].
    cbn [fst snd] in Hcall.
    change (DropboxInventory.api_calls self0) with 0 in Hcall.
    destruct out as [result|e]; [|injection Hresult as <- <- <- <-; lia].
    apply (legacy_paginate_counts count sigint fuel Hcont Hsleep) in Hresult.
    pose proof (f_equal calls (proj1 (legacy_take_page_progress result self1)))
      as Hpage. cbn [calls progress_of] in Hpage. lia.
  - intros sigint fuel self fs w exit self' fs' w'.
    unfold HybridInventory.run.
    destruct (HybridInventory._load_old_progress _ fs) as [had_progress self1].
    cbn [snd].
    assert (Hfinish : forall self2 fs2 w2,
               Some (HybridInventory.finish self2 fs2 w2) = Some (exit, self', fs', w') ->
               HybridInventory.api_calls self' = HybridInventory.api_calls self2
               /\ w' = w2).
    { intros self2 fs2 w2 Heq.
      destruct (hybrid_finish_counts self2 fs2 w2) as [Hc Hw].
      injection Heq as Heq. rewrite Heq in Hc, Hw. cbn [fst snd] in Hc, Hw.
      now split. }
    assert (Hloop : forall pages self2 fs2 w2 r,
               HybridInventory._continue_recursive sigint fuel pages self2 fs2 w2 = r ->
               match r with
               | Some (Returned, self, fs, w) => Some (HybridInventory.finish self fs w)
               | _ => r
               end = Some (exit, self', fs', w') ->
               HybridInventory.api_calls self' - HybridInventory.api_calls self2
               = count w' - count w2).
    { intros pages self2 fs2 w2 r Hcontinue.
      destruct r as [[[[exit3 self3] fs3] w3]|]; [|discriminate].
      apply (hybrid_continue_counts count sigint fuel Hcont Hsleep) in Hcontinue.
      destruct exit3 as [|code|e].
      - intros Heq. apply Hfinish in Heq as [-> ->]. exact Hcontinue.
      - intros [= <- <- <- <-]. exact Hcontinue.
      - intros [= <- <- <- <-]. exact Hcontinue. }
    destruct (truthy (HybridInventory.cursor self1) && HybridInventory.has_more self1).
    { intros Heq. pose proof (Hloop _ _ _ _ _ eq_refl Heq). lia. }
    destruct (negb (HybridInventory.has_more self1)
              && nonempty (HybridInventory.entries self1)).
    { intros Heq. apply Hfinish in Heq as [-> ->]. lia. }
    unfold HybridInventory._start_fresh.
    destruct (decide (sigint = Some O)) as [_|_].
    { unfold HybridInventory._signal_handler, HybridInventory._save_all.
      intros [= <- <- <- <-]. cbn. lia. }
    pose proof (hybrid_api_call_from_counts count files_list_folder
                  (seq 0 max_retries) self1 w Hroot Hsleep) as Hcall.
    cbv zeta in Hcall.
    fold (HybridInventory._api_call files_list_folder self1 w) in Hcall.
    destruct (HybridInventory._api_call _ self1 w) as [[out self2] w2].
    cbn [fst snd] in Hcall.
    destruct out as [result|e]; [|intros [= <- <- <- <-]; lia].
    intros Heq. pose proof (Hloop _ _ _ _ _ eq_refl Heq) as Hrest.
    rewrite hybrid_take_page_api_calls in Hrest. lia.
Qed.

Lemma call_counter_counts_requests_witness :
  DropboxInventory.api_calls
    (state_after DropboxInventory.__init__ counted_two_pages)
  = snd (world_after ([], 0) counted_two_pages) - 0.
Proof.
  refine (proj1 (@call_counter_counts_requests (list Z * Z)
                   (counting (scripted two_pages)) snd
                   (fun _ => eq_refl) (fun _ _ => eq_refl) (fun _ _ => eq_refl))
            None 2%nat DropboxInventory.__init__ ∅ ([], 0) Returned
            (state_after DropboxInventory.__init__ counted_two_pages)
            (files_after counted_two_pages)
            (world_after ([], 0) counted_two_pages) _ _).
  - vm_compute; reflexivity.
  - discriminate.
Defined.

(** ** What a load reads back *)

Lemma legacy_load_from cp inv self (fs : FS) :
  fs !! DropboxInventory.CHECKPOINT_FILE = Some (Text (JCheckpoint cp)) ->
  fs !! DropboxInventory.INVENTORY_JSON = Some (Text (JInventory inv)) ->
  exists self',
    DropboxInventory._load_checkpoint self fs = (Return true, self')
    /\ progress_of self' = progress_in cp inv
    /\ DropboxInventory.folders_seen self' = default ∅ (cp_folders_seen cp).
Proof.
  intros Hcp Hinv. unfold DropboxInventory._load_checkpoint.
  rewrite Hcp, Hinv. cbn [json_load as_checkpoint get_entries].
  eexists. split; [reflexivity|]. split; reflexivity.
Qed.

Lemma hybrid_load_from cp inv self (fs : FS) :
  fs !! HybridInventory.CHECKPOINT_FILE = Some (Text (JCheckpoint cp)) ->
  fs !! HybridInventory.INVENTORY_JSON = Some (Text (JInventory inv)) ->
  NoDup (map path (inv_entries inv)) ->
  hybrid_progress_of (snd (HybridInventory._load_old_progress self fs))
  = progress_in cp inv.
Proof.
  intros Hcp Hinv Hnd. unfold HybridInventory._load_old_progress.
  destruct (HybridInventory.load_old_checkpoint false self fs) as [loaded1 self1].
  destruct (HybridInventory.load_old_inventory loaded1 self1 fs) as [loaded2 self2].
  unfold HybridInventory.load_own. rewrite Hcp, Hinv.
  cbn [json_load as_checkpoint get_entries snd].
  set (s3 := HybridInventory.set_store [] ∅ _).
  assert (Hok3 : store_ok s3).
  { apply (store_ok_same_store HybridInventory.__init__); [reflexivity..|].
    apply store_ok_init. }
  destruct (add_all_frame (inv_entries inv) s3) as (Hc & Hm & Ha & _).
  unfold hybrid_progress_of, progress_in.
  rewrite Hc, Hm, Ha, (add_all_distinct _ _ Hok3) by exact Hnd.
  reflexivity.
Qed.

(** X16: a save and the load that follows it. Whatever files were there
    before, legacy ones included, after [_save_checkpoint] and
    [_save_inventory] the legacy loader restores the entries, the cursor,
    [has_more], the call counter and [folders_seen] of the saved object; and
    after [_save_all] of an object with a coherent store the hybrid loader
    restores the entries, the cursor, [has_more] and the call counter. The
    save bookkeeping ([last_save_time], [is_running]) is not restored. *)
Theorem save_then_load_restores {W : Type} `{Environment W}
    (legacy legacy0 : DropboxInventory.Self)
    (hybrid hybrid0 : HybridInventory.Self) (fs : FS) (w : W) :
  store_ok hybrid ->
  (exists legacy',
      DropboxInventory._load_checkpoint legacy0
        (snd (DropboxInventory._save_inventory legacy
                (DropboxInventory._save_checkpoint legacy fs) w))
      = (Return true, legacy')
      /\ progress_of legacy' = progress_of legacy
      /\ DropboxInventory.folders_seen legacy' = DropboxInventory.folders_seen legacy
      /\ DropboxInventory.is_running legacy' = DropboxInventory.is_running legacy0
      /\ DropboxInventory.last_save_time legacy'
         = DropboxInventory.last_save_time legacy0)
  /\ (let hybrid' :=
        snd (HybridInventory._load_old_progress hybrid0
               (snd (HybridInventory._save_all hybrid fs w))) in
      hybrid_progress_of hybrid' = hybrid_progress_of hybrid
      /\ HybridInventory.is_running hybrid' = HybridInventory.is_running hybrid0).
Proof.
  intros Hok. split.
  - unfold DropboxInventory._save_inventory. cbn [snd].
    destruct (legacy_save_pair legacy legacy fs) as [Hcp Hinv].
    unfold DropboxInventory._load_checkpoint.
    rewrite Hcp, Hinv. cbn [json_load as_checkpoint get_entries].
    eexists. split; [reflexivity|]. repeat split.
  - cbv zeta. split; [|apply load_old_progress_running].
    unfold HybridInventory._save_all. cbn [snd].
    destruct (hybrid_save_all_files hybrid fs) as [Hcp Hinv].
    rewrite (hybrid_load_from _ _ hybrid0 _ Hcp Hinv) by (cbn; apply Hok).
    reflexivity.
Qed.

Lemma save_then_load_restores_witness :
  hybrid_progress_of
    (snd (HybridInventory._load_old_progress HybridInventory.__init__
            (snd (@HybridInventory._save_all (list Z) (scripted two_pages)
                    (HybridInventory.take_page root_page HybridInventory.__init__)
                    contradictory_fs []))))
  = hybrid_progress_of (HybridInventory.take_page root_page HybridInventory.__init__).
Proof.
  assert (Hok : store_ok (HybridInventory.take_page root_page HybridInventory.__init__)).
  { apply (hybrid_take_page_progress root_page HybridInventory.__init__ store_ok_init). }
  exact (proj1 (proj2 (@save_then_load_restores (list Z) (scripted two_pages)
                  DropboxInventory.__init__ DropboxInventory.__init__
                  (HybridInventory.take_page root_page HybridInventory.__init__)
                  HybridInventory.__init__ contradictory_fs [] Hok))).
Defined.

(** X17: a save torn between its two writes. Both scripts write the
    checkpoint first and the inventory second. When a run dies after the
    first write, the new checkpoint stands beside the inventory of the save
    before, and the loader puts the two together without a check: the cursor,
    [has_more] and the call counter are the new ones, the entries are the old
    ones. The entries taken between the two saves are in neither, and a run
    resumed from there goes on after them. *)
Theorem torn_save_pairs_new_cursor_with_old_entries
    (legacy legacy0 : DropboxInventory.Self)
    (hybrid hybrid0 : HybridInventory.Self)
    (old_legacy old_hybrid : Progress) (fs : FS) :
  fs !! DropboxInventory.INVENTORY_JSON
  = Some (Text (JInventory (artifact old_legacy))) ->
  fs !! HybridInventory.INVENTORY_JSON
  = Some (Text (JInventory (hybrid_artifact old_hybrid))) ->
  NoDup (map path (seen old_hybrid)) ->
  (exists legacy',
      DropboxInventory._load_checkpoint legacy0
        (DropboxInventory._save_checkpoint legacy fs)
      = (Return true, legacy')
      /\ progress_of legacy'
         = {| seen := seen old_legacy;
              at_cursor := DropboxInventory.cursor legacy;
              more := DropboxInventory.has_more legacy;
              calls := DropboxInventory.api_calls legacy |})
  /\ hybrid_progress_of
       (snd (HybridInventory._load_old_progress hybrid0
               (fs_run (firstn 2 (HybridInventory._save_all_ops hybrid)) fs)))
     = {| seen := seen old_hybrid;
          at_cursor := HybridInventory.cursor hybrid;
          more := HybridInventory.has_more hybrid;
          calls := HybridInventory.api_calls hybrid |}.
Proof.
  intros Hlegacy Hhybrid Hnd. split.
  - destruct (legacy_load_from (DropboxInventory.checkpoint_of legacy)
                (artifact old_legacy) legacy0
                (DropboxInventory._save_checkpoint legacy fs))
      as (legacy' & Hload & Hp & _).
    + cbn. apply lookup_insert_eq.
    + cbn. rewrite !lookup_insert_ne by discriminate. exact Hlegacy.
    + exists legacy'. split; [exact Hload|]. rewrite Hp. reflexivity.
  - rewrite (hybrid_load_from (HybridInventory.checkpoint_of hybrid)
               (hybrid_artifact old_hybrid)).
    + reflexivity.
    + cbn. apply lookup_insert_eq.
    + cbn. rewrite !lookup_insert_ne by discriminate. exact Hhybrid.
    + exact Hnd.
Qed.

Lemma torn_save_pairs_new_cursor_with_old_entries_witness :
  hybrid_progress_of
    (snd (HybridInventory._load_old_progress HybridInventory.__init__
            (fs_run (firstn 2 (HybridInventory._save_all_ops
                                 (HybridInventory.take_page last_page
                                    (HybridInventory.take_page root_page
                                       HybridInventory.__init__))))
               after_first_page)))
  = {| seen := [folder_entry folder_A; file_entry file_f];
       at_cursor := Some "c2"; more := false; calls := 0 |}.
Proof.
  assert (Hlegacy : after_first_page !! DropboxInventory.INVENTORY_JSON
                    = Some (Text (JInventory (artifact (started root_page))))).
  { unfold after_first_page. rewrite lookup_insert_ne by discriminate.
    apply lookup_singleton_eq. }
  assert (Hhybrid : after_first_page !! HybridInventory.INVENTORY_JSON
                    = Some (Text (JInventory (hybrid_artifact (started root_page))))).
  { unfold after_first_page. apply lookup_insert_eq. }
  assert (Hnd : NoDup (map path (seen (started root_page)))).
  { apply (bool_decide_unpack _). vm_compute. exact I. }
  exact (proj2 (torn_save_pairs_new_cursor_with_old_entries
                  DropboxInventory.__init__ DropboxInventory.__init__
                  (HybridInventory.take_page last_page
                     (HybridInventory.take_page root_page HybridInventory.__init__))
                  HybridInventory.__init__
                  (started root_page) (started root_page) after_first_page
                  Hlegacy Hhybrid Hnd)).
Defined.

(** ** Parents and children *)

Lemma absolute_inj a b :
  Forall slash_free a -> Forall slash_free b -> absolute a = absolute b -> a = b.
Proof.
  intros Ha Hb Heq. apply (f_equal (split "/")) in Heq.
  rewrite !split_absolute in Heq by assumption. congruence.
Qed.

Lemma absolute_not_root seg segments :
  seg <> EmptyString -> absolute (seg :: segments) <> "/".
Proof.
  intros Hseg. rewrite absolute_cons. destruct seg as [|c seg]; [congruence|].
  rewrite append_cons. discriminate.
Qed.

Lemma Forall_removelast {A : Type} (P : A -> Prop) (l : list A) :
  Forall P l -> Forall P (removelast l).
Proof.
  induction 1 as [|x l Hx Hl IH]; [constructor|].
  destruct l as [|y l]; [constructor|].
  rewrite removelast_cons2. now constructor.
Qed.

(** X18: the folder an entry is counted under. For an entry whose display
    path is made of the segments [segments], [parent_folder] is the path made
    of the segments [parent] exactly when [segments] is [parent] followed by
    one more segment: the spot check's [inv_count] for a folder counts its
    direct children and nothing deeper, and an inventory with just such an
    entry counts 1 for the folder. *)
Theorem parent_folder_is_direct_parent (entry : Metadata) (e : Entry)
    (segments parent : list string) :
  HybridInventory._process_entry entry = Some e ->
  Forall segment segments ->
  Forall segment parent ->
  parent <> [] ->
  path e = absolute segments ->
  (parent_folder e = absolute parent <-> exists name, segments = (parent ++ [name])%list)
  /\ verify_inventory.inv_count [e] (absolute parent)
     = if bool_decide (removelast segments = parent) then 1 else 0.
Proof.
  intros He Hsegs Hparent Hne Hpath.
  assert (Hfree : Forall slash_free segments).
  { eapply Forall_impl; [exact Hsegs|]. now intros x [Hx _]. }
  assert (Hpfree : Forall slash_free parent).
  { eapply Forall_impl; [exact Hparent|]. now intros x [Hx _]. }
  pose proof (parent_folder_of_segments entry e segments He Hfree Hpath) as Hpf.
  assert (Hiff : parent_folder e = absolute parent <-> removelast segments = parent).
  { rewrite Hpf. destruct parent as [|p0 parent]; [congruence|].
    apply Forall_cons in Hparent as [[_ Hp0] _].
    destruct segments as [|x [|y l]].
    - split; [|discriminate]. intros Heq. symmetry in Heq.
      now apply absolute_not_root in Heq.
    - split; [|discriminate]. intros Heq. symmetry in Heq.
      now apply absolute_not_root in Heq.
    - split; [|now intros ->].
      apply absolute_inj; [|exact Hpfree]. now apply Forall_removelast. }
  split.
  - rewrite Hiff. split.
    + intros <-. destruct segments as [|x l]; [now cbn in Hne|].
      exists (List.last (x :: l) x). now apply app_removelast_last.
    + intros [name ->]. apply removelast_last.
  - unfold verify_inventory.inv_count. cbn [List.filter].
    case_bool_decide as Hl; case_bool_decide as Hr; try reflexivity.
    + now apply Hiff in Hl.
    + now apply Hiff in Hr.
Qed.

Lemma parent_folder_is_direct_parent_witness :
  verify_inventory.inv_count [file_entry file_f] "/A" = 1
  /\ (parent_folder (file_entry file_f) = "/A"
      <-> exists name, ["A"; "f.txt"] = (["A"] ++ [name])%list).
Proof.
  assert (Hsegs : Forall segment ["A"; "f.txt"]).
  { repeat constructor; discriminate. }
  assert (Hparent : Forall segment ["A"]).
  { repeat constructor; discriminate. }
  assert (Hne : ["A"] <> @nil string) by discriminate.
  destruct (parent_folder_is_direct_parent (IsFile file_f) (file_entry file_f)
              ["A"; "f.txt"] ["A"] eq_refl Hsegs Hparent Hne eq_refl)
    as [Hiff Hcount].
  split; [exact Hcount|exact Hiff].
Defined.

(** ** A run only appends *)

Lemma hybrid_take_page_appends result self :
  store_ok self ->
  exists rest,
    HybridInventory.entries (HybridInventory.take_page result self)
    = (HybridInventory.entries self ++ rest)%list.
Proof.
  intros Hok.
  destruct (hybrid_take_page_progress result self Hok) as (Hp & _).
  pose proof (f_equal seen Hp) as Hseen. cbn [seen hybrid_progress_of] in Hseen.
  rewrite Hseen. apply extend_grows.
Qed.

Lemma hybrid_continue_appends {W : Type} `{Environment W} sigint fuel :
  forall pages self (fs : FS) (w : W) exit self' fs' w',
    store_ok self ->
    HybridInventory._continue_recursive sigint fuel pages self fs w
    = Some (exit, self', fs', w') ->
    exists rest,
      HybridInventory.entries self' = (HybridInventory.entries self ++ rest)%list.
Proof.
  induction fuel as [|fuel IH]; intros pages self fs w exit self' fs' w' Hok;
    rewrite hybrid_continue_unfold;
    (destruct (decide (sigint = Some pages)) as [_|_];
     [unfold HybridInventory._signal_handler, HybridInventory._save_all;
      intros [= <- <- <- <-]; exists (@nil Entry); cbn; now rewrite app_nil_r|]);
    (destruct (HybridInventory.has_more self && HybridInventory.is_running self);
     [|intros [= <- <- <- <-]; exists (@nil Entry); now rewrite app_nil_r]).
  - discriminate.
  - destruct (HybridInventory._api_call _ self w) as [[out self1] w1] eqn:Hcall.
    destruct (hybrid_api_call_frame _ _ _ _ _ _ Hcall) as (Hok1 & _ & _).
    assert (He1 : HybridInventory.entries self1 = HybridInventory.entries self).
    { destruct (hybrid_api_call_from_outcome
                  (files_list_folder_continue (HybridInventory.cursor self))
                  (seq 0 max_retries) self w) as [Hself _].
      fold (HybridInventory._api_call
              (files_list_folder_continue (HybridInventory.cursor self)) self w)
        in Hself.
      rewrite Hcall in Hself. cbn [fst snd] in Hself. now rewrite Hself. }
    destruct out as [result|e].
    + cbv zeta.
      destruct (hybrid_take_page_progress result self1 (Hok1 Hok)) as (_ & Hok2 & _).
      destruct (hybrid_take_page_appends result self1 (Hok1 Hok)) as [rest2 He2].
      set (self2 := HybridInventory.take_page result self1) in *.
      destruct (hybrid_periodic_save self2 fs w1) as (Hp3 & Hok3 & _).
      cbv zeta in Hp3, Hok3.
      destruct (if HybridInventory.save_due self2 w1
                then HybridInventory._save_all self2 fs w1 else (self2, fs))
        as [self3 fs3].
      cbn [fst] in Hp3, Hok3.
      pose proof (f_equal seen Hp3) as He3. cbn [seen hybrid_progress_of] in He3.
      intros Hrest. apply IH in Hrest as [rest Hrest]; [|now apply Hok3].
      exists (rest2 ++ rest)%list.
      now rewrite Hrest, He3, He2, He1, app_assoc.
    + intros [= <- <- <- <-]. exists (@nil Entry). now rewrite app_nil_r.
Qed.

Lemma legacy_paginate_appends {W : Type} `{Environment W} sigint fuel :
  forall pages self (fs : FS) (w : W) exit self' fs' w',
    DropboxInventory.paginate sigint fuel pages self fs w
    = Some (exit, self', fs', w') ->
    exists rest,
      DropboxInventory.entries self' = (DropboxInventory.entries self ++ rest)%list.
Proof.
  induction fuel as [|fuel IH]; intros pages self fs w exit self' fs' w';
    rewrite legacy_paginate_unfold;
    (destruct (decide (sigint = Some pages)) as [_|_];
     [unfold DropboxInventory._signal_handler, DropboxInventory._save_inventory;
      intros [= <- <- <- <-]; exists (@nil Entry); cbn; now rewrite app_nil_r|]);
    (destruct (DropboxInventory.has_more self && DropboxInventory.is_running self);
     [|unfold DropboxInventory.finish, DropboxInventory._save_inventory;
       destruct (DropboxInventory.is_running self);
       intros [= <- <- <- <-]; exists (@nil Entry); cbn; now rewrite app_nil_r]).
  - discriminate.
  - destruct (DropboxInventory._api_call _ _ self w) as [[out self1] w1] eqn:Hcall.
    destruct (legacy_api_call_frame _ _ _ _ _ _ _ Hcall) as (He1 & _ & _).
    destruct out as [result|e].
    + cbv zeta.
      pose proof (f_equal seen (proj1 (legacy_take_page_progress result self1)))
        as He2. cbn [seen progress_of] in He2.
      set (self2 := DropboxInventory.take_page result self1) in *.
      pose proof (f_equal seen (proj1 (legacy_periodic_save self2 fs w1))) as He3.
      cbv zeta in He3. cbn [seen progress_of] in He3.
      destruct (if DropboxInventory._should_save self2 w1
                then DropboxInventory._save_inventory self2
                       (DropboxInventory._save_checkpoint self2 fs) w1
                else (self2, fs)) as [self3 fs3].
      cbn [fst] in He3.
      intros Hrest. apply IH in Hrest as [rest Hrest].
      exists (omap HybridInventory._process_entry (res_entries result) ++ rest)%list.
      now rewrite Hrest, He3, He2, He1, app_assoc.
    + intros [= <- <- <- <-]. exists (@nil Entry). now rewrite He1, app_nil_r.
Qed.

(** X19: a run only appends. Whatever the remote answers and however the
    run ends, the entries the hybrid run ends with are those
    [_load_old_progress] gave it, in the same order, followed by new ones:
    nothing loaded is dropped, moved or replaced (with first-seen-wins, a
    record already there is never refreshed by a later listing). The legacy
    pagination loop likewise only appends to the entries it starts from. *)
Theorem run_only_appends {W : Type} `{Environment W}
    (sigint : option nat) (fuel : nat)
    (self : HybridInventory.Self) (fs : FS) (w : W)
    (exit : Exit) (self' : HybridInventory.Self) (fs' : FS) (w' : W) :
  store_ok self ->
  HybridInventory.run sigint fuel self fs w = Some (exit, self', fs', w') ->
  (exists rest,
      HybridInventory.entries self'
      = (HybridInventory.entries
           (snd (HybridInventory._load_old_progress
                   (HybridInventory.set_last_save_time (Some (time_time w)) self)
                   fs)) ++ rest)%list)
  /\ (forall pages legacy (fs1 : FS) (w1 : W) exit1 legacy' fs1' w1',
        DropboxInventory.paginate sigint fuel pages legacy fs1 w1
        = Some (exit1, legacy', fs1', w1') ->
        exists rest,
          DropboxInventory.entries legacy'
          = (DropboxInventory.entries legacy ++ rest)%list).
Proof.
  intros Hok Hresult. split; [|apply legacy_paginate_appends].
  revert Hresult. unfold HybridInventory.run.
  set (self0 := HybridInventory.set_last_save_time _ self).
  pose proof (load_old_progress_store_ok self0 fs
                (store_ok_same_store self self0 eq_refl eq_refl Hok)) as Hok1.
  destruct (HybridInventory._load_old_progress self0 fs) as [had_progress self1].
  cbn [snd] in Hok1 |- *.
  assert (Hfinish : forall self2 fs2 w2,
             Some (HybridInventory.finish self2 fs2 w2) = Some (exit, self', fs', w') ->
             HybridInventory.entries self' = HybridInventory.entries self2).
  { intros self2 fs2 w2. unfold HybridInventory.finish, HybridInventory._save_all.
    destruct (HybridInventory.is_running self2); intros [= <- <- <- <-]; reflexivity. }
  assert (Hloop : forall pages self2 fs2 w2 r,
             store_ok self2 ->
             HybridInventory._continue_recursive sigint fuel pages self2 fs2 w2 = r ->
             match r with
             | Some (Returned, self, fs, w) => Some (HybridInventory.finish self fs w)
             | _ => r
             end = Some (exit, self', fs', w') ->
             exists rest,
               HybridInventory.entries self'
               = (HybridInventory.entries self2 ++ rest)%list).
  { intros pages self2 fs2 w2 r Hok2 Hcont.
    destruct r as [[[[exit3 self3] fs3] w3]|]; [|discriminate].
    apply hybrid_continue_appends in Hcont as [rest Hrest]; [|exact Hok2].
    intros Heq. exists rest. destruct exit3 as [|code|e].
    - apply Hfinish in Heq. congruence.
    - injection Heq as <- <- <- <-. exact Hrest.
    - injection Heq as <- <- <- <-. exact Hrest. }
  destruct (truthy (HybridInventory.cursor self1) && HybridInventory.has_more self1).
  { exact (Hloop _ _ _ _ _ Hok1 eq_refl). }
  destruct (negb (HybridInventory.has_more self1)
            && nonempty (HybridInventory.entries self1)).
  { intros Heq. apply Hfinish in Heq. exists (@nil Entry). now rewrite app_nil_r. }
  unfold HybridInventory._start_fresh.
  destruct (decide (sigint = Some O)) as [_|_].
  { unfold HybridInventory._signal_handler, HybridInventory._save_all.
    intros [= <- <- <- <-]. exists (@nil Entry). cbn. now rewrite app_nil_r. }
  destruct (HybridInventory._api_call _ self1 w) as [[out self2] w2] eqn:Hcall.
  destruct (hybrid_api_call_frame _ _ _ _ _ _ Hcall) as (Hok2 & _ & _).
  assert (He2 : HybridInventory.entries self2 = HybridInventory.entries self1).
  { destruct (hybrid_api_call_from_outcome files_list_folder
                (seq 0 max_retries) self1 w) as [Hself _].
    fold (HybridInventory._api_call files_list_folder self1 w) in Hself.
    rewrite Hcall in Hself. cbn [fst snd] in Hself. now rewrite Hself. }
  destruct out as [result|e].
  - destruct (hybrid_take_page_progress result self2 (Hok2 Hok1)) as (_ & Hok3 & _).
    destruct (hybrid_take_page_appends result self2 (Hok2 Hok1)) as [rest3 He3].
    intros Heq. destruct (Hloop _ _ _ _ _ Hok3 eq_refl Heq) as [rest Hrest].
    exists (rest3 ++ rest)%list. now rewrite Hrest, He3, He2, app_assoc.
  - intros [= <- <- <- <-]. exists (@nil Entry). now rewrite He2, app_nil_r.
Qed.

Lemma run_only_appends_witness :
  exists rest,
    HybridInventory.entries
      (state_after HybridInventory.__init__ (hybrid_two_pages None after_first_page))
    = (HybridInventory.entries
         (snd (HybridInventory._load_old_progress
                 (HybridInventory.set_last_save_time (Some 0)
                    HybridInventory.__init__) after_first_page)) ++ rest)%list.
Proof.
  refine (proj1 (@run_only_appends (list Z) (scripted two_pages) None 2
                   HybridInventory.__init__ after_first_page [] Returned
                   (state_after HybridInventory.__init__
                      (hybrid_two_pages None after_first_page))
                   (files_after (hybrid_two_pages None after_first_page))
                   (world_after [] (hybrid_two_pages None after_first_page))
                   store_ok_init _)).
  vm_compute; reflexivity.
Defined.
